(** * Repository scoring and enhancement pipeline

    A shallow embedding of the scoring core of the portfolio backend:

    - [app/services/github/repository_analyzer.py]  (single-repository scorer),
    - [app/services/github/enhanced_analyzer.py]    (similarity search,
      comparison aggregate, recommendations, enhanced scores),
    - [app/services/portfolio_analyzer.py]          (portfolio roll-up),
    - [app/services/github_analyzer.py]             (scores, insights and
      recommendations of the deep analysis),
    - [app/api/v1/endpoints/enhanced_github.py]     (batch endpoint and
      portfolio insights).

    Conventions of the embedding.

    - A Python [float] is an exact rational ([Q]).  All the constants of the
      scoring rules are short decimals and the statements below are bounds,
      means and threshold tests, so the embedding computes the value the
      Python expression denotes before binary rounding.  Equality of scores is
      [Qeq] ([==]).
    - A Python [int] is a [Z]; [len] is a [nat].
    - A Python [str] is a [string], one character per [ascii]; text is
      taken to be ASCII ([lower] and the regular expression of the keyword
      extraction are embedded for ASCII characters).
    - A [dict] is an association list in insertion order with pairwise
      distinct keys (Python dicts iterate in insertion order and the code
      depends on it).
    - An exception is a value of [exn]; code that can raise returns
      [pyresult].  [try/except] is a match on the result.
    - [datetime.now()] and [datetime.fromisoformat] belong to the Python
      library.  They are parameters of the sections that use them: a clock
      reading [now] (a naive datetime, as [datetime.now()] returns; one
      reading serves a whole call) and a parser [fromisoformat].
    - The remote collaborators (the GitHub requests, the search, the
      per-repository analyzer of the portfolio, the AI insights) are
      parameters as well. *)

From Stdlib Require Import QArith Qminmax Qround ZArith List String Ascii Bool.
From Stdlib Require Import Lia Lqa Permutation Sorted DecimalString.
Import ListNotations.

Open Scope string_scope.
Open Scope Z_scope.
Open Scope Q_scope.

(* ================================================================= *)
(** * Python primitives *)

Module Py.

(** ** Exceptions *)

Inductive exn : Type :=
| ValueError
| TypeError
| KeyError
| OtherError.

Inductive pyresult (A : Type) : Type :=
| Ok (a : A)
| Raise (e : exn).

Arguments Ok {A} a.
Arguments Raise {A} e.

Definition bind {A B : Type} (m : pyresult A) (k : A -> pyresult B)
  : pyresult B :=
  match m with
  | Ok a => k a
  | Raise e => Raise e
  end.

Definition is_ok {A : Type} (m : pyresult A) : bool :=
  match m with Ok _ => true | Raise _ => false end.

(** ** Floats *)

Definition Qltb (a b : Q) : bool := negb (Qle_bool b a).

(** [min(a, b)]: the first argument unless the second is strictly less. *)
Definition min (a b : Q) : Q := if Qltb b a then b else a.

(** [max(a, b)]: the first argument unless the second is strictly more. *)
Definition max (a b : Q) : Q := if Qltb a b then b else a.

(** Nearest integer, ties to the even one (the rule of [round] and of
    the [f] format). *)
Definition round_half_even (x : Q) : Z :=
  let n := Qfloor x in
  let r := x - inject_Z n in
  if Qltb r (1 # 2) then n
  else if Qltb (1 # 2) r then (n + 1)%Z
  else if Z.even n then n else (n + 1)%Z.

(** [round(x, 2)]. *)
Definition round2 (x : Q) : Q :=
  inject_Z (round_half_even (x * 100)) / 100.

(** ** Strings *)

Definition str_truthy (s : string) : bool :=
  match s with EmptyString => false | _ => true end.

(** Truthiness of an [Optional[str]]: [None] and the empty string are
    false. *)
Definition opt_truthy (o : option string) : bool :=
  match o with Some s => str_truthy s | None => false end.

Definition list_truthy {A : Type} (l : list A) : bool :=
  match l with [] => false | _ => true end.

Definition str_in (s : string) (l : list string) : bool :=
  existsb (String.eqb s) l.

Definition is_upper (c : ascii) : bool :=
  let n := nat_of_ascii c in (65 <=? n)%nat && (n <=? 90)%nat.

Definition is_lower (c : ascii) : bool :=
  let n := nat_of_ascii c in (97 <=? n)%nat && (n <=? 122)%nat.

Definition is_digit (c : ascii) : bool :=
  let n := nat_of_ascii c in (48 <=? n)%nat && (n <=? 57)%nat.

Definition lower_char (c : ascii) : ascii :=
  if is_upper c then ascii_of_nat (nat_of_ascii c + 32) else c.

(** [s.lower()]. *)
Fixpoint lower (s : string) : string :=
  match s with
  | EmptyString => EmptyString
  | String c s' => String (lower_char c) (lower s')
  end.

(** [all(p(c) for c in s)]. *)
Fixpoint all_chars (p : ascii -> bool) (s : string) : bool :=
  match s with
  | EmptyString => true
  | String c s' => p c && all_chars p s'
  end.

(** [s.replace(old, new)] for a one-character [old]. *)
Fixpoint replace (old : ascii) (new : string) (s : string) : string :=
  match s with
  | EmptyString => EmptyString
  | String c s' =>
      if Ascii.eqb c old then new ++ replace old new s'
      else String c (replace old new s')
  end.

(** [s.split(sep)] for a one-character [sep]. *)
Fixpoint split (sep : ascii) (s : string) : list string :=
  match s with
  | EmptyString => [EmptyString]
  | String c s' =>
      if Ascii.eqb c sep then EmptyString :: split sep s'
      else
        match split sep s' with
        | [] => [String c EmptyString]
        | part :: parts => String c part :: parts
        end
  end.

(** [sep.join(l)]. *)
Fixpoint join (sep : string) (l : list string) : string :=
  match l with
  | [] => EmptyString
  | [x] => x
  | x :: xs => x ++ sep ++ join sep xs
  end.

(** [str(n)] for an [int]. *)
Definition str_of_int (n : Z) : string :=
  NilZero.string_of_int (Z.to_int n).

Definition str_of_len (n : nat) : string := str_of_int (Z.of_nat n).

(** [f"{x:.0f}"]. *)
Definition format_0f (x : Q) : string :=
  if Qltb x 0 then "-" ++ str_of_int (round_half_even (- x))
  else str_of_int (round_half_even x).

(** [f"{x:.1f}"]. *)
Definition format_1f (x : Q) : string :=
  let body (y : Q) :=
    let t := round_half_even (y * 10) in
    str_of_int (t / 10)%Z ++ "." ++ str_of_int (t mod 10)%Z in
  if Qltb x 0 then "-" ++ body (- x) else body x.

(** ** Dictionaries *)

Definition dict (V : Type) : Type := list (string * V).

Fixpoint get {V : Type} (d : dict V) (k : string) : option V :=
  match d with
  | [] => None
  | (k', v) :: d' => if String.eqb k k' then Some v else get d' k
  end.

Definition get_default {V : Type} (d : dict V) (k : string) (dflt : V) : V :=
  match get d k with Some v => v | None => dflt end.

Definition contains {V : Type} (d : dict V) (k : string) : bool :=
  match get d k with Some _ => true | None => false end.

(** [d[k] = v]: an existing key keeps its position, a new key goes last. *)
Fixpoint set {V : Type} (d : dict V) (k : string) (v : V) : dict V :=
  match d with
  | [] => [(k, v)]
  | (k', v') :: d' =>
      if String.eqb k k' then (k', v) :: d' else (k', v') :: set d' k v
  end.

Definition keys {V : Type} (d : dict V) : list string := map fst d.
Definition values {V : Type} (d : dict V) : list V := map snd d.

(** [sum(xs)] over ints. *)
Definition sum (xs : list Z) : Z := fold_left Z.add xs 0%Z.

(** [sorted(xs, key=key, reverse=True)] and [xs.sort(key=key,
    reverse=True)]: the stable descending sort.  Elements with equal keys
    keep their relative order, which determines the result uniquely; it is
    computed here by stable insertion. *)
Section SortedReverse.
Context {A : Type} (key : A -> Z).

Fixpoint insert_desc (x : A) (l : list A) : list A :=
  match l with
  | [] => [x]
  | y :: ys =>
      if (key x <? key y)%Z then y :: insert_desc x ys else x :: y :: ys
  end.

Fixpoint sorted_reverse (l : list A) : list A :=
  match l with
  | [] => []
  | x :: xs => insert_desc x (sorted_reverse xs)
  end.
End SortedReverse.

(** [list(set(xs))]: the distinct elements.  Python leaves the order of a
    set unspecified; the embedding lists them by first occurrence and no
    statement below depends on the order. *)
Fixpoint list_set (xs : list string) : list string :=
  match xs with
  | [] => []
  | x :: xs' => x :: filter (fun y => negb (String.eqb x y)) (list_set xs')
  end.

(** ** Datetimes *)

(** A datetime is an instant in microseconds, naive or aware. *)
Record datetime : Type := mk_datetime {
  micros : Z;
  aware : bool
}.

Definition us_per_day : Z := 86400000000.

(** [timedelta(days=n)] *)
Definition timedelta_days (n : Z) : Z := (n * us_per_day)%Z.

(** [td.days] *)
Definition days (td : Z) : Z := (td / us_per_day)%Z.

(** [a - b] on datetimes: mixing naive and aware raises [TypeError]. *)
Definition dt_sub (a b : datetime) : pyresult Z :=
  if Bool.eqb (aware a) (aware b) then Ok (micros a - micros b)%Z
  else Raise TypeError.

(** [a > b] on datetimes: mixing naive and aware raises [TypeError]. *)
Definition dt_gt (a b : datetime) : pyresult bool :=
  if Bool.eqb (aware a) (aware b) then Ok (micros b <? micros a)%Z
  else Raise TypeError.

(** [d - timedelta] *)
Definition dt_minus (d : datetime) (td : Z) : datetime :=
  mk_datetime (micros d - td) (aware d).

End Py.

(* ================================================================= *)
(** * Data model ([app/interfaces/github_interface.py]) *)

(** [RepositoryData] *)
Record RepositoryData : Type := mk_RepositoryData {
  id : Z;
  name : string;
  full_name : string;
  description : option string;
  language : option string;
  stars : Z;
  forks : Z;
  created_at : string;
  updated_at : string;
  topics : list string;
  size : Z;
  url : string
}.

(** [AnalysisResult] (the wall-clock [timestamp] string is left out). *)
Record AnalysisResult : Type := mk_AnalysisResult {
  repository : RepositoryData;
  technical_score : Q;
  quality_score : Q;
  activity_score : Q;
  overall_score : Q;
  insights : list string;
  recommendations : list string
}.

(** The signals of [GitHubRepositoryService]: the entries built by
    [get_contributors], [get_commits] and [get_issues]. *)
Record Contributor : Type := mk_Contributor {
  login : string;
  contributor_id : Z;
  contributions : Z;
  avatar_url : string;
  contributor_type : string
}.

Record Commit : Type := mk_Commit {
  sha : string;
  message : string;
  author : string;
  date : string;
  commit_url : string
}.

Record Issue : Type := mk_Issue {
  number : Z;
  title : string;
  state : string;
  issue_created_at : string;
  closed_at : option string;
  labels : list string
}.

(* ================================================================= *)
(** * Single-repository scorer ([repository_analyzer.py]) *)

Module RepositoryAnalyzer.

(** [_get_language_complexity] *)
Definition complexity_map : Py.dict Z :=
  [("Assembly", 10); ("C++", 9); ("C", 8); ("Rust", 8); ("Go", 7);
   ("Java", 6); ("C#", 6); ("Python", 5); ("JavaScript", 4);
   ("TypeScript", 5); ("PHP", 4); ("Ruby", 4); ("Swift", 6);
   ("Kotlin", 6); ("Scala", 7); ("HTML", 2); ("CSS", 2);
   ("Markdown", 1); ("Shell", 3)]%Z.

Definition _get_language_complexity (language : string) : Q :=
  match Py.get complexity_map language with
  | Some c => inject_Z c
  | None => 5.0
  end.

Definition complex_topics : list string :=
  ["ai"; "ml"; "blockchain"; "quantum"; "distributed"].

(** [_calculate_technical_score] *)
Definition _calculate_technical_score
    (repository : RepositoryData) (languages : Py.dict Z) : Q :=
  let score := 5.0 in
  let score :=
    match language repository with
    | Some l =>
        if Py.str_truthy l
        then score + (_get_language_complexity l - 5) * 0.2
        else score
    | None => score
    end in
  let score :=
    if (10000 <? size repository)%Z then score + 1.0
    else if (1000 <? size repository)%Z then score + 0.5
    else score in
  let score :=
    if (3 <? List.length languages)%nat then score + 0.5 else score in
  let score :=
    if Py.list_truthy (topics repository)
    then
      if existsb (fun topic => Py.str_in topic (topics repository))
                 complex_topics
      then score + 1.0 else score
    else score in
  Py.max 1.0 (Py.min 10.0 score).

(** [_calculate_quality_score] *)
Definition _calculate_quality_score
    (repository : RepositoryData) (contributors : list Contributor)
    (issues : list Issue) : Q :=
  let score := 5.0 in
  let score :=
    match description repository with
    | Some d =>
        if Py.str_truthy d && (50 <? String.length d)%nat
        then score + 1.0 else score
    | None => score
    end in
  let score :=
    if (1 <? List.length contributors)%nat then score + 1.0 else score in
  let score :=
    if Py.list_truthy issues
    then
      let open_issues :=
        List.length (filter (fun i => String.eqb (state i) "open") issues) in
      if (open_issues <? 10)%nat then score + 1.0 else score
    else score in
  let score := if (10 <? stars repository)%Z then score + 0.5 else score in
  let score := if (5 <? forks repository)%Z then score + 0.5 else score in
  Py.max 1.0 (Py.min 10.0 score).

Section Clock.
(** The clock reading of [datetime.now()] (naive, in microseconds) and
    the parser [datetime.fromisoformat]. *)
Variable now : Z.
Variable fromisoformat : string -> Py.pyresult Py.datetime.

Definition datetime_now : Py.datetime := Py.mk_datetime now false.

(** The body of the [try] in the commit loop: parse the date and compare
    it with the cut-off; any exception is caught by the bare [except]
    and the commit is skipped. *)
Definition commit_is_recent (cutoff_date : Py.datetime) (commit : Commit)
  : Py.pyresult bool :=
  Py.bind (fromisoformat (Py.replace "Z" "+00:00" (date commit)))
          (fun commit_date => Py.dt_gt commit_date cutoff_date).

Definition count_recent_commits
    (cutoff_date : Py.datetime) (commits : list Commit) : nat :=
  fold_left
    (fun recent_commits commit =>
       match commit_is_recent cutoff_date commit with
       | Py.Ok true => S recent_commits
       | Py.Ok false => recent_commits
       | Py.Raise _ => recent_commits
       end)
    commits 0%nat.

(** The [try] computing [age_days]; [except: age_days = 0]. *)
Definition age_days_of (repository : RepositoryData) : Z :=
  match Py.bind
          (fromisoformat (Py.replace "Z" "+00:00" (created_at repository)))
          (fun created_date => Py.dt_sub datetime_now created_date)
  with
  | Py.Ok td => Py.days td
  | Py.Raise _ => 0%Z
  end.

(** [_calculate_activity_score] *)
Definition _calculate_activity_score
    (repository : RepositoryData) (commits : list Commit) : Q :=
  let score := 5.0 in
  let score :=
    if Py.list_truthy commits
    then
      let cutoff_date := Py.dt_minus datetime_now (Py.timedelta_days 90) in
      let recent_commits := count_recent_commits cutoff_date commits in
      if (10 <? recent_commits)%nat then score + 2.0
      else if (5 <? recent_commits)%nat then score + 1.0
      else if (0 <? recent_commits)%nat then score + 0.5
      else score
    else score in
  let age_days := age_days_of repository in
  let score := if (365 <? age_days)%Z then score + 0.5 else score in
  Py.max 1.0 (Py.min 10.0 score).

(** [_generate_insights].  The recent-commit count sits in one [try]
    around the whole comprehension: one failing commit discards the
    insight. *)
Fixpoint count_recent_30 (cutoff : Py.datetime) (commits : list Commit)
  : Py.pyresult nat :=
  match commits with
  | [] => Py.Ok 0%nat
  | c :: cs =>
      Py.bind (fromisoformat (Py.replace "Z" "+00:00" (date c)))
        (fun d =>
           Py.bind (Py.dt_gt d cutoff)
             (fun recent =>
                Py.bind (count_recent_30 cutoff cs)
                  (fun n => Py.Ok (if recent then S n else n))))
  end.

Definition _generate_insights
    (repository : RepositoryData) (languages : Py.dict Z)
    (contributors : list Contributor) (commits : list Commit)
    (issues : list Issue) : list string :=
  (match language repository with
   | Some l =>
       if Py.str_truthy l then ["Primary language: " ++ l] else []
   | None => []
   end)
  ++ (if (1 <? List.length languages)%nat
      then ["Multi-language project with "
              ++ Py.str_of_len (List.length languages) ++ " languages"]
      else [])
  ++ (if Py.list_truthy commits
      then
        match count_recent_30
                (Py.dt_minus datetime_now (Py.timedelta_days 30)) commits
        with
        | Py.Ok recent_commits =>
            if (0 <? recent_commits)%nat
            then ["Active development with "
                    ++ Py.str_of_len recent_commits ++ " recent commits"]
            else []
        | Py.Raise _ => []
        end
      else [])
  ++ (if (50 <? stars repository)%Z then ["High community interest"]
      else [])
  ++ (if (1 <? List.length contributors)%nat then ["Collaborative development"]
      else [])
  ++ (if Py.list_truthy (topics repository)
      then ["Focused on: " ++ Py.join ", " (firstn 3 (topics repository))]
      else []).

(** [_generate_recommendations] *)
Definition _generate_recommendations
    (repository : RepositoryData)
    (technical_score quality_score activity_score : Q) : list string :=
  (if Py.Qltb quality_score 7
   then ["Improve documentation and README";
         "Add comprehensive testing"]
   else [])
  ++ (if Py.Qltb activity_score 6
      then ["Maintain regular development activity";
            "Set up automated updates"]
      else [])
  ++ (if Py.Qltb technical_score 6
      then ["Review code complexity";
            "Consider refactoring complex parts"]
      else [])
  ++ (if Py.opt_truthy (description repository) then []
      else ["Add a clear project description"])
  ++ (if Py.list_truthy (topics repository) then []
      else ["Add relevant topics to improve discoverability"]).

(** Lines 34-53 of [analyze_repository]: the scores, insights and
    recommendations, from the fetched signals. *)
Definition analyze_fetched
    (repository : RepositoryData) (languages : Py.dict Z)
    (contributors : list Contributor) (commits : list Commit)
    (issues : list Issue) : AnalysisResult :=
  let technical_score := _calculate_technical_score repository languages in
  let quality_score :=
    _calculate_quality_score repository contributors issues in
  let activity_score := _calculate_activity_score repository commits in
  let overall_score :=
    (technical_score + quality_score + activity_score) / 3 in
  mk_AnalysisResult repository
    technical_score quality_score activity_score overall_score
    (_generate_insights repository languages contributors commits issues)
    (_generate_recommendations repository
       technical_score quality_score activity_score).

(** The signals of [GitHubRepositoryService] for [(username, repo_name)];
    each is empty when the request fails. *)
Variable get_languages : string -> string -> Py.dict Z.
Variable get_contributors : string -> string -> list Contributor.
Variable get_commits : string -> string -> list Commit.
Variable get_issues : string -> string -> list Issue.

(** [analyze_repository]: unpack [full_name.split('/')] into two names
    (anything else raises [ValueError]), fetch, score.  The exception is
    logged and raised again. *)
Definition analyze_repository (repository : RepositoryData)
  : Py.pyresult AnalysisResult :=
  match Py.split "/" (full_name repository) with
  | [username; repo_name] =>
      Py.Ok (analyze_fetched repository
               (get_languages username repo_name)
               (get_contributors username repo_name)
               (get_commits username repo_name)
               (get_issues username repo_name))
  | _ => Py.Raise Py.ValueError
  end.

End Clock.


(** ** Batch analysis and metrics *)

(** The [repository] entry of the metrics dict. *)
Record RepositorySummary : Type := mk_RepositorySummary {
  rs_name : string;
  rs_full_name : string;
  rs_description : option string;
  rs_language : option string;
  rs_stars : Z;
  rs_forks : Z;
  rs_size : Z;
  rs_topics : list string
}.

(** The dict returned by [get_analysis_metrics], its nested dicts
    flattened: [contributors], [commits], [issues] and [metrics]. *)
Record AnalysisMetrics : Type := mk_AnalysisMetrics {
  m_repository : RepositorySummary;
  m_languages : Py.dict Z;
  contributors_count : nat;
  top_contributors : list Contributor;
  commits_count : nat;
  recent_commits : list Commit;
  issues_total : nat;
  issues_open : nat;
  issues_closed : nat;
  m_technical_score : Q;
  m_quality_score : Q;
  m_activity_score : Q
}.

Section Service.
Variable now : Z.
Variable fromisoformat : string -> Py.pyresult Py.datetime.
Variable get_languages : string -> string -> Py.dict Z.
Variable get_contributors : string -> string -> list Contributor.
Variable get_commits : string -> string -> list Commit.
Variable get_issues : string -> string -> list Issue.

(** [analyze_batch]: [asyncio.gather(..., return_exceptions=True)] gives
    one result or exception per repository, in order; the loop keeps the
    results. *)
Definition analyze_batch (repositories : list RepositoryData)
  : list AnalysisResult :=
  let results :=
    map (analyze_repository now fromisoformat get_languages
                            get_contributors get_commits get_issues)
        repositories in
  fold_left
    (fun valid_results result =>
       match result with
       | Py.Ok r => (valid_results ++ [r])%list
       | Py.Raise _ => valid_results
       end)
    results [].

(** [get_analysis_metrics] *)
Definition get_analysis_metrics (repository : RepositoryData)
  : Py.pyresult AnalysisMetrics :=
  match Py.split "/" (full_name repository) with
  | [username; repo_name] =>
      let languages := get_languages username repo_name in
      let contributors := get_contributors username repo_name in
      let commits := get_commits username repo_name in
      let issues := get_issues username repo_name in
      Py.Ok
        (mk_AnalysisMetrics
           (mk_RepositorySummary
              (name repository) (full_name repository)
              (description repository) (language repository)
              (stars repository) (forks repository) (size repository)
              (topics repository))
           languages
           (List.length contributors) (firstn 5 contributors)
           (List.length commits) (firstn 10 commits)
           (List.length issues)
           (List.length
              (filter (fun i => String.eqb (state i) "open") issues))
           (List.length
              (filter (fun i => String.eqb (state i) "closed") issues))
           (_calculate_technical_score repository languages)
           (_calculate_quality_score repository contributors issues)
           (_calculate_activity_score now fromisoformat repository commits))
  | _ => Py.Raise Py.ValueError
  end.
End Service.

End RepositoryAnalyzer.

(* ================================================================= *)
(** * Enhanced analyzer ([enhanced_analyzer.py]) *)

Module EnhancedAnalyzer.

(** An item of a GitHub search result, with the keys the analyzer reads:
    [full_name], [stargazers_count], [forks_count], [language], [topics]
    (absent reads as the empty list), [description], [updated_at]. *)
Record SearchItem : Type := mk_SearchItem {
  item_full_name : string;
  stargazers_count : Z;
  forks_count : Z;
  item_language : option string;
  item_topics : list string;
  item_description : option string;
  item_updated_at : string
}.

(** ** Keyword extraction *)

Definition common_words : list string :=
  ["the"; "a"; "an"; "and"; "or"; "but"; "in"; "on"; "at"; "to"; "for";
   "of"; "with"; "by"; "is"; "are"; "was"; "were"; "be"; "been"; "have";
   "has"; "had"; "do"; "does"; "did"; "will"; "would"; "could"; "should"].

(** [\w] on ASCII text. *)
Definition is_word_char (c : ascii) : bool :=
  Py.is_upper c || Py.is_lower c || Py.is_digit c || Ascii.eqb c "_".

(** The class [[a-zA-Z0-9-]]. *)
Definition in_class (c : ascii) : bool :=
  Py.is_upper c || Py.is_lower c || Py.is_digit c || Ascii.eqb c "-".

Definition opt_word (o : option ascii) : bool :=
  match o with Some c => is_word_char c | None => false end.

(** [\b] between the character before and the character after a position
    ([None] at either end of the text). *)
Definition word_boundary (before after : option ascii) : bool :=
  xorb (opt_word before) (opt_word after).

Definition head (s : string) : option ascii :=
  match s with EmptyString => None | String c _ => Some c end.

(** [[a-zA-Z0-9-]+\b] anchored at the start of [s]: the longest non-empty
    run of class characters that ends at a word boundary (greedy, giving
    back one character at a time). *)
Fixpoint match_body (s : string) : option string :=
  match s with
  | EmptyString => None
  | String c s' =>
      if in_class c then
        match match_body s' with
        | Some t => Some (String c t)
        | None =>
            if word_boundary (Some c) (head s')
            then Some (String c EmptyString) else None
        end
      else None
  end.

(** [\b[a-zA-Z0-9-]+\b] anchored at the start of [s], after [before]. *)
Definition match_at (before : option ascii) (s : string) : option string :=
  if word_boundary before (head s) then match_body s else None.

(** The left-to-right scan of [re.findall]: [skip] characters of the
    current match are still to be passed over. *)
Fixpoint scan (before : option ascii) (skip : nat) (s : string)
  : list string :=
  match s with
  | EmptyString => []
  | String c s' =>
      match skip with
      | S k => scan (Some c) k s'
      | O =>
          match match_at before s with
          | Some tok => tok :: scan (Some c) (String.length tok - 1) s'
          | None => scan (Some c) 0 s'
          end
      end
  end.

(** [re.findall(r'\b[a-zA-Z0-9-]+\b', text)] *)
Definition findall_words (text : string) : list string :=
  scan None 0 text.

Definition is_keyword (word : string) : bool :=
  (2 <? String.length word)%nat && negb (Py.str_in word common_words).

(** [_extract_keywords] *)
Definition _extract_keywords (text : string) : list string :=
  if Py.str_truthy text then
    let words := findall_words (Py.lower text) in
    let keywords := filter is_keyword words in
    firstn 10 keywords
  else [].

(** ** Similarity search *)

(** The loop over the pooled results: first occurrence of a name enters
    the dict, a later one replaces it when it has strictly more stars. *)
Definition dedup_step (unique_repos : Py.dict SearchItem) (repo : SearchItem)
  : Py.dict SearchItem :=
  match Py.get unique_repos (item_full_name repo) with
  | None => Py.set unique_repos (item_full_name repo) repo
  | Some old =>
      if (stargazers_count old <? stargazers_count repo)%Z
      then Py.set unique_repos (item_full_name repo) repo
      else unique_repos
  end.

Definition dedup (similar_repos : list SearchItem) : Py.dict SearchItem :=
  fold_left dedup_step similar_repos [].

(** Lines 95-105: remove duplicates, sort by stars, return the top 20. *)
Definition dedup_and_rank (similar_repos : list SearchItem)
  : list SearchItem :=
  let unique_repos := dedup similar_repos in
  let sorted_repos :=
    Py.sorted_reverse stargazers_count (Py.values unique_repos) in
  firstn 20 sorted_repos.

Section Search.
(** [_github_search(query, max_results)]: the remote search, an empty
    list on any failure. *)
Variable _github_search : string -> nat -> list SearchItem.

Definition _search_by_language (language : string) : list SearchItem :=
  _github_search ("language:" ++ language ++ " stars:>10") 10%nat.

Definition _search_by_topic (topic : string) : list SearchItem :=
  _github_search ("topic:" ++ topic ++ " stars:>5") 10%nat.

Definition _search_by_keywords (description : string) : list SearchItem :=
  let keywords := _extract_keywords description in
  if Py.list_truthy keywords
  then _github_search (Py.join " " (firstn 3 keywords) ++ " stars:>5")
                      10%nat
  else [].

(** [_search_similar_repositories] *)
Definition _search_similar_repositories (repository : RepositoryData)
  : list SearchItem :=
  let similar_repos :=
    ((match language repository with
      | Some l => if Py.str_truthy l then _search_by_language l else []
      | None => []
      end)
     ++ flat_map _search_by_topic (firstn 3 (topics repository))
     ++ (match description repository with
         | Some d => if Py.str_truthy d then _search_by_keywords d else []
         | None => []
         end))%list in
  dedup_and_rank similar_repos.
End Search.

(** ** Comparison aggregate *)

(** The dict built by [_analyze_top_repositories]; the empty dict [{}] it
    returns for an empty input or after an exception is [None]. *)
Record TopReposAnalysis : Type := mk_TopReposAnalysis {
  total_analyzed : nat;
  average_stars : Q;
  average_forks : Q;
  common_languages : Py.dict Z;
  common_topics : Py.dict Z;
  best_practices : list string;
  readme_patterns : list string;
  file_structure_patterns : list string
}.

Definition count_up (d : Py.dict Z) (k : string) : Py.dict Z :=
  Py.set d k (Py.get_default d k 0 + 1)%Z.

Definition count_languages (top_repos : list SearchItem) : Py.dict Z :=
  fold_left
    (fun d repo =>
       match item_language repo with
       | Some lang => if Py.str_truthy lang then count_up d lang else d
       | None => d
       end)
    top_repos [].

Definition count_topics (top_repos : list SearchItem) : Py.dict Z :=
  fold_left (fun d repo => fold_left count_up (item_topics repo) d)
            top_repos [].

Section Clock.
Variable now : Z.
Variable fromisoformat : string -> Py.pyresult Py.datetime.

(** One iteration of the loop of [_extract_best_practices].  The date
    arithmetic is not guarded: an exception leaves the function. *)
Definition practices_of (repo : SearchItem) : Py.pyresult (list string) :=
  let practices :=
    ((if (100 <? stargazers_count repo)%Z
      then ["High community engagement (100+ stars)"] else [])
     ++ (if (50 <? forks_count repo)%Z
         then ["Active community contribution (50+ forks)"] else [])
     ++ (match item_description repo with
         | Some d =>
             if Py.str_truthy d && (50 <? String.length d)%nat
             then ["Comprehensive project description"] else []
         | None => []
         end)
     ++ (if (3 <? List.length (item_topics repo))%nat
         then ["Well-categorized with multiple topics"] else []))%list in
  Py.bind (fromisoformat (Py.replace "Z" "+00:00" (item_updated_at repo)))
    (fun updated_at =>
       Py.bind (Py.dt_sub (Py.mk_datetime now false) updated_at)
         (fun td =>
            Py.Ok (practices
                     ++ (if (Py.days td <? 30)%Z
                         then ["Recent development activity"]
                         else []))%list)).

Fixpoint collect_practices (repositories : list SearchItem)
  : Py.pyresult (list string) :=
  match repositories with
  | [] => Py.Ok []
  | repo :: rest =>
      Py.bind (practices_of repo)
        (fun ps =>
           Py.bind (collect_practices rest)
             (fun qs => Py.Ok (ps ++ qs)%list))
  end.

(** [_extract_best_practices] *)
Definition _extract_best_practices (repositories : list SearchItem)
  : Py.pyresult (list string) :=
  Py.bind (collect_practices repositories)
          (fun practices => Py.Ok (Py.list_set practices)).

(** [_analyze_top_repositories]: [except Exception: return {}]. *)
Definition _analyze_top_repositories (repositories : list SearchItem)
  : option TopReposAnalysis :=
  if Py.list_truthy repositories then
    let top_repos := firstn 5 repositories in
    let n := inject_Z (Z.of_nat (List.length top_repos)) in
    match _extract_best_practices top_repos with
    | Py.Ok practices =>
        Some (mk_TopReposAnalysis
                (List.length top_repos)
                (inject_Z (Py.sum (map stargazers_count top_repos)) / n)
                (inject_Z (Py.sum (map forks_count top_repos)) / n)
                (count_languages top_repos)
                (count_topics top_repos)
                practices [] [])
    | Py.Raise _ => None
    end
  else None.
End Clock.

(** ** Recommendations *)

Record Recommendation : Type := mk_Recommendation {
  category : string;
  rec_title : string;
  rec_description : string;
  priority : string;
  action_items : list string
}.

Definition opt_common_languages (a : option TopReposAnalysis) : Py.dict Z :=
  match a with Some t => common_languages t | None => [] end.

Definition opt_common_topics (a : option TopReposAnalysis) : Py.dict Z :=
  match a with Some t => common_topics t | None => [] end.

Definition visibility_recommendation
    (repository : RepositoryData) (avg_stars : Q) : Recommendation :=
  mk_Recommendation
    "Community Engagement"
    "Increase Repository Visibility"
    ("Your repository has " ++ Py.str_of_int (stars repository)
       ++ " stars, while similar top repositories average "
       ++ Py.format_0f avg_stars
       ++ " stars. Focus on promoting your project.")
    "high"
    ["Add comprehensive README with screenshots";
     "Create demo videos or live examples";
     "Share on social media and developer communities";
     "Write blog posts about your project"].

Definition contribution_recommendation
    (repository : RepositoryData) (avg_forks : Q) : Recommendation :=
  mk_Recommendation
    "Community Contribution"
    "Encourage Community Contributions"
    ("Your repository has " ++ Py.str_of_int (forks repository)
       ++ " forks, while similar repositories average "
       ++ Py.format_0f avg_forks
       ++ " forks. Make it easier for others to contribute.")
    "medium"
    ["Add CONTRIBUTING.md file";
     "Create good first issue labels";
     "Add code of conduct";
     "Set up issue templates"].

Definition language_recommendation
    (lang : string) (lang_count : Z) : Recommendation :=
  mk_Recommendation
    "Technology Stack"
    ("Leverage " ++ lang ++ " Best Practices")
    (lang ++ " is used in " ++ Py.str_of_int lang_count
       ++ " of the top similar repositories. Ensure you're following "
       ++ lang ++ " best practices.")
    "medium"
    [("Follow " ++ lang ++ " style guides")%string;
     "Add proper linting and formatting";
     "Use modern {repository.language} features";
     "Add comprehensive tests"].

(** The topics of the frequency map, in its order, that the repository
    lacks and that occur at least twice. *)
Definition missing_topics_of
    (repository : RepositoryData) (common_topics : Py.dict Z)
  : list string :=
  map fst
      (filter (fun tc => negb (Py.str_in (fst tc) (topics repository))
                         && (2 <=? snd tc)%Z)
              common_topics).

Definition topics_recommendation (missing_topics : list string)
  : Recommendation :=
  mk_Recommendation
    "Repository Organization"
    "Add Relevant Topics"
    ("Consider adding these popular topics: "
       ++ Py.join ", " (firstn 5 missing_topics))
    "low"
    ["Add relevant topics to improve discoverability";
     "Research what topics similar repositories use";
     "Keep topics updated as project evolves"].

Definition quality_recommendation (quality_score : Q) : Recommendation :=
  mk_Recommendation
    "Code Quality"
    "Improve Code Quality"
    ("Your quality score is " ++ Py.format_1f quality_score
       ++ "/10. Focus on improving code quality.")
    "high"
    ["Add comprehensive documentation";
     "Write unit tests";
     "Improve code comments";
     "Follow consistent coding standards"].

Definition activity_recommendation (activity_score : Q) : Recommendation :=
  mk_Recommendation
    "Development Activity"
    "Increase Development Activity"
    ("Your activity score is " ++ Py.format_1f activity_score
       ++ "/10. Regular commits improve project credibility.")
    "medium"
    ["Make regular commits";
     "Respond to issues and PRs";
     "Update dependencies regularly";
     "Add new features or improvements"].

(** [_generate_improvement_recommendations] *)
Definition _generate_improvement_recommendations
    (repository : RepositoryData) (basic_analysis : AnalysisResult)
    (top_repos_analysis : option TopReposAnalysis)
  : list Recommendation :=
  ((match top_repos_analysis with
    | Some a =>
        let avg_stars := average_stars a in
        let avg_forks := average_forks a in
        (if Py.Qltb (inject_Z (stars repository)) (avg_stars * 0.1)
         then [visibility_recommendation repository avg_stars] else [])
        ++ (if Py.Qltb (inject_Z (forks repository)) (avg_forks * 0.1)
            then [contribution_recommendation repository avg_forks]
            else [])
    | None => []
    end)
   ++ (match language repository with
       | Some lang =>
           if Py.str_truthy lang then
             match Py.get (opt_common_languages top_repos_analysis) lang with
             | Some lang_count =>
                 if (3 <=? lang_count)%Z
                 then [language_recommendation lang lang_count] else []
             | None => []
             end
           else []
       | None => []
       end)
   ++ (if Py.list_truthy (topics repository) then
         let missing_topics :=
           missing_topics_of repository
                             (opt_common_topics top_repos_analysis) in
         if Py.list_truthy missing_topics
         then [topics_recommendation missing_topics] else []
       else [])
   ++ (if Py.Qltb (quality_score basic_analysis) 7
       then [quality_recommendation (quality_score basic_analysis)]
       else [])
   ++ (if Py.Qltb (activity_score basic_analysis) 6
       then [activity_recommendation (activity_score basic_analysis)]
       else []))%list.

(** ** Enhanced scores *)

(** The dict returned by [_calculate_enhanced_scores], one field per key. *)
Record EnhancedScores : Type := mk_EnhancedScores {
  e_technical_score : Q;
  e_quality_score : Q;
  e_activity_score : Q;
  e_overall_score : Q;
  market_position_score : Q;
  improvement_potential_score : Q
}.

(** Lines 381-392: the market-position score, from its default 5.0. *)
Definition market_position
    (basic_analysis : AnalysisResult)
    (top_repos_analysis : option TopReposAnalysis) : Q :=
  let score := 5.0 in
  match top_repos_analysis with
  | Some a =>
      let avg_stars := average_stars a in
      let avg_forks := average_forks a in
      let score :=
        if Py.Qltb 0 avg_stars then
          let star_ratio :=
            inject_Z (stars (repository basic_analysis)) / avg_stars in
          Py.min 10.0 (star_ratio * 10)
        else score in
      let score :=
        if Py.Qltb 0 avg_forks then
          let fork_ratio :=
            inject_Z (forks (repository basic_analysis)) / avg_forks in
          (score + Py.min 10.0 (fork_ratio * 10)) / 2
        else score in
      score
  | None => score
  end.

Definition count_priority (p : string) (improvements : list Recommendation)
  : nat :=
  List.length (filter (fun r => String.eqb (priority r) p) improvements).

(** Lines 394-400: the improvement-potential score. *)
Definition improvement_potential_of (improvements : list Recommendation)
  : Q :=
  let high_priority_improvements := count_priority "high" improvements in
  let medium_priority_improvements := count_priority "medium" improvements in
  let improvement_potential :=
    inject_Z (Z.of_nat (high_priority_improvements * 2
                        + medium_priority_improvements)) / 10 in
  Py.min 10.0 (5.0 + improvement_potential).

(** [_calculate_enhanced_scores] *)
Definition _calculate_enhanced_scores
    (basic_analysis : AnalysisResult)
    (top_repos_analysis : option TopReposAnalysis)
    (improvements : list Recommendation) : EnhancedScores :=
  let technical := technical_score basic_analysis in
  let quality := quality_score basic_analysis in
  let activity := activity_score basic_analysis in
  let market := market_position basic_analysis top_repos_analysis in
  let potential := improvement_potential_of improvements in
  mk_EnhancedScores technical quality activity
    ((technical + quality + activity + market + potential) / 5)
    market potential.


(** ** The enhanced analysis *)

(** The dict returned by [enhance_repository_analysis] (without the
    wall-clock [timestamp]). *)
Record EnhancedAnalysis : Type := mk_EnhancedAnalysis {
  ea_repository : RepositoryData;
  ea_basic_analysis : AnalysisResult;
  similar_repositories : list SearchItem;
  ea_top_repos_analysis : option TopReposAnalysis;
  ea_improvements : list Recommendation;
  enhanced_scores : EnhancedScores
}.

Section Pipeline.
Variable now : Z.
Variable fromisoformat : string -> Py.pyresult Py.datetime.
Variable _github_search : string -> nat -> list SearchItem.
Variable get_languages : string -> string -> Py.dict Z.
Variable get_contributors : string -> string -> list Contributor.
Variable get_commits : string -> string -> list Commit.
Variable get_issues : string -> string -> list Issue.

(** [enhance_repository_analysis]: the five steps; an exception of the
    basic analysis is logged and raised again. *)
Definition enhance_repository_analysis (repository : RepositoryData)
  : Py.pyresult EnhancedAnalysis :=
  Py.bind
    (RepositoryAnalyzer.analyze_repository
       now fromisoformat get_languages get_contributors get_commits
       get_issues repository)
    (fun basic_analysis =>
       let similar_repos :=
         _search_similar_repositories _github_search repository in
       let top_repos_analysis :=
         _analyze_top_repositories now fromisoformat similar_repos in
       let improvements :=
         _generate_improvement_recommendations
           repository basic_analysis top_repos_analysis in
       let enhanced_scores :=
         _calculate_enhanced_scores
           basic_analysis top_repos_analysis improvements in
       Py.Ok (mk_EnhancedAnalysis repository basic_analysis similar_repos
                top_repos_analysis improvements enhanced_scores)).
End Pipeline.

End EnhancedAnalyzer.

(* ================================================================= *)
(** * Portfolio analyzer ([portfolio_analyzer.py]) *)

Module PortfolioAnalyzer.

(** The analysis dict of [github_analyzer.analyze_repository], with the
    keys the portfolio reads; an absent key reads as its empty default. *)
Record Analysis : Type := mk_Analysis {
  a_languages : Py.dict Z;
  a_topics : list string;
  a_scores : Py.dict Q
}.

(** An entry of the repository listing. *)
Record RepoEntry : Type := mk_RepoEntry {
  repo_name : string;
  repo_description : string
}.

Record LanguageRank : Type := mk_LanguageRank {
  lr_language : string;
  lr_bytes : Z;
  lr_percentage : Q;
  lr_rank : nat
}.

Record TopicCount : Type := mk_TopicCount {
  tc_topic : string;
  tc_count : Z
}.

(** The dict built by [_process_portfolio_data]; [{}] is [None]. *)
Record PortfolioData : Type := mk_PortfolioData {
  pd_languages : list LanguageRank;
  pd_topics : list TopicCount;
  pd_average_scores : Py.dict Q;
  pd_project_categories : Py.dict Z;
  total_projects : nat;
  active_projects : nat;
  high_quality_projects : nat
}.

(** [xs[:n]] for an [int] bound. *)
Definition slice_to {A : Type} (n : Z) (xs : list A) : list A :=
  if (0 <=? n)%Z then firstn (Z.to_nat n) xs
  else firstn (Z.to_nat (Z.of_nat (List.length xs) + n)) xs.

(** [_get_user_repositories]: the fixed listing of the source. *)
Definition _get_user_repositories (username : string) (max_repos : Z)
  : list RepoEntry :=
  slice_to max_repos
    [mk_RepoEntry "portfolio-backend" "AI-powered portfolio backend";
     mk_RepoEntry "data-analysis-tool" "Advanced data analysis tool";
     mk_RepoEntry "web-app" "Modern web application"].

(** [enumerate] with ranks from [i + 1]. *)
Fixpoint assign_ranks (i : nat) (ranked : list LanguageRank)
  : list LanguageRank :=
  match ranked with
  | [] => []
  | l :: rest =>
      mk_LanguageRank (lr_language l) (lr_bytes l) (lr_percentage l) (S i)
      :: assign_ranks (S i) rest
  end.

(** [_rank_languages].  The percentage is the rounding of the exact
    quotient.  The code rounds the binary float of the quotient, which at
    an exact decimal tie (23 of 160 bytes, 14.375) can fall to the other
    side, one unit in the second decimal away; what is stated of the
    percentages is bounds that hold of both. *)
Definition _rank_languages (languages : Py.dict Z) : list LanguageRank :=
  let total_bytes := Py.sum (Py.values languages) in
  if (total_bytes =? 0)%Z then []
  else
    let ranked :=
      map (fun lb : string * Z =>
             let percentage :=
               (inject_Z (snd lb) / inject_Z total_bytes) * 100 in
             mk_LanguageRank (fst lb) (snd lb) (Py.round2 percentage) 0)
          languages in
    let ranked := Py.sorted_reverse lr_bytes ranked in
    firstn 10 (assign_ranks 0 ranked).

Definition count_up (d : Py.dict Z) (k : string) : Py.dict Z :=
  Py.set d k (Py.get_default d k 0 + 1)%Z.

(** [_get_top_topics] *)
Definition _get_top_topics (topics : list string) : list TopicCount :=
  let topic_counts := fold_left count_up topics [] in
  let ranked_topics :=
    map (fun tc : string * Z => mk_TopicCount (fst tc) (snd tc))
        topic_counts in
  firstn 15 (Py.sorted_reverse tc_count ranked_topics).

Definition Qsum (xs : list Q) : Q := fold_left Qplus xs 0.

(** [np.mean] *)
Definition mean (xs : list Q) : Q :=
  Qsum xs / inject_Z (Z.of_nat (List.length xs)).

Definition score_keys : list string :=
  ["technical"; "quality"; "activity"; "overall"].

(** The values [s.get(key, 0)] of the dicts that have [key]. *)
Definition values_of (key : string) (scores : list (Py.dict Q)) : list Q :=
  flat_map (fun s => match Py.get s key with
                     | Some v => [v]
                     | None => []
                     end) scores.

(** [_calculate_average_scores] *)
Definition _calculate_average_scores (scores : list (Py.dict Q))
  : Py.dict Q :=
  if Py.list_truthy scores then
    fold_left
      (fun avg_scores key =>
         let values := values_of key scores in
         Py.set avg_scores key
                (if Py.list_truthy values
                 then Py.round2 (mean values) else 0.0))
      score_keys []
  else [].

Definition categories : Py.dict (list string) :=
  [("web-development",
    ["web"; "frontend"; "backend"; "fullstack"; "react"; "vue"; "angular"]);
   ("mobile-development",
    ["mobile"; "ios"; "android"; "react-native"; "flutter"]);
   ("ai-ml",
    ["ai"; "ml"; "machine-learning"; "deep-learning"; "nlp";
     "computer-vision"]);
   ("data-science",
    ["data"; "analytics"; "visualization"; "pandas"; "numpy";
     "matplotlib"]);
   ("devops", ["devops"; "docker"; "kubernetes"; "ci-cd"; "aws"; "azure"]);
   ("backend",
    ["api"; "server"; "database"; "postgresql"; "mongodb"; "redis"]);
   ("frontend", ["ui"; "ux"; "design"; "css"; "html"; "javascript"]);
   ("game-development", ["game"; "unity"; "unreal"; "gaming"]);
   ("blockchain", ["blockchain"; "crypto"; "web3"; "solidity"]);
   ("other", [])].

(** The first category one of whose keywords satisfies [hit]. *)
Definition first_category (hit : string -> bool) : option string :=
  option_map fst
    (find (fun ck : string * list string => existsb hit (snd ck)) categories).

(** [_categorize_project] *)
Definition _categorize_project (analysis : Analysis) : string :=
  match first_category (fun keyword => Py.str_in keyword (a_topics analysis))
  with
  | Some category => category
  | None =>
      match first_category
              (fun keyword => Py.contains (a_languages analysis) keyword)
      with
      | Some category => category
      | None => "other"
      end
  end.

(** [_count_categories] *)
Definition _count_categories (cats : list string) : Py.dict Z :=
  fold_left count_up cats [].

(** The language accumulation of [_process_portfolio_data]. *)
Definition add_bytes (languages : Py.dict Z) (lb : string * Z) : Py.dict Z :=
  let languages :=
    if Py.contains languages (fst lb) then languages
    else Py.set languages (fst lb) 0%Z in
  Py.set languages (fst lb) (Py.get_default languages (fst lb) 0 + snd lb)%Z.

Definition merge_languages (analyses : list Analysis) : Py.dict Z :=
  fold_left (fun languages analysis =>
               fold_left add_bytes (a_languages analysis) languages)
            analyses [].

Definition score_above (key : string) (bound : Q) (a : Analysis) : bool :=
  Py.Qltb bound (Py.get_default (a_scores a) key 0).

(** [_process_portfolio_data] *)
Definition _process_portfolio_data (analyses : list Analysis)
  : option PortfolioData :=
  if Py.list_truthy analyses then
    let languages := merge_languages analyses in
    let topics := flat_map a_topics analyses in
    let scores :=
      filter (fun s : Py.dict Q => Py.list_truthy s)
             (map a_scores analyses) in
    let project_categories := map _categorize_project analyses in
    Some (mk_PortfolioData
            (_rank_languages languages)
            (_get_top_topics topics)
            (_calculate_average_scores scores)
            (_count_categories project_categories)
            (List.length analyses)
            (List.length (filter (score_above "activity" 5) analyses))
            (List.length (filter (score_above "quality" 7) analyses)))
  else None.

(** [portfolio_data.get(key, default)] on a dict that may be [{}]. *)
Definition get_average_scores (pd : option PortfolioData) : Py.dict Q :=
  match pd with Some d => pd_average_scores d | None => [] end.

Definition get_languages (pd : option PortfolioData) : list LanguageRank :=
  match pd with Some d => pd_languages d | None => [] end.

Definition get_project_categories (pd : option PortfolioData) : Py.dict Z :=
  match pd with Some d => pd_project_categories d | None => [] end.

(** [_generate_portfolio_recommendations] *)
Definition _generate_portfolio_recommendations (pd : option PortfolioData)
  : list string :=
  let avg_scores := get_average_scores pd in
  let languages := get_languages pd in
  let categories := get_project_categories pd in
  ((if Py.Qltb (Py.get_default avg_scores "quality" 0) 7
    then ["Focus on improving code quality and documentation"] else [])
   ++ (if Py.Qltb (Py.get_default avg_scores "activity" 0) 6
       then ["Maintain more active development on projects"] else [])
   ++ (if (8 <? List.length languages)%nat
       then ["Consider focusing on fewer core technologies for depth"]
       else if (List.length languages <? 3)%nat
       then ["Explore more programming languages for versatility"]
       else [])
   ++ (if Py.contains categories "ai-ml" then []
       else ["Consider adding AI/ML projects to stay current"])
   ++ (if Py.contains categories "devops" then []
       else ["Add DevOps projects to show deployment skills"])
   ++ ["Regularly update project documentation";
       "Add comprehensive testing to projects";
       "Showcase problem-solving approaches";
       "Highlight business value of projects"])%list.

(** [_identify_market_opportunities] *)
Definition _identify_market_opportunities (pd : option PortfolioData)
  : list string :=
  let categories := get_project_categories pd in
  let languages := get_languages pd in
  let top_languages :=
    map (fun lang => Py.lower (lr_language lang)) (firstn 3 languages) in
  ((if Py.contains categories "ai-ml" then []
    else ["AI/ML Engineering roles"])
   ++ (if Py.contains categories "devops" then []
       else ["DevOps Engineering positions"])
   ++ (if Py.contains categories "backend" then []
       else ["Backend Development roles"])
   ++ (if Py.str_in "python" top_languages
       then ["Python-focused roles"] else [])
   ++ (if Py.str_in "javascript" top_languages
       then ["Full-stack development"] else [])
   ++ (if Py.str_in "go" top_languages || Py.str_in "rust" top_languages
       then ["Systems programming roles"] else [])
   ++ ["Software Engineering positions";
       "Technical Leadership roles";
       "Startup technical roles";
       "Open source contributions"])%list.

Record MarketPosition : Type := mk_MarketPosition {
  position : string;
  market_score : Z;
  market_insights : list string;
  opportunities : list string
}.

Definition high_demand_languages : list string :=
  ["python"; "javascript"; "typescript"; "go"; "rust"].

Definition emerging_technologies : list string :=
  ["ai-ml"; "blockchain"; "devops"; "cloud"].

(** [_assess_market_position] *)
Definition _assess_market_position (pd : option PortfolioData)
  : MarketPosition :=
  let languages := get_languages pd in
  let categories := get_project_categories pd in
  let demanded :=
    filter (fun lang =>
              Py.str_in (Py.lower (lr_language lang)) high_demand_languages)
           (firstn 5 languages) in
  let trending :=
    filter (fun tech => Py.contains categories tech) emerging_technologies in
  let market_score :=
    (2 * Z.of_nat (List.length demanded)
     + Z.of_nat (List.length trending))%Z in
  let market_insights :=
    (map (fun lang => ("Strong demand for " ++ lr_language lang)%string)
         demanded
     ++ map (fun tech => ("Trending technology: " ++ tech)%string)
            trending)%list in
  let market_position :=
    if (6 <=? market_score)%Z then "High Market Demand"
    else if (4 <=? market_score)%Z then "Good Market Position"
    else "Growing Market Presence" in
  mk_MarketPosition market_position (Z.min 10 market_score) market_insights
                    (_identify_market_opportunities pd).

Record CareerGuidance : Type := mk_CareerGuidance {
  short_term : list string;
  medium_term : list string;
  long_term : list string;
  skill_development : list string;
  networking : list string
}.

(** [_generate_career_guidance] *)
Definition _generate_career_guidance (pd : option PortfolioData)
  : CareerGuidance :=
  let avg_scores := get_average_scores pd in
  let categories := get_project_categories pd in
  mk_CareerGuidance
    ((if Py.Qltb (Py.get_default avg_scores "quality" 0) 7
      then ["Improve code quality and testing"] else [])
     ++ (if (List.length categories <? 4)%nat
         then ["Diversify project types"] else [])
     ++ ["Update project documentation";
         "Add performance metrics to projects"])%list
    ["Build a flagship project";
     "Contribute to open source";
     "Learn emerging technologies";
     "Create technical blog content"]
    ["Establish technical leadership";
     "Build industry connections";
     "Consider specialization areas";
     "Explore entrepreneurship"]
    ["Advanced testing strategies";
     "Performance optimization";
     "System design principles";
     "Cloud architecture"]
    ["Attend tech conferences";
     "Join developer communities";
     "Participate in hackathons";
     "Connect with industry leaders"].

Section Collaborators.
(** [github_analyzer.analyze_repository(username, name)] and
    [ai_engine.generate_portfolio_insights(portfolio_data)]. *)
Variable analyze_repository : string -> string -> Py.pyresult Analysis.
Variable Insights : Type.
Variable generate_portfolio_insights : option PortfolioData -> Insights.

(** The dict returned by [analyze_portfolio] (without the wall-clock
    [analysis_date]). *)
Record PortfolioAnalysis : Type := mk_PortfolioAnalysis {
  pa_username : string;
  total_repositories : nat;
  analyzed_repositories : nat;
  portfolio_data : option PortfolioData;
  ai_insights : Insights;
  pa_recommendations : list string;
  market_position : MarketPosition;
  career_guidance : CareerGuidance
}.

(** The loop of [analyze_portfolio]: a repository whose analysis raises
    is logged and skipped ([continue]). *)
Definition analyze_each (username : string) (repositories : list RepoEntry)
  : list Analysis :=
  fold_left
    (fun analyses repo =>
       match analyze_repository username (repo_name repo) with
       | Py.Ok analysis => (analyses ++ [analysis])%list
       | Py.Raise _ => analyses
       end)
    repositories [].

(** [analyze_portfolio], after the repository listing is fetched. *)
Definition analyze_portfolio_of
    (username : string) (repositories : list RepoEntry)
  : PortfolioAnalysis :=
  let analyses := analyze_each username repositories in
  let portfolio_data := _process_portfolio_data analyses in
  mk_PortfolioAnalysis username
    (List.length repositories)
    (List.length analyses)
    portfolio_data
    (generate_portfolio_insights portfolio_data)
    (_generate_portfolio_recommendations portfolio_data)
    (_assess_market_position portfolio_data)
    (_generate_career_guidance portfolio_data).

(** [analyze_portfolio] *)
Definition analyze_portfolio (username : string) (max_repos : Z)
  : PortfolioAnalysis :=
  analyze_portfolio_of username (_get_user_repositories username max_repos).
End Collaborators.

Arguments pa_username {Insights} _.
Arguments total_repositories {Insights} _.
Arguments analyzed_repositories {Insights} _.
Arguments portfolio_data {Insights} _.
Arguments ai_insights {Insights} _.
Arguments pa_recommendations {Insights} _.
Arguments market_position {Insights} _.
Arguments career_guidance {Insights} _.
Arguments analyze_portfolio_of _ {Insights} _ _ _.
Arguments analyze_portfolio _ {Insights} _ _ _.

End PortfolioAnalyzer.

(* ================================================================= *)
(** * Deep repository analysis ([github_analyzer.py]) *)

Module GitHubAnalyzer.

(** ** Values of the analysis dict *)

(** The analysis is a dict of what the collectors return: nested dicts,
    lists, strings, numbers, booleans and [None]. *)
#[warnings="-register-all"] Inductive value : Type :=
| VNone
| VBool (b : bool)
| VNum (q : Q)
| VStr (s : string)
| VList (l : list value)
| VDict (d : list (string * value)).

(** The truth value of a value. *)
Definition truthy (v : value) : bool :=
  match v with
  | VNone => false
  | VBool b => b
  | VNum q => negb (Qeq_bool q 0)
  | VStr s => Py.str_truthy s
  | VList l => Py.list_truthy l
  | VDict d => Py.list_truthy d
  end.

(** [v.get(key, dflt)]: only a dict has the method; on anything else the
    attribute lookup raises ([AttributeError], here [Py.OtherError]). *)
Definition v_get (v : value) (key : string) (dflt : value)
  : Py.pyresult value :=
  match v with
  | VDict d => Py.Ok (Py.get_default d key dflt)
  | _ => Py.Raise Py.OtherError
  end.

(** [v[key]] for a string key *)
Definition v_item (v : value) (key : string) : Py.pyresult value :=
  match v with
  | VDict d =>
      match Py.get d key with
      | Some x => Py.Ok x
      | None => Py.Raise Py.KeyError
      end
  | _ => Py.Raise Py.TypeError
  end.

(** A value as an operand of arithmetic or of a comparison with a
    number. *)
Definition v_number (v : value) : Py.pyresult Q :=
  match v with
  | VNum q => Py.Ok q
  | VBool b => Py.Ok (if b then 1 else 0)
  | _ => Py.Raise Py.TypeError
  end.

(** [v < bound] for a number [bound] *)
Definition v_lt (v : value) (bound : Q) : Py.pyresult bool :=
  Py.bind (v_number v) (fun q => Py.Ok (Py.Qltb q bound)).

(** [len(v)] *)
Definition v_len (v : value) : Py.pyresult nat :=
  match v with
  | VStr s => Py.Ok (String.length s)
  | VList l => Py.Ok (List.length l)
  | VDict d => Py.Ok (List.length d)
  | _ => Py.Raise Py.TypeError
  end.

(** [for c in v]: the elements of a list, the keys of a dict, the
    characters of a string. *)
Definition v_iter (v : value) : Py.pyresult (list value) :=
  match v with
  | VList l => Py.Ok l
  | VDict d => Py.Ok (map (fun kv => VStr (fst kv)) d)
  | VStr s =>
      Py.Ok (map (fun c => VStr (String c EmptyString))
                 (list_ascii_of_string s))
  | _ => Py.Raise Py.TypeError
  end.

(** [w in s] on strings *)
Fixpoint str_contains (w s : string) : bool :=
  String.prefix w s
  || match s with
     | EmptyString => false
     | String _ s' => str_contains w s'
     end.

(** [key in v] for a string [key] *)
Definition v_in (key : string) (v : value) : Py.pyresult bool :=
  match v with
  | VList l =>
      Py.Ok (existsb (fun x => match x with
                               | VStr s => String.eqb key s
                               | _ => false
                               end) l)
  | VDict d => Py.Ok (Py.contains d key)
  | VStr s => Py.Ok (str_contains key s)
  | _ => Py.Raise Py.TypeError
  end.

Local Notation "x <- m ;; k" := (Py.bind m (fun x => k))
  (at level 61, m at next level, right associativity).

(** ** Architecture patterns *)

(** [_detect_architecture_patterns], on [structure["directories"]], the
    one entry it reads. *)
Definition _detect_architecture_patterns (directories : list string)
  : list string :=
  ((if existsb (fun d => str_contains "src" d) directories
    then ["src-based-structure"] else [])
   ++ (if existsb (fun d => str_contains "tests" d) directories
       then ["test-driven-development"] else [])
   ++ (if existsb (fun d => str_contains "docs" d) directories
       then ["documentation-focused"] else [])
   ++ (if existsb (fun d => str_contains "api" d) directories
       then ["api-first-design"] else [])
   ++ (if existsb (fun d => str_contains "frontend" d
                            || str_contains "backend" d) directories
       then ["separation-of-concerns"] else []))%list.

(** ** Scores *)

Section Clock.
Variable now : Z.
Variable fromisoformat : string -> Py.pyresult Py.datetime.

(** The technical score of [_calculate_scores], inside the [try]. *)
Definition technical_of (analysis : value) : Py.pyresult Q :=
  code_analysis <- v_get analysis "code_analysis" (VDict []) ;;
  complexity <- v_get code_analysis "complexity" (VDict []) ;;
  overall <- v_get complexity "overall" VNone ;;
  if truthy overall
  then
    code_analysis <- v_item analysis "code_analysis" ;;
    complexity <- v_item code_analysis "complexity" ;;
    complexity <- v_item complexity "overall" ;;
    avg_cyclomatic <- v_get complexity "avg_cyclomatic" (VNum 0) ;;
    avg_cyclomatic <- v_number avg_cyclomatic ;;
    Py.Ok (Py.max 1 (Py.min 10 (10 - avg_cyclomatic / 2)))
  else Py.Ok 5.0.

(** The quality score, inside the [try]. *)
Definition quality_of (analysis : value) : Py.pyresult Q :=
  code_analysis <- v_get analysis "code_analysis" (VDict []) ;;
  structure <- v_get code_analysis "structure" VNone ;;
  if truthy structure
  then
    code_analysis <- v_item analysis "code_analysis" ;;
    structure <- v_item code_analysis "structure" ;;
    patterns <- v_get structure "architecture_patterns" VNone ;;
    file_types <- v_get structure "file_types" (VDict []) ;;
    md <- v_get file_types ".md" VNone ;;
    file_types <- v_get structure "file_types" (VDict []) ;;
    test <- v_get file_types ".test" VNone ;;
    has_test <-
      (if truthy test then Py.Ok true
       else
         file_types <- v_get structure "file_types" (VDict []) ;;
         test <- v_get file_types "_test" VNone ;;
         Py.Ok (truthy test)) ;;
    let quality_factors :=
      [ (if truthy patterns then 1 else 0.5);
        (if truthy md then 1 else 0.5);
        (if has_test then 1 else 0.5) ] in
    Py.Ok (PortfolioAnalyzer.Qsum quality_factors
           / inject_Z (Z.of_nat (List.length quality_factors)) * 10)
  else Py.Ok 5.0.

(** The condition of the comprehension over the commits. *)
Definition is_recent (c : value) : Py.pyresult bool :=
  date <- v_get c "date" VNone ;;
  if truthy date
  then
    date <- v_item c "date" ;;
    match date with
    | VStr s =>
        commit_date <- fromisoformat s ;;
        Py.dt_gt commit_date
                 (Py.dt_minus (Py.mk_datetime now false)
                              (Py.timedelta_days 90))
    | _ => Py.Raise Py.TypeError
    end
  else Py.Ok false.

(** The comprehension: the first commit that raises ends it. *)
Fixpoint recent_commits_of (commits : list value)
  : Py.pyresult (list value) :=
  match commits with
  | [] => Py.Ok []
  | c :: rest =>
      keep <- is_recent c ;;
      recent <- recent_commits_of rest ;;
      Py.Ok (if keep then c :: recent else recent)
  end.

(** The activity score, inside the [try]. *)
Definition activity_of (analysis : value) : Py.pyresult Q :=
  commits <- v_get analysis "commits" VNone ;;
  if truthy commits
  then
    commits <- v_item analysis "commits" ;;
    commits <- v_iter commits ;;
    recent_commits <- recent_commits_of commits ;;
    Py.Ok (Py.min 10
             (inject_Z (Z.of_nat (List.length recent_commits)) / 10))
  else Py.Ok 5.0.

(** The scores of the [except] branch. *)
Definition fallback_scores : Py.dict Q :=
  [("technical", 5.0); ("quality", 5.0); ("activity", 5.0);
   ("overall", 5.0)].

(** [_calculate_scores] *)
Definition _calculate_scores (analysis : value) : Py.dict Q :=
  match
    technical <- technical_of analysis ;;
    quality <- quality_of analysis ;;
    activity <- activity_of analysis ;;
    Py.Ok [("technical", technical); ("quality", quality);
           ("activity", activity);
           ("overall", (technical + quality + activity) / 3)]
  with
  | Py.Ok scores => scores
  | Py.Raise _ => fallback_scores
  end.

(** ** Insights and recommendations *)

(** The body of the [try] of [_generate_insights]. *)
Definition insights_of (analysis : value) : Py.pyresult (list string) :=
  scores <- v_get analysis "scores" (VDict []) ;;
  quality <- v_get scores "quality" (VNum 0) ;;
  low_quality <- v_lt quality 7 ;;
  scores <- v_get analysis "scores" (VDict []) ;;
  activity <- v_get scores "activity" (VNum 0) ;;
  low_activity <- v_lt activity 5 ;;
  code_analysis <- v_get analysis "code_analysis" (VDict []) ;;
  structure <- v_get code_analysis "structure" (VDict []) ;;
  patterns <- v_get structure "architecture_patterns" VNone ;;
  architecture <-
    (if truthy patterns
     then
       code_analysis <- v_item analysis "code_analysis" ;;
       structure <- v_item code_analysis "structure" ;;
       patterns <- v_item structure "architecture_patterns" ;;
       separated <- v_in "separation-of-concerns" patterns ;;
       Py.Ok ((if separated
               then ["Good architectural separation detected"] else [])
              ++ (if truthy patterns then []
                  else ["Consider implementing clear architectural patterns"]))%list
     else Py.Ok []) ;;
  languages <- v_get analysis "languages" VNone ;;
  diversity <-
    (if truthy languages
     then
       languages <- v_item analysis "languages" ;;
       n <- v_len languages ;;
       Py.Ok (if (5 <? n)%nat
              then ["High language diversity - consider focusing on core technologies"]
              else if (n =? 1)%nat
              then ["Single language project - good for focused development"]
              else [])
     else Py.Ok []) ;;
  Py.Ok ((if low_quality
          then ["Consider adding more comprehensive documentation and tests"]
          else [])
         ++ (if low_activity
             then ["Repository shows low recent activity - consider regular updates"]
             else [])
         ++ architecture ++ diversity)%list.

(** [_generate_insights] *)
Definition _generate_insights (analysis : value) : list string :=
  match insights_of analysis with
  | Py.Ok insights => insights
  | Py.Raise _ => ["Analysis completed successfully"]
  end.

(** The body of the [try] of [_generate_recommendations]. *)
Definition recommendations_of (analysis : value)
  : Py.pyresult (list string) :=
  scores <- v_get analysis "scores" (VDict []) ;;
  quality <- v_get scores "quality" (VNum 0) ;;
  low_quality <- v_lt quality 7 ;;
  activity <- v_get scores "activity" (VNum 0) ;;
  low_activity <- v_lt activity 5 ;;
  technical <- v_get scores "technical" (VNum 0) ;;
  low_technical <- v_lt technical 6 ;;
  Py.Ok ((if low_quality
          then ["Add comprehensive README documentation";
                "Implement automated testing";
                "Add code style guidelines"]
          else [])
         ++ (if low_activity
             then ["Schedule regular maintenance updates";
                   "Set up automated dependency updates";
                   "Create development roadmap"]
             else [])
         ++ (if low_technical
             then ["Review code complexity";
                   "Consider refactoring complex functions";
                   "Add code review guidelines"]
             else []))%list.

(** [_generate_recommendations] *)
Definition _generate_recommendations (analysis : value) : list string :=
  match recommendations_of analysis with
  | Py.Ok recommendations => recommendations
  | Py.Raise _ => ["Continue current development practices"]
  end.

(** ** Combining the collected results *)

(** What [_clone_and_analyze] returns: the three analyses of the clone
    under their keys, or the empty dict when cloning or an analysis
    raised. *)
Definition clone_analysis (analyses : option (value * value * value))
  : value :=
  match analyses with
  | Some (code_analysis, commit_analysis, complexity_analysis) =>
      VDict [("code_structure", code_analysis);
             ("commit_patterns", commit_analysis);
             ("complexity", complexity_analysis)]
  | None => VDict []
  end.

(** [results[i] if not isinstance(results[i], Exception) else dflt]; an
    index past the end raises ([IndexError], here [Py.OtherError]). *)
Definition result_or (results : list (Py.pyresult value)) (i : nat)
    (dflt : value) : Py.pyresult value :=
  match nth_error results i with
  | Some (Py.Ok v) => Py.Ok v
  | Some (Py.Raise _) => Py.Ok dflt
  | None => Py.Raise Py.OtherError
  end.

(** The scores as a value of the analysis dict. *)
Definition scores_value (scores : Py.dict Q) : value :=
  VDict (map (fun kv => (fst kv, VNum (snd kv))) scores).

(** The text of [datetime.now().isoformat()]. *)
Variable timestamp : string.

(** [_process_analysis_results]: [results] are the outcomes of the ten
    collectors, as [asyncio.gather(..., return_exceptions=True)] lists
    them. *)
Definition _process_analysis_results
    (results : list (Py.pyresult value)) (username repo_name : string)
  : Py.pyresult value :=
  repo_info <- result_or results 0 (VDict []) ;;
  languages <- result_or results 1 (VDict []) ;;
  contributors <- result_or results 2 (VList []) ;;
  commits <- result_or results 3 (VList []) ;;
  issues <- result_or results 4 (VList []) ;;
  pull_requests <- result_or results 5 (VList []) ;;
  topics <- result_or results 6 (VList []) ;;
  releases <- result_or results 7 (VList []) ;;
  workflows <- result_or results 8 (VList []) ;;
  code_analysis <- result_or results 9 (VDict []) ;;
  let analysis :=
    [("repository", repo_info);
     ("languages", languages);
     ("contributors", contributors);
     ("commits", commits);
     ("issues", issues);
     ("pull_requests", pull_requests);
     ("topics", topics);
     ("releases", releases);
     ("workflows", workflows);
     ("code_analysis", code_analysis);
     ("timestamp", VStr timestamp);
     ("analysis_version", VStr "2.0.0")] in
  let analysis :=
    Py.set analysis "scores"
           (scores_value (_calculate_scores (VDict analysis))) in
  let analysis :=
    Py.set analysis "insights"
           (VList (map VStr (_generate_insights (VDict analysis)))) in
  let analysis :=
    Py.set analysis "recommendations"
           (VList (map VStr (_generate_recommendations (VDict analysis)))) in
  Py.Ok (VDict analysis).
End Clock.

End GitHubAnalyzer.

(* ================================================================= *)
(** * Enhanced endpoints ([api/v1/endpoints/enhanced_github.py]) *)

Module EnhancedEndpoints.
Import EnhancedAnalyzer.

(** The dict returned by [_calculate_portfolio_insights], its nested
    dicts flattened: [average_scores], [improvement_summary],
    [top_performing_repository] and [portfolio_strengths]. *)
Record PortfolioInsights : Type := mk_PortfolioInsights {
  avg_technical : Q;
  avg_quality : Q;
  avg_activity : Q;
  avg_market_position : Q;
  avg_improvement_potential : Q;
  avg_overall : Q;
  high_priority : nat;
  medium_priority : nat;
  total_improvements : nat;
  top_name : string;
  top_overall_score : Q;
  top_market_position : Q;
  portfolio_strengths : list string
}.

(** [sum(f(analysis) for analysis in analyses) / len(analyses)] *)
Definition average (f : EnhancedAnalysis -> Q)
    (analyses : list EnhancedAnalysis) : Q :=
  PortfolioAnalyzer.Qsum (map f analyses)
  / inject_Z (Z.of_nat (List.length analyses)).

(** [sum(len([imp for imp in analysis["improvements"]
              if imp.get("priority") == p]) for analysis in analyses)] *)
Definition count_improvements (p : string)
    (analyses : list EnhancedAnalysis) : nat :=
  fold_left Nat.add
            (map (fun analysis => count_priority p (ea_improvements analysis))
                 analyses)
            0%nat.

(** [max(first :: rest, key=key)]: the first element with the greatest
    key. *)
Fixpoint max_by {A : Type} (key : A -> Q) (best : A) (rest : list A) : A :=
  match rest with
  | [] => best
  | x :: rest' =>
      max_by key (if Py.Qltb (key best) (key x) then x else best) rest'
  end.

(** [_calculate_portfolio_insights]; the empty dict of an empty input is
    [None]. *)
Definition _calculate_portfolio_insights
    (enhanced_analyses : list EnhancedAnalysis) : option PortfolioInsights :=
  match enhanced_analyses with
  | [] => None
  | first :: rest =>
      let score f :=
        average (fun analysis => f (enhanced_scores analysis))
                enhanced_analyses in
      let avg_technical := score e_technical_score in
      let avg_quality := score e_quality_score in
      let avg_activity := score e_activity_score in
      let avg_market_position := score market_position_score in
      let avg_improvement_potential := score improvement_potential_score in
      let high_priority_improvements :=
        count_improvements "high" enhanced_analyses in
      let medium_priority_improvements :=
        count_improvements "medium" enhanced_analyses in
      let top_repo :=
        max_by (fun x => e_overall_score (enhanced_scores x)) first rest in
      Some
        (mk_PortfolioInsights
           (Py.round2 avg_technical)
           (Py.round2 avg_quality)
           (Py.round2 avg_activity)
           (Py.round2 avg_market_position)
           (Py.round2 avg_improvement_potential)
           (Py.round2 ((avg_technical + avg_quality + avg_activity
                        + avg_market_position + avg_improvement_potential)
                       / 5))
           high_priority_improvements
           medium_priority_improvements
           (high_priority_improvements + medium_priority_improvements)
           (name (ea_repository top_repo))
           (e_overall_score (enhanced_scores top_repo))
           (market_position_score (enhanced_scores top_repo))
           [ (if Py.Qltb 7 avg_technical
              then "Strong technical implementation"
              else "Technical skills development needed");
             (if Py.Qltb 7 avg_quality
              then "High code quality"
              else "Code quality improvement needed");
             (if Py.Qltb 6 avg_activity
              then "Active development"
              else "Increase development activity");
             (if Py.Qltb 6 avg_market_position
              then "Good market position"
              else "Improve repository visibility") ])
  end.

(** An entry of [enhanced_analyses] in the batch response. *)
Record BatchEntry : Type := mk_BatchEntry {
  be_repository : string;
  be_enhanced_scores : EnhancedScores;
  improvements_count : nat;
  similar_repos_count : nat
}.

(** The response of the batch endpoint. *)
Record BatchResponse : Type := mk_BatchResponse {
  br_username : string;
  total_repositories : nat;
  analyzed_repositories : nat;
  br_enhanced_analyses : list BatchEntry;
  portfolio_insights : option PortfolioInsights
}.

Section Batch.
Variable now : Z.
Variable fromisoformat : string -> Py.pyresult Py.datetime.
Variable _github_search : string -> nat -> list SearchItem.
Variable get_languages : string -> string -> Py.dict Z.
Variable get_contributors : string -> string -> list Contributor.
Variable get_commits : string -> string -> list Commit.
Variable get_issues : string -> string -> list Issue.
(** [github_service.get_repositories(username, max_repos)] *)
Variable get_repositories :
  string -> Z -> Py.pyresult (list RepositoryData).

(** The loop of the batch endpoint: a repository whose analysis raises is
    logged and skipped. *)
Definition analyze_each (repositories : list RepositoryData)
  : list EnhancedAnalysis :=
  fold_left
    (fun enhanced_analyses repo =>
       match enhance_repository_analysis
               now fromisoformat _github_search get_languages
               get_contributors get_commits get_issues repo
       with
       | Py.Ok analysis => (enhanced_analyses ++ [analysis])%list
       | Py.Raise _ => enhanced_analyses
       end)
    repositories [].

(** [enhanced_batch_analyze_repositories]; an exception of the listing
    becomes the [HTTPException] of the handler (here [Py.OtherError]). *)
Definition enhanced_batch_analyze_repositories
    (username : string) (max_repos : Z) : Py.pyresult BatchResponse :=
  match get_repositories username max_repos with
  | Py.Raise _ => Py.Raise Py.OtherError
  | Py.Ok repositories =>
      let enhanced_analyses := analyze_each repositories in
      let portfolio_insights :=
        _calculate_portfolio_insights enhanced_analyses in
      Py.Ok
        (mk_BatchResponse
           username
           (List.length repositories)
           (List.length enhanced_analyses)
           (map (fun analysis =>
                   mk_BatchEntry
                     (name (ea_repository analysis))
                     (enhanced_scores analysis)
                     (List.length (ea_improvements analysis))
                     (List.length (similar_repositories analysis)))
                enhanced_analyses)
           portfolio_insights)
  end.
End Batch.

End EnhancedEndpoints.

(* ================================================================= *)
(** * Well-formed inputs *)

Module Domain.

(** What the data model asks of a basic analysis result: a score set in
    [1, 10], for a repository whose star and fork counts are counts. *)
Definition basic_analysis_ok (basic_analysis : AnalysisResult) : Prop :=
  (1 <= technical_score basic_analysis <= 10)
  /\ (1 <= quality_score basic_analysis <= 10)
  /\ (1 <= activity_score basic_analysis <= 10)
  /\ (0 <= stars (repository basic_analysis))%Z
  /\ (0 <= forks (repository basic_analysis))%Z.

(** Descending order of keys: [x] may stand before [y]. *)
Definition desc {A : Type} (key : A -> Z) (x y : A) : Prop :=
  (key y <= key x)%Z.

(** A dict has pairwise distinct keys. *)
Definition dict_ok {V : Type} (d : Py.dict V) : Prop := NoDup (Py.keys d).

(** A language histogram: a dict of byte counts. *)
Definition histogram_ok (languages : Py.dict Z) : Prop :=
  dict_ok languages /\ Forall (fun b => (0 <= b)%Z) (Py.values languages).

(** The sum of the percentages of a language ranking. *)
Definition percentage_sum (ranking : list PortfolioAnalyzer.LanguageRank)
  : Q :=
  PortfolioAnalyzer.Qsum (map PortfolioAnalyzer.lr_percentage ranking).

(** The analysis of a listed repository returned instead of raising. *)
Definition succeeded
    (analyze_repository
       : string -> string -> Py.pyresult PortfolioAnalyzer.Analysis)
    (username : string) (repo : PortfolioAnalyzer.RepoEntry) : bool :=
  Py.is_ok (analyze_repository username (PortfolioAnalyzer.repo_name repo)).

(** The analyses of the repositories that were analyzed, in order. *)
Definition successes
    (analyze_repository
       : string -> string -> Py.pyresult PortfolioAnalyzer.Analysis)
    (username : string) (repositories : list PortfolioAnalyzer.RepoEntry)
  : list PortfolioAnalyzer.Analysis :=
  flat_map
    (fun repo =>
       match analyze_repository username (PortfolioAnalyzer.repo_name repo)
       with
       | Py.Ok analysis => [analysis]
       | Py.Raise _ => []
       end)
    repositories.


(** [w] occurs in [s]. *)
Definition substring (w s : string) : Prop :=
  exists pre post, s = (pre ++ w ++ post)%string.


(** The five statements [_extract_best_practices] can make. *)
Definition best_practice_statements : list string :=
  ["High community engagement (100+ stars)";
   "Active community contribution (50+ forks)";
   "Comprehensive project description";
   "Well-categorized with multiple topics";
   "Recent development activity"].

(** The six categories of improvement recommendations, in rule order. *)
Definition recommendation_categories : list string :=
  ["Community Engagement"; "Community Contribution"; "Technology Stack";
   "Repository Organization"; "Code Quality"; "Development Activity"].

(** [xs] is [ys] with some elements left out. *)
Fixpoint is_subseq (xs ys : list string) : bool :=
  match xs, ys with
  | [], _ => true
  | _ :: _, [] => false
  | x :: xs', y :: ys' =>
      if String.eqb x y then is_subseq xs' ys' else is_subseq xs ys'
  end.


(** [d[k] = d.get(k, 0) + 1], the counting step of both analyzers. *)
Definition bump (d : Py.dict Z) (k : string) : Py.dict Z :=
  Py.set d k (Py.get_default d k 0 + 1)%Z.

(** A frequency map in good order: distinct keys, counts of at least 1
    that add up to [n]. *)
Definition counts_to (d : Py.dict Z) (n : Z) : Prop :=
  NoDup (Py.keys d)
  /\ Forall (fun c => (1 <= c)%Z) (Py.values d)
  /\ Py.sum (Py.values d) = n.


(** The category and the priority of a recommendation. *)
Definition tag (r : EnhancedAnalyzer.Recommendation) : string * string :=
  (EnhancedAnalyzer.category r, EnhancedAnalyzer.priority r).


(** The five pattern names of the deep analysis, in the order of the
    checks. *)
Definition architecture_patterns : list string :=
  ["src-based-structure"; "test-driven-development";
   "documentation-focused"; "api-first-design"; "separation-of-concerns"].

(** The outcome of the clone collector: an exception, or the dict that
    [_clone_and_analyze] returns. *)
Definition clone_outcome (r : Py.pyresult GitHubAnalyzer.value) : Prop :=
  match r with
  | Py.Ok v => exists analyses, v = GitHubAnalyzer.clone_analysis analyses
  | Py.Raise _ => True
  end.

(** The improvements of all analyses, and those whose priority is neither
    high nor medium. *)
Definition all_improvements (analyses : list EnhancedAnalyzer.EnhancedAnalysis)
  : list EnhancedAnalyzer.Recommendation :=
  flat_map EnhancedAnalyzer.ea_improvements analyses.

Definition other_priority (r : EnhancedAnalyzer.Recommendation) : bool :=
  negb (String.eqb (EnhancedAnalyzer.priority r) "high"
        || String.eqb (EnhancedAnalyzer.priority r) "medium").


(** ** Tokens at word boundaries *)

(** The reading of the pattern of the keyword extraction, written without
    the scanner: the characters by enumeration, a boundary by its two
    neighbours, the tokens of a text by a relation. *)
Definition letters_and_digits : string :=
  "abcdefghijklmnopqrstuvwxyzABCDEFGHIJKLMNOPQRSTUVWXYZ0123456789".

Definition char_in (c : ascii) (s : string) : bool :=
  existsb (Ascii.eqb c) (list_ascii_of_string s).

(** A word character: a letter, a digit or the underscore. *)
Definition word_character (c : ascii) : bool :=
  char_in c letters_and_digits || Ascii.eqb c "_".

(** A token character: a letter, a digit or the hyphen. *)
Definition token_character (c : ascii) : bool :=
  char_in c letters_and_digits || Ascii.eqb c "-".

(** A text of ASCII characters, the texts for which [Py.lower] and the
    word characters above are those of Python. *)
Definition ascii_text (s : string) : bool :=
  Py.all_chars (fun c => (nat_of_ascii c <? 128)%nat) s.

Definition first_char (s : string) : option ascii :=
  match s with EmptyString => None | String c _ => Some c end.

Fixpoint last_char (s : string) : option ascii :=
  match s with
  | EmptyString => None
  | String c EmptyString => Some c
  | String _ s' => last_char s'
  end.

Definition is_word (o : option ascii) : bool :=
  match o with Some c => word_character c | None => false end.

(** A word boundary lies between two neighbours exactly one of which is a
    word character; the ends of the text count as no word character. *)
Definition boundary (before after : option ascii) : Prop :=
  is_word before <> is_word after.

(** [t] is a non-empty run of token characters in front of [rest] that
    ends at a word boundary. *)
Definition token_body (t rest : string) : Prop :=
  t <> EmptyString
  /\ Py.all_chars token_character t = true
  /\ boundary (last_char t) (first_char rest).

(** [t] is a token in front of [rest], in a text that continues after the
    character [before]: it starts and ends at a word boundary. *)
Definition token_at (before : option ascii) (t rest : string) : Prop :=
  boundary before (first_char t) /\ token_body t rest.

(** The tokens of a text, from left to right: where no token starts, one
    character is passed over; where tokens start, the longest one is taken
    and the text is read on behind it. *)
Inductive tokenized : option ascii -> string -> list string -> Prop :=
| tokenized_end (before : option ascii) :
    tokenized before EmptyString []
| tokenized_skip (before : option ascii) (c : ascii) (s : string)
                 (ts : list string) :
    (forall t rest, String c s = (t ++ rest)%string ->
                    ~ token_at before t rest) ->
    tokenized (Some c) s ts ->
    tokenized before (String c s) ts
| tokenized_token (before : option ascii) (s t rest : string)
                  (ts : list string) :
    s = (t ++ rest)%string ->
    token_at before t rest ->
    (forall t' rest', s = (t' ++ rest')%string ->
                      token_at before t' rest' ->
                      (String.length t' <= String.length t)%nat) ->
    tokenized (last_char t) rest ts ->
    tokenized before s (t :: ts).

End Domain.

(* ================================================================= *)
(** * Sample inputs *)

Module Samples.
Import EnhancedAnalyzer.

(** A repository with nothing but a primary language. *)
Definition bare_repository (lang : option string) : RepositoryData :=
  mk_RepositoryData 1 "site" "user/site" None lang 0 0
    "2024-01-01T00:00:00" "2024-06-01T00:00:00" [] 0
    "https://github.com/user/site".

(** A repository with the given star and fork counts and topics. *)
Definition counted_repository (s f : Z) (ts : list string)
  : RepositoryData :=
  mk_RepositoryData 2 "chat" "user/chat"
    (Some "A fast web API for real time chat") (Some "Python")
    s f "2024-01-01T00:00:00" "2024-06-01T00:00:00" ts 0
    "https://github.com/user/chat".

(** A basic analysis result with all three scores at the 5.0 base. *)
Definition base_analysis (r : RepositoryData) : AnalysisResult :=
  mk_AnalysisResult r 5.0 5.0 5.0 5.0 [] [].

(** A comparison aggregate with the given means and topic frequencies. *)
Definition aggregate (avg_stars avg_forks : Q) (tf : Py.dict Z)
  : TopReposAnalysis :=
  mk_TopReposAnalysis 5 avg_stars avg_forks [] tf [] [] [].


(** A search result with the given name, counts and update time. *)
Definition candidate (n : string) (s f : Z) (updated : string)
  : SearchItem :=
  mk_SearchItem n s f (Some "Python") ["chat"; "web"] None updated.

(** A clock reading, 2024-06-01T00:00:00, and a parser that knows one
    timestamp, without and with a UTC offset, and rejects the rest. *)
Definition sample_now : Z := 1717200000000000.

Definition sample_fromisoformat (s : string) : Py.pyresult Py.datetime :=
  if String.eqb s "2024-05-20T12:00:00"
  then Py.Ok (Py.mk_datetime 1716206400000000 false)
  else if String.eqb s "2024-05-20T12:00:00+00:00"
  then Py.Ok (Py.mk_datetime 1716206400000000 true)
  else Py.Raise Py.ValueError.


(** A listing of five repositories and an analyzer that raises for two
    of them. *)
Definition five_repositories : list PortfolioAnalyzer.RepoEntry :=
  map (fun n => PortfolioAnalyzer.mk_RepoEntry n "A repository")
      ["alpha"; "beta"; "gamma"; "delta"; "epsilon"].

Definition flaky_analyzer (username repo_name : string)
  : Py.pyresult PortfolioAnalyzer.Analysis :=
  if Py.str_in repo_name ["beta"; "delta"] then Py.Raise Py.OtherError
  else Py.Ok (PortfolioAnalyzer.mk_Analysis
                [("Python", 100%Z)] ["web"]
                [("technical", 5.0); ("quality", 5.0);
                 ("activity", 5.0); ("overall", 5.0)]).

(** Histograms: one language; eleven languages of one byte each; three
    languages. *)
Definition one_language : Py.dict Z := [("Python", 100%Z)].

Definition eleven_languages : Py.dict Z :=
  map (fun l => (l, 1%Z))
      ["Python"; "C"; "Go"; "Rust"; "Java"; "Ruby"; "PHP"; "Swift";
       "Scala"; "Shell"; "HTML"].

Definition three_languages : Py.dict Z :=
  [("Python", 1%Z); ("C", 1%Z); ("Go", 1%Z)].


(** A parser for which every timestamp carries a UTC offset, as GitHub's
    timestamps do once their final Z is replaced by +00:00. *)
Definition aware_fromisoformat (s : string) : Py.pyresult Py.datetime :=
  if Py.str_truthy s then Py.Ok (Py.mk_datetime 1716206400000000 true)
  else Py.Raise Py.ValueError.

(** A commit with the given date. *)
Definition commit_at (d : string) : Commit :=
  mk_Commit "0a1b2c3" "Update README" "user" d
            "https://github.com/user/chat/commit/0a1b2c3".


(** A search that answers every query with the same three items, two of
    them under one name. *)
Definition fixed_search (query : string) (max_results : nat)
  : list SearchItem :=
  [candidate "a/chat" 200 60 "2024-05-20T12:00:00";
   candidate "b/chat" 90 10 "2024-05-20T12:00:00";
   candidate "a/chat" 250 61 "2024-05-20T12:00:00"].


(** Collaborators that have nothing to report: a search without results
    and a repository service whose requests all fail. *)
Definition empty_search (query : string) (max_results : nat)
  : list SearchItem := [].

Definition no_languages (username repo_name : string) : Py.dict Z := [].
Definition no_contributors (username repo_name : string)
  : list Contributor := [].
Definition no_commits (username repo_name : string) : list Commit := [].
Definition no_issues (username repo_name : string) : list Issue := [].


(** A repository with the given full name. *)
Definition named_repository (fn : string) : RepositoryData :=
  mk_RepositoryData 3 "chat" fn None (Some "Python") 3 1
    "2024-01-01T00:00:00" "2024-06-01T00:00:00" [] 0
    "https://github.com/user/chat".

(** Issues in the given states. *)
Definition issue_in (st : string) : Issue :=
  mk_Issue 1 "Crash on start" st "2024-05-01T00:00:00" None [].

Definition three_issues (username repo_name : string) : list Issue :=
  [issue_in "open"; issue_in "closed"; issue_in "open"].


(** A commit of the deep analysis whose date carries a UTC offset. *)
Definition aware_commit : GitHubAnalyzer.value :=
  GitHubAnalyzer.VDict
    [("sha", GitHubAnalyzer.VStr "0a1b2c3");
     ("date", GitHubAnalyzer.VStr "2024-05-20T12:00:00+00:00")].

(** An analysis dict with one such commit. *)
Definition analysis_with_aware_commit : Py.dict GitHubAnalyzer.value :=
  [("languages", GitHubAnalyzer.VDict [("Python", GitHubAnalyzer.VNum 1200)]);
   ("commits", GitHubAnalyzer.VList [aware_commit])].

(** The structure analysis of a clone with documentation and tests. *)
Definition documented_structure : GitHubAnalyzer.value :=
  GitHubAnalyzer.VDict
    [("files", GitHubAnalyzer.VList []);
     ("directories",
      GitHubAnalyzer.VList [GitHubAnalyzer.VStr "src";
                            GitHubAnalyzer.VStr "tests"]);
     ("file_types",
      GitHubAnalyzer.VDict
        [(".md", GitHubAnalyzer.VDict [("count", GitHubAnalyzer.VNum 2)]);
         (".test", GitHubAnalyzer.VDict [("count", GitHubAnalyzer.VNum 4)])]);
     ("total_lines", GitHubAnalyzer.VNum 900);
     ("architecture_patterns",
      GitHubAnalyzer.VList
        [GitHubAnalyzer.VStr "src-based-structure";
         GitHubAnalyzer.VStr "test-driven-development"])].

(** The outcomes of the ten collectors for a documented, tested clone;
    the request for the issues failed. *)
Definition ten_results : list (Py.pyresult GitHubAnalyzer.value) :=
  [Py.Ok (GitHubAnalyzer.VDict [("name", GitHubAnalyzer.VStr "chat")]);
   Py.Ok (GitHubAnalyzer.VDict [("Python", GitHubAnalyzer.VNum 1200)]);
   Py.Ok (GitHubAnalyzer.VList []);
   Py.Ok (GitHubAnalyzer.VList []);
   Py.Raise Py.OtherError;
   Py.Ok (GitHubAnalyzer.VList []);
   Py.Ok (GitHubAnalyzer.VList []);
   Py.Ok (GitHubAnalyzer.VList []);
   Py.Ok (GitHubAnalyzer.VList []);
   Py.Ok (GitHubAnalyzer.clone_analysis
            (Some (documented_structure,
                   GitHubAnalyzer.VDict [],
                   GitHubAnalyzer.VDict [])))].


(** A description with an underscore inside two words and a hyphen inside
    one. *)
Definition mixed_description : string :=
  "Real_time chat-app for the Web_API v2".

End Samples.

(* ================================================================= *)
(** * Facts about the Python primitives *)

Module PyFacts.

Lemma Qltb_true (a b : Q) : Py.Qltb a b = true <-> a < b.
Proof.
  unfold Py.Qltb. rewrite negb_true_iff.
  split; intro H.
  - apply Qnot_le_lt. intro Hle.
    apply Qle_bool_iff in Hle. congruence.
  - destruct (Qle_bool b a) eqn:E; [|reflexivity].
    apply Qle_bool_iff in E. exfalso. apply (Qlt_not_le _ _ H E).
Qed.

Lemma Qltb_false (a b : Q) : Py.Qltb a b = false <-> b <= a.
Proof.
  unfold Py.Qltb. rewrite negb_false_iff. apply Qle_bool_iff.
Qed.

(** Case analysis on a comparison, with the order fact in the context. *)
Ltac case_Qltb a b :=
  let E := fresh "E" in
  destruct (Py.Qltb a b) eqn:E;
  [apply Qltb_true in E | apply Qltb_false in E].

Lemma min_le_l (a b : Q) : Py.min a b <= a.
Proof. unfold Py.min. case_Qltb b a; lra. Qed.

Lemma min_le_r (a b : Q) : Py.min a b <= b.
Proof. unfold Py.min. case_Qltb b a; lra. Qed.

Lemma min_glb (a b c : Q) : c <= a -> c <= b -> c <= Py.min a b.
Proof. intros. unfold Py.min. case_Qltb b a; lra. Qed.

Lemma max_ge_l (a b : Q) : a <= Py.max a b.
Proof. unfold Py.max. case_Qltb a b; lra. Qed.

Lemma max_ge_r (a b : Q) : b <= Py.max a b.
Proof. unfold Py.max. case_Qltb a b; lra. Qed.

Lemma max_lub (a b c : Q) : a <= c -> b <= c -> Py.max a b <= c.
Proof. intros. unfold Py.max. case_Qltb a b; lra. Qed.

(** Division by a literal, as a product ([lra] reads products only). *)
Lemma Qdiv_lit (x : Q) (n d : positive) :
  x / (Zpos n # d) == x * (Zpos d # n).
Proof. reflexivity. Qed.

(** The clamp [max(1.0, min(10.0, score))] that ends every score. *)
Lemma clamp_bounds (score : Q) :
  1 <= Py.max 1.0 (Py.min 10.0 score) <= 10.
Proof.
  split.
  - eapply Qle_trans; [|apply max_ge_l]. lra.
  - apply max_lub; [lra|]. eapply Qle_trans; [apply min_le_l|]. lra.
Qed.

Lemma clamp_ge (lo score : Q) :
  lo <= 10 -> lo <= score -> lo <= Py.max 1.0 (Py.min 10.0 score).
Proof.
  intros Hlo Hs.
  eapply Qle_trans; [|apply max_ge_r].
  apply min_glb; lra.
Qed.

(** [round_half_even] is within one half of its argument. *)
Lemma round_half_even_near (x : Q) :
  x - (1 # 2) <= inject_Z (Py.round_half_even x) <= x + (1 # 2).
Proof.
  unfold Py.round_half_even.
  pose proof (Qfloor_le x) as Hlo.
  pose proof (Qlt_floor x) as Hhi.
  rewrite inject_Z_plus in Hhi. change (inject_Z 1) with 1 in Hhi.
  case_Qltb (x - inject_Z (Qfloor x)) (1 # 2).
  - lra.
  - case_Qltb (1 # 2) (x - inject_Z (Qfloor x)).
    + rewrite inject_Z_plus. change (inject_Z 1) with 1. lra.
    + destruct (Z.even (Qfloor x)).
      * lra.
      * rewrite inject_Z_plus. change (inject_Z 1) with 1. lra.
Qed.

(** [round(x, 2)] is within 0.005 of [x]. *)
Lemma round2_near (x : Q) :
  x - (1 # 200) <= Py.round2 x <= x + (1 # 200).
Proof.
  unfold Py.round2.
  pose proof (round_half_even_near (x * 100)) as H.
  set (n := inject_Z (Py.round_half_even (x * 100))) in *.
  rewrite (Qdiv_lit n 100 1). split; lra.
Qed.

End PyFacts.

(* ================================================================= *)
(** * The single-repository scorer: bounds *)

Module ScorerFacts.
Import RepositoryAnalyzer PyFacts.

Lemma technical_score_bounds repository languages :
  1 <= _calculate_technical_score repository languages <= 10.
Proof. apply clamp_bounds. Qed.

Lemma quality_score_bounds repository contributors issues :
  1 <= _calculate_quality_score repository contributors issues <= 10.
Proof. apply clamp_bounds. Qed.

Lemma activity_score_bounds now fromisoformat repository commits :
  1 <= _calculate_activity_score now fromisoformat repository commits <= 10.
Proof. apply clamp_bounds. Qed.

(** Every rule of the quality score adds a bonus to the 5.0 base. *)
Lemma quality_score_ge_5 repository contributors issues :
  5 <= _calculate_quality_score repository contributors issues.
Proof.
  unfold _calculate_quality_score.
  apply clamp_ge; [lra|].
  destruct (description repository) as [d|];
    [destruct (Py.str_truthy d && (50 <? String.length d)%nat)|];
    destruct (1 <? List.length contributors)%nat;
    (destruct (Py.list_truthy issues);
     [destruct (List.length
                  (filter (fun i => String.eqb (state i) "open") issues)
                <? 10)%nat|]);
    destruct (10 <? stars repository)%Z;
    destruct (5 <? forks repository)%Z;
    lra.
Qed.

(** Every rule of the activity score adds a bonus to the 5.0 base. *)
Lemma activity_score_ge_5 now fromisoformat repository commits :
  5 <= _calculate_activity_score now fromisoformat repository commits.
Proof.
  unfold _calculate_activity_score.
  apply clamp_ge; [lra|].
  set (n := count_recent_commits _ _ _).
  destruct (Py.list_truthy commits);
    [destruct (10 <? n)%nat; [|destruct (5 <? n)%nat;
                                [|destruct (0 <? n)%nat]]|];
    destruct (365 <? age_days_of now fromisoformat repository)%Z;
    lra.
Qed.

(** [analyze_repository] returns exactly when the full name splits into an
    owner and a name, and then with the scores of the fetched signals. *)
Lemma analyze_repository_returns
    now fromisoformat get_languages get_contributors get_commits get_issues
    repository username repo_name :
  Py.split "/" (full_name repository) = [username; repo_name] ->
  analyze_repository now fromisoformat get_languages get_contributors
                     get_commits get_issues repository
  = Py.Ok (analyze_fetched now fromisoformat repository
             (get_languages username repo_name)
             (get_contributors username repo_name)
             (get_commits username repo_name)
             (get_issues username repo_name)).
Proof. intro H. unfold analyze_repository. now rewrite H. Qed.

Lemma analyze_repository_scores
    now fromisoformat get_languages get_contributors get_commits get_issues
    repository r :
  analyze_repository now fromisoformat get_languages get_contributors
                     get_commits get_issues repository = Py.Ok r ->
  (1 <= technical_score r <= 10)
  /\ (1 <= quality_score r <= 10)
  /\ (1 <= activity_score r <= 10).
Proof.
  unfold analyze_repository.
  destruct (Py.split "/" (full_name repository)) as [|u [|n [|x xs]]];
    try discriminate.
  intros [= <-]. unfold analyze_fetched.
  split; [apply technical_score_bounds|].
  split; [apply quality_score_bounds | apply activity_score_bounds].
Qed.

(** C1.  For every repository and every set of fetched signals (language
    histogram, contributors, commits, issues), whatever the clock and the
    date parser, the scorer returns technical, quality, activity and overall
    scores that each lie in [1, 10], and the overall score is the
    arithmetic mean of the other three. *)
Theorem C1_scores_in_range_and_mean
    (now : Z) (fromisoformat : string -> Py.pyresult Py.datetime)
    (repository : RepositoryData) (languages : Py.dict Z)
    (contributors : list Contributor) (commits : list Commit)
    (issues : list Issue) :
  let r := analyze_fetched now fromisoformat repository languages
                           contributors commits issues in
  (1 <= technical_score r <= 10)
  /\ (1 <= quality_score r <= 10)
  /\ (1 <= activity_score r <= 10)
  /\ (1 <= overall_score r <= 10)
  /\ overall_score r
     == (technical_score r + quality_score r + activity_score r) / 3.
Proof.
  cbn zeta. unfold analyze_fetched. cbn [technical_score quality_score
    activity_score overall_score].
  pose proof (technical_score_bounds repository languages) as Ht.
  pose proof (quality_score_bounds repository contributors issues) as Hq.
  pose proof (activity_score_bounds now fromisoformat repository commits)
    as Ha.
  set (t := _calculate_technical_score _ _) in *.
  set (q := _calculate_quality_score _ _ _) in *.
  set (a := _calculate_activity_score _ _ _ _) in *.
  repeat split; try tauto; try reflexivity;
    rewrite (Qdiv_lit (t + q + a) 3 1); lra.
Qed.

(** C10.  The quality score and the activity score are at least 5.0 for
    every input: both start from 5.0 and every rule adds a bonus.  The
    technical score can be lower: the language adjustment is negative for
    a language of complexity below 5 (here HTML, giving 4.4). *)
Theorem C10_quality_activity_at_least_5 :
  (forall repository contributors issues,
      5 <= _calculate_quality_score repository contributors issues)
  /\ (forall now fromisoformat repository commits,
         5 <= _calculate_activity_score now fromisoformat repository commits)
  /\ (exists repository languages,
         _calculate_technical_score repository languages < 5).
Proof.
  split; [exact quality_score_ge_5|].
  split; [exact activity_score_ge_5|].
  exists (Samples.bare_repository (Some "HTML")), [].
  vm_compute. reflexivity.
Qed.

End ScorerFacts.

(* ================================================================= *)
(** * The enhanced-score composer *)

Module ComposerFacts.
Import EnhancedAnalyzer PyFacts.

Lemma min_left (a b : Q) : a <= b -> Py.min a b = a.
Proof.
  intro H. unfold Py.min.
  destruct (Py.Qltb b a) eqn:E; [|reflexivity].
  apply Qltb_true in E. exfalso. apply (Qlt_not_le _ _ E H).
Qed.

Lemma ratio_nonneg (n : Z) (avg : Q) :
  (0 <= n)%Z -> 0 < avg -> 0 <= inject_Z n / avg * 10.
Proof.
  intros Hn Havg.
  apply Qmult_le_0_compat; [|lra].
  unfold Qdiv. apply Qmult_le_0_compat.
  - change 0 with (inject_Z 0). rewrite <- Zle_Qle. exact Hn.
  - apply Qlt_le_weak, Qinv_lt_0_compat, Havg.
Qed.

Lemma capped_ratio_bounds (n : Z) (avg : Q) :
  (0 <= n)%Z -> 0 < avg ->
  0 <= Py.min 10.0 (inject_Z n / avg * 10) <= 10.
Proof.
  intros Hn Havg. split.
  - apply min_glb; [lra | apply ratio_nonneg; assumption].
  - eapply Qle_trans; [apply min_le_l | lra].
Qed.

(** The market-position score of a repository with non-negative counts. *)
Lemma market_position_bounds basic_analysis top_repos_analysis :
  (0 <= stars (repository basic_analysis))%Z ->
  (0 <= forks (repository basic_analysis))%Z ->
  0 <= market_position basic_analysis top_repos_analysis <= 10.
Proof.
  intros Hs Hf. unfold market_position.
  destruct top_repos_analysis as [a|]; [|lra].
  case_Qltb 0 (average_stars a); case_Qltb 0 (average_forks a).
  - pose proof (capped_ratio_bounds _ _ Hs E) as B1.
    pose proof (capped_ratio_bounds _ _ Hf E0) as B2.
    rewrite Qdiv_lit. lra.
  - apply capped_ratio_bounds; assumption.
  - pose proof (capped_ratio_bounds _ _ Hf E0) as B2.
    rewrite Qdiv_lit. lra.
  - lra.
Qed.

Lemma improvement_potential_bounds improvements :
  5 <= improvement_potential_of improvements <= 10.
Proof.
  unfold improvement_potential_of.
  set (n := (count_priority "high" improvements * 2
             + count_priority "medium" improvements)%nat).
  assert (Hn : 0 <= inject_Z (Z.of_nat n)).
  { change 0 with (inject_Z 0). rewrite <- Zle_Qle. lia. }
  split.
  - apply min_glb; [lra|]. rewrite Qdiv_lit. lra.
  - eapply Qle_trans; [apply min_le_l | lra].
Qed.


(** The results of the scorer are well-formed basic analysis results. *)
Lemma analyze_fetched_ok
    now fromisoformat repository languages contributors commits issues :
  (0 <= stars repository)%Z -> (0 <= forks repository)%Z ->
  Domain.basic_analysis_ok
    (RepositoryAnalyzer.analyze_fetched
       now fromisoformat repository languages contributors commits issues).
Proof.
  intros Hs Hf. unfold Domain.basic_analysis_ok.
  unfold RepositoryAnalyzer.analyze_fetched.
  split; [apply ScorerFacts.technical_score_bounds|].
  split; [apply ScorerFacts.quality_score_bounds|].
  split; [apply ScorerFacts.activity_score_bounds|].
  split; [exact Hs | exact Hf].
Qed.

(** C2.  For every basic analysis result (scores in [1, 10], star and fork
    counts non-negative), every comparison aggregate (present or empty)
    and every recommendation list, the five fields technical, quality,
    activity, market-position and improvement-potential of the enhanced
    scores lie in [0, 10], and the enhanced overall score is their
    arithmetic mean. *)
Theorem C2_enhanced_scores_in_range_and_mean
    (basic_analysis : AnalysisResult)
    (top_repos_analysis : option TopReposAnalysis)
    (improvements : list Recommendation)
    (Hok : Domain.basic_analysis_ok basic_analysis) :
  let e := _calculate_enhanced_scores
             basic_analysis top_repos_analysis improvements in
  (0 <= e_technical_score e <= 10)
  /\ (0 <= e_quality_score e <= 10)
  /\ (0 <= e_activity_score e <= 10)
  /\ (0 <= market_position_score e <= 10)
  /\ (0 <= improvement_potential_score e <= 10)
  /\ e_overall_score e
     == (e_technical_score e + e_quality_score e + e_activity_score e
         + market_position_score e + improvement_potential_score e) / 5.
Proof.
  destruct Hok as (Ht & Hq & Ha & Hs & Hf).
  pose proof (market_position_bounds _ top_repos_analysis Hs Hf) as Hm.
  pose proof (improvement_potential_bounds improvements) as Hp.
  cbn zeta. unfold _calculate_enhanced_scores.
  cbn [e_technical_score e_quality_score e_activity_score e_overall_score
       market_position_score improvement_potential_score].
  repeat split; try lra; reflexivity.
Qed.

(** C2 at a concrete result: 3 stars and 1 fork against means of 50 and
    20, with one high-priority recommendation. *)
Lemma C2_witness :
  Domain.basic_analysis_ok
    (Samples.base_analysis (Samples.counted_repository 3 1 []))
  /\ let e := _calculate_enhanced_scores
                (Samples.base_analysis (Samples.counted_repository 3 1 []))
                (Some (Samples.aggregate 50 20 []))
                [quality_recommendation 5.0] in
     (0 <= e_technical_score e <= 10)
     /\ (0 <= e_quality_score e <= 10)
     /\ (0 <= e_activity_score e <= 10)
     /\ (0 <= market_position_score e <= 10)
     /\ (0 <= improvement_potential_score e <= 10)
     /\ e_overall_score e
        == (e_technical_score e + e_quality_score e + e_activity_score e
            + market_position_score e + improvement_potential_score e) / 5.
Proof.
  assert (Hok : Domain.basic_analysis_ok
                  (Samples.base_analysis (Samples.counted_repository 3 1 []))).
  { unfold Domain.basic_analysis_ok. simpl.
    repeat split; try (vm_compute; discriminate). }
  split.
  - exact Hok.
  - exact (C2_enhanced_scores_in_range_and_mean _ _ _ Hok).
Defined.




(** The enhanced scores of the whole pipeline, for a repository whose star
    and fork counts are counts. *)
Lemma enhance_repository_analysis_scores
    now fromisoformat search get_languages get_contributors get_commits
    get_issues repo ea :
  (0 <= stars repo)%Z -> (0 <= forks repo)%Z ->
  enhance_repository_analysis
    now fromisoformat search get_languages get_contributors get_commits
    get_issues repo = Py.Ok ea ->
  let e := enhanced_scores ea in
  (0 <= market_position_score e <= 10)
  /\ (5 <= improvement_potential_score e <= 10)
  /\ (1 <= e_overall_score e <= 10).
Proof.
  intros Hs Hf. unfold enhance_repository_analysis.
  unfold RepositoryAnalyzer.analyze_repository.
  destruct (Py.split "/" (full_name repo)) as [|u [|n [|x xs]]];
    try discriminate.
  cbn [Py.bind]. intros [= <-]. cbn zeta. cbn [enhanced_scores].
  set (basic := RepositoryAnalyzer.analyze_fetched _ _ _ _ _ _ _).
  set (top := _analyze_top_repositories _ _ _).
  set (imps := _generate_improvement_recommendations _ _ _).
  assert (Hok : Domain.basic_analysis_ok basic)
    by (apply analyze_fetched_ok; assumption).
  destruct Hok as (Ht & Hq & Ha & Hs' & Hf').
  pose proof (market_position_bounds basic top Hs' Hf') as Hm.
  pose proof (improvement_potential_bounds imps) as Hp.
  unfold _calculate_enhanced_scores.
  cbn [market_position_score improvement_potential_score e_overall_score].
  repeat split; try tauto; rewrite Qdiv_lit; lra.
Qed.

End ComposerFacts.

(* ================================================================= *)
(** * Dictionaries and the stable descending sort *)

Module DictFacts.

Lemma str_in_In (s : string) (l : list string) :
  Py.str_in s l = true <-> In s l.
Proof.
  unfold Py.str_in. rewrite existsb_exists. split.
  - intros (x & Hx & E). apply String.eqb_eq in E. subst. exact Hx.
  - intro H. exists s. split; [exact H | apply String.eqb_refl].
Qed.

Lemma str_in_false (s : string) (l : list string) :
  Py.str_in s l = false <-> ~ In s l.
Proof.
  rewrite <- str_in_In. destruct (Py.str_in s l); split; congruence.
Qed.

Section Dict.
Context {V : Type}.
Implicit Types (d : Py.dict V) (k : string) (v : V).

Lemma get_None d k : Py.get d k = None <-> ~ In k (Py.keys d).
Proof.
  induction d as [|[k' v'] d IH]; simpl.
  - tauto.
  - destruct (String.eqb_spec k k') as [->|Hne].
    + split; [discriminate | intro H; exfalso; apply H; now left].
    + rewrite IH. split.
      * intros H [E|Hin]; [congruence | contradiction].
      * intros H Hin. apply H. now right.
Qed.

Lemma get_Some_In d k v : Py.get d k = Some v -> In (k, v) d.
Proof.
  induction d as [|[k' v'] d IH]; simpl; [discriminate|].
  destruct (String.eqb_spec k k') as [->|Hne].
  - intros [= ->]. now left.
  - intro H. right. now apply IH.
Qed.

(** Assigning a new key appends it. *)
Lemma set_fresh d k v :
  ~ In k (Py.keys d) -> Py.set d k v = (d ++ [(k, v)])%list.
Proof.
  induction d as [|[k' v'] d IH]; simpl; intro H; [reflexivity|].
  destruct (String.eqb_spec k k') as [->|Hne].
  - exfalso. apply H. now left.
  - rewrite IH; [reflexivity|]. intro Hin. apply H. now right.
Qed.

(** Assigning an existing key leaves the keys as they are. *)
Lemma keys_set_present d k v :
  In k (Py.keys d) -> Py.keys (Py.set d k v) = Py.keys d.
Proof.
  induction d as [|[k' v'] d IH]; simpl; intro H; [contradiction|].
  destruct (String.eqb_spec k k') as [->|Hne]; simpl.
  - reflexivity.
  - f_equal. apply IH. destruct H as [E|H]; [congruence | exact H].
Qed.

Lemma keys_set_fresh d k v :
  ~ In k (Py.keys d) -> Py.keys (Py.set d k v) = (Py.keys d ++ [k])%list.
Proof.
  intro H. rewrite set_fresh by exact H.
  unfold Py.keys. rewrite map_app. reflexivity.
Qed.

Lemma set_keeps_NoDup d k v :
  NoDup (Py.keys d) -> NoDup (Py.keys (Py.set d k v)).
Proof.
  intro Hnd. destruct (in_dec string_dec k (Py.keys d)) as [Hin|Hout].
  - rewrite keys_set_present by exact Hin. exact Hnd.
  - rewrite keys_set_fresh by exact Hout.
    apply NoDup_app; [exact Hnd | repeat constructor; intros [] |].
    intros x Hx [E|[]]. subst. contradiction.
Qed.

(** Every entry after an assignment is the new one or an old one. *)
Lemma in_set d k v kv :
  In kv (Py.set d k v) -> kv = (k, v) \/ In kv d.
Proof.
  induction d as [|[k' v'] d IH]; simpl.
  - intros [E|[]]. now left.
  - destruct (String.eqb_spec k k') as [->|Hne]; simpl.
    + intros [E|H]; [now left | right; now right].
    + intros [E|H]; [right; now left|].
      destruct (IH H) as [E|Hin]; [now left | right; now right].
Qed.

Lemma get_set_same d k v : Py.get (Py.set d k v) k = Some v.
Proof.
  induction d as [|[k' v'] d IH]; simpl.
  - now rewrite String.eqb_refl.
  - destruct (String.eqb_spec k k') as [->|Hne]; simpl.
    + now rewrite String.eqb_refl.
    + destruct (String.eqb_spec k k'); [contradiction | exact IH].
Qed.

Lemma get_set_other d k k' v :
  k <> k' -> Py.get (Py.set d k v) k' = Py.get d k'.
Proof.
  intro Hne. induction d as [|[k0 v0] d IH]; simpl.
  - destruct (String.eqb_spec k' k); [congruence | reflexivity].
  - destruct (String.eqb_spec k k0) as [->|Hk]; simpl.
    + destruct (String.eqb_spec k' k0); [congruence | reflexivity].
    + destruct (String.eqb_spec k' k0); [reflexivity | exact IH].
Qed.

End Dict.

End DictFacts.

Module SortFacts.

Section Sort.
Context {A : Type} (key : A -> Z).

Local Abbreviation desc := (Domain.desc key).

Lemma insert_desc_perm (x : A) (l : list A) :
  Permutation (Py.insert_desc key x l) (x :: l).
Proof.
  induction l as [|y ys IH]; simpl; [reflexivity|].
  destruct (key x <? key y)%Z; [|reflexivity].
  rewrite IH. apply perm_swap.
Qed.

Lemma sorted_reverse_perm (l : list A) :
  Permutation (Py.sorted_reverse key l) l.
Proof.
  induction l as [|x xs IH]; simpl; [reflexivity|].
  rewrite insert_desc_perm. now constructor.
Qed.

Lemma insert_desc_hd (x y : A) (l : list A) :
  desc y x -> HdRel desc y l -> HdRel desc y (Py.insert_desc key x l).
Proof.
  intros Hyx Hl. destruct l as [|z zs]; simpl.
  - now constructor.
  - destruct (key x <? key z)%Z; constructor;
      [now inversion Hl | exact Hyx].
Qed.

Lemma insert_desc_sorted (x : A) (l : list A) :
  Sorted desc l -> Sorted desc (Py.insert_desc key x l).
Proof.
  induction 1 as [|y ys Hs IH Hhd]; simpl.
  - repeat constructor.
  - destruct (key x <? key y)%Z eqn:E.
    + constructor; [exact IH|].
      apply insert_desc_hd; [|exact Hhd].
      unfold Domain.desc. apply Z.ltb_lt in E. lia.
    + constructor; [now constructor|].
      constructor. unfold Domain.desc. apply Z.ltb_ge in E. exact E.
Qed.

(** The sort returns a list in descending order. *)
Lemma sorted_reverse_sorted (l : list A) :
  Sorted desc (Py.sorted_reverse key l).
Proof.
  induction l as [|x xs IH]; simpl; [constructor|].
  now apply insert_desc_sorted.
Qed.

(** A list already in descending order is returned as it is. *)
Lemma sorted_reverse_fixed (l : list A) :
  Sorted desc l -> Py.sorted_reverse key l = l.
Proof.
  induction 1 as [|x xs Hs IH Hhd]; simpl; [reflexivity|].
  rewrite IH. destruct Hhd as [|y ys Hxy]; simpl; [reflexivity|].
  unfold Domain.desc in Hxy.
  destruct (key x <? key y)%Z eqn:E; [|reflexivity].
  apply Z.ltb_lt in E. lia.
Qed.

Lemma firstn_sorted (n : nat) (l : list A) :
  Sorted desc l -> Sorted desc (firstn n l).
Proof.
  intro H. revert n.
  induction H as [|x xs Hs IH Hhd]; intros [|n]; simpl;
    try constructor.
  - apply IH.
  - destruct Hhd as [|y ys Hxy]; destruct n; simpl; constructor.
    exact Hxy.
Qed.
End Sort.

Lemma firstn_In {B : Type} (n : nat) (l : list B) (x : B) :
  In x (firstn n l) -> In x l.
Proof.
  revert n. induction l as [|y ys IH]; intros [|n]; simpl; try tauto.
  intros [E|H]; [now left | right; now apply (IH n)].
Qed.

Lemma firstn_NoDup {B : Type} (n : nat) (l : list B) :
  NoDup l -> NoDup (firstn n l).
Proof.
  intro H. revert n.
  induction H as [|x xs Hx Hnd IH]; intros [|n]; simpl; try constructor.
  - intro Hin. apply Hx. eapply firstn_In. exact Hin.
  - apply IH.
Qed.

End SortFacts.

(* ================================================================= *)
(** * Similarity search: deduplication and ranking *)

Module SearchFacts.
Import EnhancedAnalyzer DictFacts SortFacts.

(** In the dict of the deduplication loop every item sits under its own
    full name. *)
Local Abbreviation keyed_by_name :=
  (Forall (fun kv : string * SearchItem => fst kv = item_full_name (snd kv))).

Lemma set_keyed d (repo : SearchItem) :
  keyed_by_name d ->
  keyed_by_name (Py.set d (item_full_name repo) repo).
Proof.
  intro H. apply Forall_forall. intros kv Hin.
  apply in_set in Hin. destruct Hin as [->|Hin]; [reflexivity|].
  rewrite Forall_forall in H. now apply H.
Qed.

Lemma dedup_step_inv d repo :
  NoDup (Py.keys d) /\ keyed_by_name d ->
  NoDup (Py.keys (dedup_step d repo)) /\ keyed_by_name (dedup_step d repo).
Proof.
  intros [Hnd Hk]. unfold dedup_step.
  destruct (Py.get d (item_full_name repo)) as [old|].
  - destruct (stargazers_count old <? stargazers_count repo)%Z.
    + split; [now apply set_keeps_NoDup | now apply set_keyed].
    + now split.
  - split; [now apply set_keeps_NoDup | now apply set_keyed].
Qed.

Lemma fold_dedup_inv l d :
  NoDup (Py.keys d) /\ keyed_by_name d ->
  NoDup (Py.keys (fold_left dedup_step l d))
  /\ keyed_by_name (fold_left dedup_step l d).
Proof.
  revert d. induction l as [|repo l IH]; simpl; intros d H; [exact H|].
  apply IH, dedup_step_inv, H.
Qed.

Lemma names_of_values d :
  keyed_by_name d -> map item_full_name (Py.values d) = Py.keys d.
Proof.
  induction 1 as [|[k v] d Hkv Hd IH]; simpl; [reflexivity|].
  simpl in Hkv. now rewrite IH, Hkv.
Qed.

(** After deduplication no two items share a full name. *)
Lemma dedup_names_NoDup l :
  NoDup (map item_full_name (Py.values (dedup l))).
Proof.
  unfold dedup.
  destruct (fold_dedup_inv l []) as [Hnd Hk].
  { split; constructor. }
  rewrite names_of_values by exact Hk. exact Hnd.
Qed.

(** Items with new, pairwise distinct names are appended in order. *)
Lemma fold_dedup_fresh l d :
  NoDup (Py.keys d ++ map item_full_name l) ->
  fold_left dedup_step l d
  = (d ++ map (fun repo => (item_full_name repo, repo)) l)%list.
Proof.
  revert d. induction l as [|repo l IH]; simpl; intros d Hnd.
  - now rewrite app_nil_r.
  - assert (Hout : ~ In (item_full_name repo) (Py.keys d)).
    { intro Hin. apply NoDup_remove_2 in Hnd. apply Hnd.
      apply in_or_app. now left. }
    unfold dedup_step at 2.
    rewrite (proj2 (get_None d (item_full_name repo)) Hout).
    rewrite set_fresh by exact Hout.
    rewrite IH.
    + now rewrite <- app_assoc.
    + unfold Py.keys. rewrite map_app. simpl.
      rewrite <- app_assoc. exact Hnd.
Qed.

(** Deduplication leaves a list without repeated names as it is. *)
Lemma dedup_fixed l :
  NoDup (map item_full_name l) -> Py.values (dedup l) = l.
Proof.
  intro Hnd. unfold dedup. rewrite fold_dedup_fresh by exact Hnd.
  simpl. unfold Py.values. rewrite map_map. simpl. apply map_id.
Qed.

(** ** The entry kept for a name *)

(** A step never lowers the stars kept under a name. *)
Lemma dedup_step_monotone d repo k kept :
  Py.get d k = Some kept ->
  exists kept',
    Py.get (dedup_step d repo) k = Some kept'
    /\ (stargazers_count kept <= stargazers_count kept')%Z.
Proof.
  intro Hk. unfold dedup_step.
  destruct (String.eqb_spec (item_full_name repo) k) as [<-|Hne].
  - rewrite Hk.
    destruct (stargazers_count kept <? stargazers_count repo)%Z eqn:E.
    + exists repo. rewrite get_set_same. apply Z.ltb_lt in E.
      split; [reflexivity | lia].
    + exists kept. split; [exact Hk | lia].
  - destruct (Py.get d (item_full_name repo)) as [old|].
    + destruct (stargazers_count old <? stargazers_count repo)%Z.
      * exists kept. rewrite get_set_other by exact Hne.
        split; [exact Hk | lia].
      * exists kept. split; [exact Hk | lia].
    + exists kept. rewrite get_set_other by exact Hne.
      split; [exact Hk | lia].
Qed.

(** After its step an item is covered by an entry with at least its
    stars. *)
Lemma dedup_step_covers d repo :
  exists kept,
    Py.get (dedup_step d repo) (item_full_name repo) = Some kept
    /\ (stargazers_count repo <= stargazers_count kept)%Z.
Proof.
  unfold dedup_step.
  destruct (Py.get d (item_full_name repo)) as [old|] eqn:Hk.
  - destruct (stargazers_count old <? stargazers_count repo)%Z eqn:E.
    + exists repo. rewrite get_set_same. split; [reflexivity | lia].
    + exists old. apply Z.ltb_ge in E. split; [exact Hk | exact E].
  - exists repo. rewrite get_set_same. split; [reflexivity | lia].
Qed.

Lemma fold_dedup_monotone l d k kept :
  Py.get d k = Some kept ->
  exists kept',
    Py.get (fold_left dedup_step l d) k = Some kept'
    /\ (stargazers_count kept <= stargazers_count kept')%Z.
Proof.
  revert d kept. induction l as [|repo l IH]; simpl; intros d kept Hk.
  - exists kept. split; [exact Hk | lia].
  - destruct (dedup_step_monotone d repo k kept Hk) as (k1 & H1 & L1).
    destruct (IH _ _ H1) as (k2 & H2 & L2).
    exists k2. split; [exact H2 | lia].
Qed.

(** Deduplication keeps, under each pooled name, an entry with the most
    stars among the pooled items of that name. *)
Lemma dedup_keeps_most_starred l repo :
  In repo l ->
  exists kept,
    Py.get (dedup l) (item_full_name repo) = Some kept
    /\ (stargazers_count repo <= stargazers_count kept)%Z.
Proof.
  unfold dedup. generalize (@nil (string * SearchItem)) as d.
  induction l as [|r l IH]; simpl; intros d Hin; [contradiction|].
  destruct Hin as [->|Hin]; [|now apply IH].
  destruct (dedup_step_covers d repo) as (k1 & H1 & L1).
  destruct (fold_dedup_monotone l _ _ _ H1) as (k2 & H2 & L2).
  exists k2. split; [exact H2 | lia].
Qed.

(** Every entry of the dict is a pooled item. *)
Lemma dedup_from_pool l k v :
  In (k, v) (dedup l) -> In v l.
Proof.
  unfold dedup.
  assert (G : forall d,
             In (k, v) (fold_left dedup_step l d) ->
             In (k, v) d \/ In v l).
  { induction l as [|r l IH]; simpl; intros d Hin; [now left|].
    destruct (IH _ Hin) as [Hd|Hl]; [|right; now right].
    unfold dedup_step in Hd.
    destruct (Py.get d (item_full_name r)) as [old|];
      [destruct (stargazers_count old <? stargazers_count r)%Z|];
      try (now left);
      (apply in_set in Hd; destruct Hd as [[= _ ->]|Hd];
       [right; now left | now left]). }
  intro Hin. destruct (G [] Hin) as [[]|H]. exact H.
Qed.

(** The three facts about a ranked list: distinct names, descending
    stars, at most 20 items. *)
Lemma dedup_and_rank_shape l :
  NoDup (map item_full_name (dedup_and_rank l))
  /\ Sorted (Domain.desc stargazers_count) (dedup_and_rank l)
  /\ (List.length (dedup_and_rank l) <= 20)%nat.
Proof.
  unfold dedup_and_rank. repeat split.
  - rewrite <- firstn_map. apply firstn_NoDup.
    eapply Permutation_NoDup; [|apply dedup_names_NoDup].
    apply Permutation_map, Permutation_sym, sorted_reverse_perm.
  - apply firstn_sorted, sorted_reverse_sorted.
  - apply firstn_le_length.
Qed.

(** A list of that shape is a fixed point of the step. *)
Lemma dedup_and_rank_fixed l :
  NoDup (map item_full_name l) ->
  Sorted (Domain.desc stargazers_count) l ->
  (List.length l <= 20)%nat ->
  dedup_and_rank l = l.
Proof.
  intros Hnd Hs Hlen. unfold dedup_and_rank.
  rewrite dedup_fixed by exact Hnd.
  rewrite sorted_reverse_fixed by exact Hs.
  now apply firstn_all2.
Qed.

(** C8.  The deduplication-and-ranking step of the similarity search
    (deduplicate by full name, the entry with more stars winning; sort by
    stars, descending; keep 20) is idempotent. *)
Theorem C8_dedup_and_rank_idempotent (similar_repos : list SearchItem) :
  dedup_and_rank (dedup_and_rank similar_repos)
  = dedup_and_rank similar_repos.
Proof.
  destruct (dedup_and_rank_shape similar_repos) as (Hnd & Hs & Hlen).
  now apply dedup_and_rank_fixed.
Qed.


(** ** Keyword extraction *)

Lemma lower_char_not_upper (c : ascii) :
  Py.is_upper (Py.lower_char c) = false.
Proof. destruct c as [[] [] [] [] [] [] [] []]; reflexivity. Qed.

Lemma lower_no_upper (s : string) :
  Py.all_chars (fun c => negb (Py.is_upper c)) (Py.lower s) = true.
Proof.
  induction s as [|c s IH]; simpl; [reflexivity|].
  now rewrite lower_char_not_upper, IH.
Qed.

Section Tokens.
(** A property of characters that holds throughout the text. *)
Variable p : ascii -> bool.

(** A token is a non-empty run of class characters of the text. *)
Local Abbreviation token_ok :=
  (fun t : string =>
     t <> EmptyString /\ Py.all_chars in_class t = true
     /\ Py.all_chars p t = true).

Lemma match_body_token (s t : string) :
  Py.all_chars p s = true -> match_body s = Some t -> token_ok t.
Proof.
  revert t. induction s as [|c s IH]; simpl; intros t Hp Hm;
    [discriminate|].
  apply andb_prop in Hp. destruct Hp as [Hc Hs].
  destruct (in_class c) eqn:Ec; [|discriminate].
  destruct (match_body s) as [t'|].
  - injection Hm as <-. destruct (IH t' Hs eq_refl) as (_ & H1 & H2).
    simpl. rewrite Ec, Hc, H1, H2. repeat split. discriminate.
  - destruct (word_boundary (Some c) (head s)); [|discriminate].
    injection Hm as <-. simpl. rewrite Ec, Hc. repeat split.
    discriminate.
Qed.

Lemma scan_tokens (before : option ascii) (skip : nat) (s : string) :
  Py.all_chars p s = true -> Forall token_ok (scan before skip s).
Proof.
  revert before skip. induction s as [|c s IH]; intros before skip Hp.
  - constructor.
  - pose proof Hp as Hp'. simpl in Hp'.
    apply andb_prop in Hp'. destruct Hp' as [_ Hs].
    cbn [scan]. destruct skip as [|k]; [|now apply IH].
    destruct (match_at before (String c s)) as [tok|] eqn:Em;
      [|now apply IH].
    constructor; [|now apply IH].
    unfold match_at in Em.
    destruct (word_boundary before (head (String c s)));
      [|discriminate].
    exact (match_body_token _ _ Hp Em).
Qed.
End Tokens.

Lemma is_keyword_spec (w : string) :
  is_keyword w = true
  <-> (2 < String.length w)%nat /\ ~ In w common_words.
Proof.
  unfold is_keyword. rewrite andb_true_iff, negb_true_iff.
  rewrite Nat.ltb_lt, str_in_false. reflexivity.
Qed.

Lemma extract_keywords_eq (text : string) :
  _extract_keywords text
  = firstn 10 (filter is_keyword (findall_words (Py.lower text))).
Proof. destruct text; reflexivity. Qed.

(** The tokenizer agrees with the reading of the pattern in [Domain]. *)

Lemma word_character_eq (c : ascii) :
  Domain.word_character c = is_word_char c.
Proof. destruct c as [[] [] [] [] [] [] [] []]; reflexivity. Qed.

Lemma token_character_eq (c : ascii) :
  Domain.token_character c = in_class c.
Proof. destruct c as [[] [] [] [] [] [] [] []]; reflexivity. Qed.

Lemma all_token_characters (t : string) :
  Py.all_chars Domain.token_character t = Py.all_chars in_class t.
Proof.
  induction t as [|c t IH]; simpl; [reflexivity|].
  now rewrite token_character_eq, IH.
Qed.

Lemma word_boundary_spec (before after : option ascii) :
  word_boundary before after = true <-> Domain.boundary before after.
Proof.
  unfold word_boundary, Domain.boundary.
  assert (H : forall o, opt_word o = Domain.is_word o)
    by (intros [c|]; simpl; [symmetry; apply word_character_eq | reflexivity]).
  rewrite !H.
  destruct (Domain.is_word before), (Domain.is_word after); simpl;
    split; congruence.
Qed.

Lemma word_boundary_false (before after : option ascii) :
  word_boundary before after = false -> ~ Domain.boundary before after.
Proof.
  intros H Hb. apply word_boundary_spec in Hb. congruence.
Qed.

Lemma head_first_char (s : string) : head s = Domain.first_char s.
Proof. destruct s; reflexivity. Qed.

Lemma append_cons_inv (c : ascii) (s t rest : string) :
  String c s = (t ++ rest)%string -> t <> EmptyString ->
  exists t', t = String c t' /\ s = (t' ++ rest)%string.
Proof.
  destruct t as [|c' t']; [congruence|]. simpl. intros [= -> ->] _.
  eauto.
Qed.

Lemma append_same_length (a b a' b' : string) :
  (a ++ b = a' ++ b')%string -> String.length a = String.length a' ->
  a = a' /\ b = b'.
Proof.
  revert a'. induction a as [|c a IH]; intros [|c' a'] H Hl;
    try discriminate Hl.
  - split; [reflexivity | exact H].
  - simpl in H. injection H as -> H. injection Hl as Hl.
    destruct (IH a' H Hl) as [-> ->]. split; reflexivity.
Qed.

Lemma first_char_append (t rest : string) :
  t <> EmptyString -> Domain.first_char (t ++ rest) = Domain.first_char t.
Proof. destruct t; [congruence | reflexivity]. Qed.

Lemma last_char_cons (c : ascii) (t : string) :
  t <> EmptyString -> Domain.last_char (String c t) = Domain.last_char t.
Proof. destruct t; [congruence | reflexivity]. Qed.

(** [match_body] finds the longest token body at the front of the text. *)
Lemma match_body_spec (s : string) :
  match match_body s with
  | Some t =>
      exists rest,
        s = (t ++ rest)%string /\ Domain.token_body t rest
        /\ forall t' rest', s = (t' ++ rest')%string ->
                            Domain.token_body t' rest' ->
                            (String.length t' <= String.length t)%nat
  | None =>
      forall t' rest', s = (t' ++ rest')%string ->
                       ~ Domain.token_body t' rest'
  end.
Proof.
  induction s as [|c s IH]; cbn [match_body].
  - intros t' rest' H (Hne & _). destruct t'; [congruence | discriminate H].
  - destruct (in_class c) eqn:Ec.
    + destruct (match_body s) as [t|].
      * destruct IH as (rest & -> & (Hne & Hall & Hb) & Hmax).
        exists rest. split; [reflexivity|]. split.
        -- split; [discriminate|]. split.
           ++ cbn [Py.all_chars]. rewrite token_character_eq, Ec. exact Hall.
           ++ rewrite last_char_cons by exact Hne. exact Hb.
        -- intros t' rest' H (Hne' & Hall' & Hb').
           destruct (append_cons_inv _ _ _ _ H Hne') as (t'' & -> & H').
           destruct t'' as [|c'' t'']; [simpl; lia|].
           cbn [Py.all_chars] in Hall'. apply andb_prop in Hall'.
           rewrite last_char_cons in Hb' by discriminate.
           assert (Hle : (String.length (String c'' t'')
                          <= String.length t)%nat).
           { apply (Hmax _ rest' H'). split; [discriminate|].
             split; [apply Hall' | exact Hb']. }
           simpl in *. lia.
      * destruct (word_boundary (Some c) (head s)) eqn:Eb.
        -- exists s. split; [reflexivity|]. split.
           ++ split; [discriminate|]. split.
              ** cbn [Py.all_chars]. now rewrite token_character_eq, Ec.
              ** apply word_boundary_spec. rewrite <- head_first_char.
                 exact Eb.
           ++ intros t' rest' H (Hne' & Hall' & Hb').
              destruct (append_cons_inv _ _ _ _ H Hne') as (t'' & -> & H').
              destruct t'' as [|c'' t'']; [simpl; lia|]. exfalso.
              cbn [Py.all_chars] in Hall'. apply andb_prop in Hall'.
              rewrite last_char_cons in Hb' by discriminate.
              apply (IH _ rest' H'). split; [discriminate|].
              split; [apply Hall' | exact Hb'].
        -- intros t' rest' H (Hne' & Hall' & Hb').
           destruct (append_cons_inv _ _ _ _ H Hne') as (t'' & -> & H').
           destruct t'' as [|c'' t''].
           ++ simpl in H'. subst rest'.
              apply (word_boundary_false _ _ Eb).
              rewrite head_first_char. exact Hb'.
           ++ cbn [Py.all_chars] in Hall'. apply andb_prop in Hall'.
              rewrite last_char_cons in Hb' by discriminate.
              apply (IH _ rest' H'). split; [discriminate|].
              split; [apply Hall' | exact Hb'].
    + intros t' rest' H (Hne' & Hall' & _).
      destruct (append_cons_inv _ _ _ _ H Hne') as (t'' & -> & _).
      cbn [Py.all_chars] in Hall'. rewrite token_character_eq, Ec in Hall'.
      discriminate.
Qed.

(** [match_at] finds the longest token at the front of the text. *)
Lemma match_at_spec (before : option ascii) (s : string) :
  match match_at before s with
  | Some t =>
      exists rest,
        s = (t ++ rest)%string /\ Domain.token_at before t rest
        /\ forall t' rest', s = (t' ++ rest')%string ->
                            Domain.token_at before t' rest' ->
                            (String.length t' <= String.length t)%nat
  | None =>
      forall t' rest', s = (t' ++ rest')%string ->
                       ~ Domain.token_at before t' rest'
  end.
Proof.
  unfold match_at. pose proof (match_body_spec s) as Hbody.
  destruct (word_boundary before (head s)) eqn:Eb.
  - destruct (match_body s) as [t|].
    + destruct Hbody as (rest & -> & Hbody & Hmax).
      exists rest. split; [reflexivity|]. split.
      * split; [|exact Hbody].
        apply word_boundary_spec in Eb.
        rewrite head_first_char, first_char_append in Eb by apply Hbody.
        exact Eb.
      * intros t' rest' H (_ & Ht'). exact (Hmax t' rest' H Ht').
    + intros t' rest' H (_ & Ht'). exact (Hbody t' rest' H Ht').
  - intros t' rest' -> (Hb & Hne & _).
    apply (word_boundary_false _ _ Eb).
    rewrite head_first_char, first_char_append by exact Hne. exact Hb.
Qed.

(** Passing over the rest of a token. *)
Lemma scan_skip (u rest : string) (c : ascii) :
  scan (Some c) (String.length u) (u ++ rest)
  = scan (Domain.last_char (String c u)) 0 rest.
Proof.
  revert c. induction u as [|c' u IH]; intro c.
  - reflexivity.
  - cbn [String.length append scan]. rewrite IH.
    rewrite (last_char_cons c (String c' u)) by discriminate. reflexivity.
Qed.

Lemma scan_token (before : option ascii) (s t rest : string) :
  s = (t ++ rest)%string -> match_at before s = Some t ->
  t <> EmptyString ->
  scan before 0 s = t :: scan (Domain.last_char t) 0 rest.
Proof.
  intros -> Hm Hne. destruct t as [|c t]; [congruence|].
  cbn [append scan]. cbn [append] in Hm. rewrite Hm.
  cbn [String.length]. rewrite Nat.sub_1_r. cbn [Nat.pred].
  rewrite scan_skip. reflexivity.
Qed.

Lemma append_length (a b : string) :
  String.length (a ++ b) = (String.length a + String.length b)%nat.
Proof. induction a; simpl; [reflexivity | now rewrite IHa]. Qed.

(** The scan tokenizes the text. *)
Lemma scan_tokenized (n : nat) :
  forall (s : string) (before : option ascii),
    (String.length s <= n)%nat ->
    Domain.tokenized before s (scan before 0 s).
Proof.
  induction n as [|n IH]; intros s before Hn.
  - destruct s; [constructor | simpl in Hn; lia].
  - destruct s as [|c s]; [constructor|].
    pose proof (match_at_spec before (String c s)) as Hspec.
    destruct (match_at before (String c s)) as [t|] eqn:Em.
    + destruct Hspec as (rest & Hs & Htok & Hmax).
      assert (Hne : t <> EmptyString) by apply Htok.
      rewrite (scan_token before _ t rest Hs Em Hne).
      apply (Domain.tokenized_token before _ t rest _ Hs Htok Hmax).
      apply IH.
      assert (Hl := f_equal String.length Hs).
      rewrite append_length in Hl. simpl in Hl, Hn.
      destruct t; [congruence | simpl in Hl; lia].
    + cbn [scan]. rewrite Em.
      apply Domain.tokenized_skip; [exact Hspec|].
      apply IH. simpl in Hn. lia.
Qed.

(** The text has one tokenization. *)
Lemma tokenized_scan (before : option ascii) (s : string)
      (ts : list string) :
  Domain.tokenized before s ts -> ts = scan before 0 s.
Proof.
  induction 1 as [before | before c s ts Hnone _ IH
                  | before s t rest ts Hs Htok Hmax _ IH].
  - reflexivity.
  - pose proof (match_at_spec before (String c s)) as Hspec.
    cbn [scan].
    destruct (match_at before (String c s)) as [t|].
    + destruct Hspec as (rest & Hs & Htok & _).
      destruct (Hnone t rest Hs Htok).
    + exact IH.
  - pose proof (match_at_spec before s) as Hspec.
    destruct (match_at before s) as [t0|] eqn:Em.
    + destruct Hspec as (rest0 & Hs0 & Htok0 & Hmax0).
      assert (Hlen : String.length t = String.length t0).
      { apply Nat.le_antisymm.
        - exact (Hmax0 t rest Hs Htok).
        - exact (Hmax t0 rest0 Hs0 Htok0). }
      assert (Heq : (t ++ rest = t0 ++ rest0)%string) by congruence.
      destruct (append_same_length _ _ _ _ Heq Hlen) as [<- <-].
      rewrite (scan_token before s t rest Hs Em (proj1 (proj2 Htok))).
      now rewrite IH.
    + destruct (Hspec t rest Hs Htok).
Qed.

(** The keywords of the description with underscores and a hyphen. *)
Example extract_keywords_mixed :
  _extract_keywords Samples.mixed_description = ["chat-app"].
Proof. reflexivity. Qed.



End SearchFacts.

(* ================================================================= *)
(** * The comparison aggregate and the recommendations *)

Module AggregateFacts.
Import EnhancedAnalyzer DictFacts.

(** An exception in the date arithmetic of one repository leaves
    [_extract_best_practices]. *)
Lemma collect_practices_raises now fromisoformat repositories repo e :
  In repo repositories ->
  practices_of now fromisoformat repo = Py.Raise e ->
  exists e',
    collect_practices now fromisoformat repositories = Py.Raise e'.
Proof.
  induction repositories as [|r rest IH]; simpl; intros Hin Hr;
    [contradiction|].
  destruct Hin as [->|Hin].
  - rewrite Hr. simpl. now exists e.
  - destruct (practices_of now fromisoformat r) as [ps|e0]; simpl;
      [|now exists e0].
    destruct (IH Hin Hr) as [e' ->]. simpl. now exists e'.
Qed.

Lemma practices_of_parse_failure now fromisoformat repo e :
  fromisoformat (Py.replace "Z" "+00:00" (item_updated_at repo))
  = Py.Raise e ->
  practices_of now fromisoformat repo = Py.Raise e.
Proof. intro H. unfold practices_of. now rewrite H. Qed.

(** One top-5 candidate whose timestamp does not parse empties the whole
    aggregate. *)
Lemma parse_failure_empties_aggregate now fromisoformat repositories repo e :
  In repo (firstn 5 repositories) ->
  fromisoformat (Py.replace "Z" "+00:00" (item_updated_at repo))
  = Py.Raise e ->
  _analyze_top_repositories now fromisoformat repositories = None.
Proof.
  intros Hin Hparse. unfold _analyze_top_repositories.
  destruct (Py.list_truthy repositories); [|reflexivity].
  unfold _extract_best_practices.
  destruct (collect_practices_raises now fromisoformat _ repo e Hin
              (practices_of_parse_failure now fromisoformat repo e Hparse))
    as [e' ->].
  reflexivity.
Qed.

(** C5, on the code.  A candidate with a well-formed (naive) timestamp is
    aggregated: mean stars 200, mean forks 60, the frequency maps and
    three best-practice statements.  With a second candidate whose
    timestamp does not parse, the aggregate is empty: nothing is produced
    for the first candidate either.  The same happens for a timestamp in
    GitHub's own form, ending in Z: it parses to an aware datetime, and
    subtracting it from the naive [datetime.now()] raises. *)
Theorem C5_parse_failure_aborts_aggregation :
  let good := Samples.candidate "a/chat" 200 60 "2024-05-20T12:00:00" in
  let bad := Samples.candidate "b/chat" 90 10 "not-a-timestamp" in
  let zulu := Samples.candidate "c/chat" 80 10 "2024-05-20T12:00:00Z" in
  let analyze :=
    _analyze_top_repositories Samples.sample_now
                              Samples.sample_fromisoformat in
  analyze [good]
  = Some (mk_TopReposAnalysis 1 200 60
            [("Python", 1%Z)] [("chat", 1%Z); ("web", 1%Z)]
            ["High community engagement (100+ stars)";
             "Active community contribution (50+ forks)";
             "Recent development activity"] [] [])
  /\ analyze [good; bad] = None
  /\ analyze [bad; good] = None
  /\ analyze [good; zulu] = None.
Proof. cbn zeta. repeat split; vm_compute; reflexivity. Qed.

(** ** Recommendations *)

Lemma missing_topics_spec repository (common_topics : Py.dict Z) t :
  In t (missing_topics_of repository common_topics)
  <-> exists c, In (t, c) common_topics /\ (2 <= c)%Z
                /\ ~ In t (topics repository).
Proof.
  unfold missing_topics_of. rewrite in_map_iff. split.
  - intros ([t' c] & E & Hin). simpl in E. subst t'.
    apply filter_In in Hin. destruct Hin as [Hin Hb]. simpl in Hb.
    apply andb_prop in Hb. destruct Hb as [Hm Hc].
    apply negb_true_iff, str_in_false in Hm. apply Z.leb_le in Hc.
    now exists c.
  - intros (c & Hin & Hc & Hm). exists (t, c). split; [reflexivity|].
    apply filter_In. split; [exact Hin|]. simpl.
    apply andb_true_intro. split.
    + now apply negb_true_iff, str_in_false.
    + now apply Z.leb_le.
Qed.

(** C6, as the code has it.  When the repository has at least one topic
    of its own and the topic frequency map of the aggregate holds a topic
    that occurs at least twice and that the repository lacks, the
    generator emits the low-priority recommendation "Add Relevant Topics",
    whose description lists the first five (at most) of the missing
    topics, in the order of the map. *)
Theorem C6_topics_recommendation
    (repository : RepositoryData) (basic_analysis : AnalysisResult)
    (top_repos_analysis : option TopReposAnalysis)
    (Htopics : topics repository <> [])
    (Hmissing : exists t c,
        In (t, c) (opt_common_topics top_repos_analysis)
        /\ (2 <= c)%Z /\ ~ In t (topics repository)) :
  let missing :=
    missing_topics_of repository (opt_common_topics top_repos_analysis) in
  exists r,
    In r (_generate_improvement_recommendations
            repository basic_analysis top_repos_analysis)
    /\ rec_title r = "Add Relevant Topics"
    /\ priority r = "low"
    /\ rec_description r
       = "Consider adding these popular topics: "
           ++ Py.join ", " (firstn 5 missing)
    /\ (List.length (firstn 5 missing) <= 5)%nat
    /\ (forall t, In t missing
                  <-> exists c,
                      In (t, c) (opt_common_topics top_repos_analysis)
                      /\ (2 <= c)%Z /\ ~ In t (topics repository)).
Proof.
  cbn zeta.
  set (missing := missing_topics_of repository
                    (opt_common_topics top_repos_analysis)).
  exists (topics_recommendation missing).
  split; [|repeat split; try apply missing_topics_spec].
  - unfold _generate_improvement_recommendations.
    apply in_or_app. right. apply in_or_app. right.
    apply in_or_app. left.
    destruct (topics repository) as [|t0 ts] eqn:Et; [congruence|].
    cbn [Py.list_truthy]. fold missing.
    destruct missing as [|m ms] eqn:Em.
    + exfalso. destruct Hmissing as (t & c & H).
      assert (Hin : In t missing).
      { unfold missing. apply missing_topics_spec. rewrite Et.
        now exists c. }
      rewrite Em in Hin. exact Hin.
    + now left.
  - apply firstn_le_length.
Qed.

(** C6 at a repository tagged "chat" against a map in which "web" occurs
    twice. *)
Lemma C6_witness :
  let repository := Samples.counted_repository 0 0 ["chat"] in
  let aggregate :=
    Some (Samples.aggregate 50 20
            [("web", 2%Z); ("chat", 3%Z); ("irc", 1%Z)]) in
  topics repository <> []
  /\ (exists t c,
         In (t, c) (opt_common_topics aggregate)
         /\ (2 <= c)%Z /\ ~ In t (topics repository))
  /\ exists r,
       In r (_generate_improvement_recommendations
               repository (Samples.base_analysis repository) aggregate)
       /\ rec_title r = "Add Relevant Topics"
       /\ priority r = "low"
       /\ rec_description r = "Consider adding these popular topics: web".
Proof.
  cbn zeta.
  assert (Htopics : topics (Samples.counted_repository 0 0 ["chat"]) <> [])
    by (simpl; discriminate).
  assert (Hmissing : exists t c,
             In (t, c)
                (opt_common_topics
                   (Some (Samples.aggregate 50 20
                            [("web", 2%Z); ("chat", 3%Z); ("irc", 1%Z)])))
             /\ (2 <= c)%Z
             /\ ~ In t (topics (Samples.counted_repository 0 0 ["chat"]))).
  { exists "web", 2%Z. simpl. split; [now left|]. split; [lia|].
    intros [E|[]]. discriminate. }
  split; [exact Htopics|]. split; [exact Hmissing|].
  destruct (C6_topics_recommendation
              (Samples.counted_repository 0 0 ["chat"])
              (Samples.base_analysis (Samples.counted_repository 0 0 ["chat"]))
              _ Htopics Hmissing)
    as (r & Hin & Ht & Hp & Hd & _).
  exists r. repeat split; assumption.
Defined.

(** The claim as first stated fails for a repository without topics: the
    topic rule is guarded by [if repository.topics:].  Here "web" occurs
    twice in the map, the repository lacks it, and no recommendation is
    titled "Add Relevant Topics". *)
Lemma C6_counterexample :
  let repository := Samples.counted_repository 0 0 [] in
  let aggregate := Some (Samples.aggregate 50 20 [("web", 2%Z)]) in
  (exists t c,
      In (t, c) (opt_common_topics aggregate)
      /\ (2 <= c)%Z /\ ~ In t (topics repository))
  /\ ~ (exists r,
           In r (_generate_improvement_recommendations
                   repository (Samples.base_analysis repository) aggregate)
           /\ rec_title r = "Add Relevant Topics").
Proof.
  cbn zeta. split.
  - exists "web", 2%Z. simpl. split; [now left|]. split; [lia|]. tauto.
  - intros (r & Hin & Ht). vm_compute in Hin.
    repeat (destruct Hin as [<-|Hin]; [discriminate Ht|]).
    exact Hin.
Qed.

End AggregateFacts.

(* ================================================================= *)
(** * The portfolio roll-up *)

Module PortfolioFacts.
Import PortfolioAnalyzer PyFacts SortFacts.

(** ** Sums *)

Lemma fold_add_acc (xs : list Z) (acc : Z) :
  fold_left Z.add xs acc = (acc + fold_left Z.add xs 0)%Z.
Proof.
  revert acc. induction xs as [|x xs IH]; intro acc; simpl; [lia|].
  rewrite (IH (acc + x)%Z), (IH x). lia.
Qed.

Lemma sum_cons (x : Z) (xs : list Z) :
  Py.sum (x :: xs) = (x + Py.sum xs)%Z.
Proof. unfold Py.sum. simpl. apply fold_add_acc. Qed.

Lemma sum_perm (xs ys : list Z) :
  Permutation xs ys -> Py.sum xs = Py.sum ys.
Proof.
  induction 1 as [|x xs ys _ IH|x y xs|xs ys zs _ IH1 _ IH2];
    rewrite ?sum_cons; lia.
Qed.

Lemma sum_nonneg (xs : list Z) :
  Forall (fun b => (0 <= b)%Z) xs -> (0 <= Py.sum xs)%Z.
Proof.
  induction 1 as [|x xs Hx _ IH]; [reflexivity|].
  rewrite sum_cons. lia.
Qed.

(** A prefix of non-negative counts sums to no more than the whole. *)
Lemma sum_firstn_le (n : nat) (xs : list Z) :
  Forall (fun b => (0 <= b)%Z) xs ->
  (Py.sum (firstn n xs) <= Py.sum xs)%Z.
Proof.
  intro H. revert n. induction H as [|x xs Hx Hxs IH]; intros [|n]; simpl;
    try reflexivity.
  - rewrite sum_cons. pose proof (sum_nonneg xs Hxs).
    change (Py.sum []) with 0%Z. lia.
  - rewrite !sum_cons. specialize (IH n). lia.
Qed.

Lemma fold_Qplus_acc (xs : list Q) (acc : Q) :
  fold_left Qplus xs acc == acc + fold_left Qplus xs 0.
Proof.
  revert acc. induction xs as [|x xs IH]; intro acc; simpl; [lra|].
  rewrite (IH (acc + x)), (IH (0 + x)). lra.
Qed.

Lemma Qsum_cons (x : Q) (xs : list Q) : Qsum (x :: xs) == x + Qsum xs.
Proof. unfold Qsum. simpl. rewrite fold_Qplus_acc. lra. Qed.

(** ** Language ranking *)

(** The percentage the code stores for [b] bytes out of [total]. *)
Local Abbreviation pct_of total :=
  (fun b : Z => Py.round2 (inject_Z b / inject_Z total * 100)).

(** Rounded shares add up to the share of the sum, within 0.005 per
    entry. *)
Lemma rounded_shares_sum (total : Z) (bs : list Z) :
  let exact := inject_Z (Py.sum bs) / inject_Z total * 100 in
  let slack := inject_Z (Z.of_nat (List.length bs)) * (1 # 200) in
  exact - slack <= Qsum (map (pct_of total) bs) <= exact + slack.
Proof.
  cbn zeta. induction bs as [|b bs IH].
  - change (Qsum (map (pct_of total) [])) with 0.
    change (Py.sum []) with 0%Z. unfold Qdiv.
    change (inject_Z (Z.of_nat (List.length (@nil Z)))) with 0.
    change (inject_Z 0) with 0. split; ring_simplify; lra.
  - cbn [map List.length]. rewrite Qsum_cons, sum_cons.
    rewrite Nat2Z.inj_succ, <- Z.add_1_r, !inject_Z_plus.
    change (inject_Z 1) with 1.
    pose proof (round2_near (inject_Z b / inject_Z total * 100)) as Hb.
    unfold Qdiv in *.
    set (it := / inject_Z total) in *.
    set (pb := Py.round2 (inject_Z b * it * 100)) in *.
    set (ps := Qsum (map _ bs)) in *.
    set (nb := inject_Z (Z.of_nat (List.length bs))) in *.
    assert (E : (inject_Z b + inject_Z (Py.sum bs)) * it * 100
                == inject_Z b * it * 100
                   + inject_Z (Py.sum bs) * it * 100) by ring.
    rewrite E. split; lra.
Qed.

Lemma assign_ranks_bytes (i : nat) (l : list LanguageRank) :
  map lr_bytes (assign_ranks i l) = map lr_bytes l.
Proof.
  revert i. induction l as [|e l IH]; intro i; simpl; [reflexivity|].
  now rewrite IH.
Qed.

Lemma assign_ranks_percentage (i : nat) (l : list LanguageRank) :
  map lr_percentage (assign_ranks i l) = map lr_percentage l.
Proof.
  revert i. induction l as [|e l IH]; intro i; simpl; [reflexivity|].
  now rewrite IH.
Qed.

(** The entries of the ranking carry the rounded share of their bytes. *)
Lemma consistent_perm (total : Z) (l l' : list LanguageRank) :
  Permutation l l' ->
  map lr_percentage l = map (pct_of total) (map lr_bytes l) ->
  map lr_percentage l' = map (pct_of total) (map lr_bytes l').
Proof.
  intros Hp H.
  assert (F : Forall (fun e => lr_percentage e = pct_of total (lr_bytes e)) l).
  { clear Hp. induction l as [|e l IH]; constructor.
    - now injection H.
    - apply IH. now injection H. }
  assert (F' : Forall (fun e => lr_percentage e = pct_of total (lr_bytes e))
                      l').
  { eapply Permutation_Forall; eassumption. }
  clear - F'. induction F' as [|e l' He _ IH]; simpl; [reflexivity|].
  now rewrite He, IH.
Qed.

(** The percentages and byte counts of the ranking, as lists. *)
Lemma rank_languages_shape (languages : Py.dict Z) :
  let total := Py.sum (Py.values languages) in
  total <> 0%Z ->
  exists bs,
    Permutation bs (Py.values languages)
    /\ map lr_bytes (_rank_languages languages) = firstn 10 bs
    /\ map lr_percentage (_rank_languages languages)
       = map (pct_of total) (firstn 10 bs).
Proof.
  cbn zeta. intro Hne. unfold _rank_languages.
  apply Z.eqb_neq in Hne. rewrite Hne.
  set (total := Py.sum (Py.values languages)).
  set (ranked := map _ languages).
  set (sorted := Py.sorted_reverse lr_bytes ranked).
  assert (Hb : map lr_bytes ranked = Py.values languages).
  { unfold ranked, Py.values. rewrite map_map. reflexivity. }
  assert (Hc : map lr_percentage ranked
               = map (pct_of total) (map lr_bytes ranked)).
  { unfold ranked. rewrite !map_map. reflexivity. }
  assert (Hperm : Permutation ranked sorted).
  { apply Permutation_sym, sorted_reverse_perm. }
  exists (map lr_bytes sorted). repeat split.
  - rewrite <- Hb. apply Permutation_map, Permutation_sym, Hperm.
  - rewrite <- firstn_map, assign_ranks_bytes. reflexivity.
  - rewrite <- firstn_map, assign_ranks_percentage.
    rewrite (consistent_perm total ranked sorted Hperm Hc).
    apply firstn_map.
Qed.


(** C7, as the code has it.  For a histogram of non-negative byte counts
    with a positive total, the ranking keeps [min(10, number of
    languages)] entries.  With at most 10 languages their percentages sum
    to 100 within 0.005 per entry; in every case the sum is at most 100
    plus that slack: no byte is counted twice. *)
Theorem C7_percentages_sum
    (languages : Py.dict Z)
    (Hok : Domain.histogram_ok languages)
    (Hpos : (0 < Py.sum (Py.values languages))%Z) :
  let ranking := _rank_languages languages in
  let slack := inject_Z (Z.of_nat (List.length ranking)) * (1 # 200) in
  List.length ranking = Nat.min 10 (List.length languages)
  /\ ((List.length languages <= 10)%nat ->
      100 - slack <= Domain.percentage_sum ranking <= 100 + slack)
  /\ Domain.percentage_sum ranking <= 100 + slack.
Proof.
  cbn zeta. destruct Hok as [_ Hnn].
  set (total := Py.sum (Py.values languages)) in *.
  destruct (rank_languages_shape languages) as (bs & Hperm & Hb & Hp).
  { fold total. lia. }
  fold total in Hp.
  assert (Hlen : List.length (_rank_languages languages)
                 = List.length (firstn 10 bs)).
  { rewrite <- Hb. symmetry. apply length_map. }
  assert (Hbs : List.length bs = List.length languages).
  { rewrite (Permutation_length Hperm). apply length_map. }
  unfold Domain.percentage_sum. rewrite Hp, Hlen.
  pose proof (rounded_shares_sum total (firstn 10 bs)) as R.
  cbn zeta in R.
  set (slack := inject_Z (Z.of_nat (List.length (firstn 10 bs))) * (1 # 200))
    in *.
  set (sigma := Qsum (map _ (firstn 10 bs))) in *.
  assert (HT : 0 < inject_Z total).
  { change 0 with (inject_Z 0). rewrite <- Zlt_Qlt. exact Hpos. }
  split; [|split].
  - rewrite length_firstn, Hbs. reflexivity.
  - intro Hle. rewrite firstn_all2 in R by lia.
    rewrite (sum_perm _ _ Hperm) in R. fold total in R.
    assert (E : inject_Z total / inject_Z total * 100 == 100).
    { field. intro H0. rewrite H0 in HT. apply (Qlt_irrefl _ HT). }
    rewrite E in R. exact R.
  - assert (Hs : (Py.sum (firstn 10 bs) <= total)%Z).
    { unfold total. rewrite <- (sum_perm _ _ Hperm).
      apply sum_firstn_le.
      eapply Permutation_Forall; [apply Permutation_sym, Hperm | exact Hnn]. }
    assert (Hshare : inject_Z (Py.sum (firstn 10 bs)) / inject_Z total <= 1).
    { apply Qle_shift_div_r; [exact HT|].
      rewrite Qmult_1_l. rewrite <- Zle_Qle. exact Hs. }
    set (share := inject_Z (Py.sum (firstn 10 bs)) / inject_Z total) in *.
    lra.
Qed.

(** C7 at three languages of one byte each: 33.33 three times. *)
Lemma C7_witness :
  Domain.histogram_ok Samples.three_languages
  /\ (0 < Py.sum (Py.values Samples.three_languages))%Z
  /\ (List.length (_rank_languages Samples.three_languages) = 3%nat
      /\ (100 - 3 * (1 # 200)
          <= Domain.percentage_sum (_rank_languages Samples.three_languages)
          <= 100 + 3 * (1 # 200))).
Proof.
  assert (Hok : Domain.histogram_ok Samples.three_languages).
  { split.
    - repeat constructor; simpl; intuition discriminate.
    - repeat constructor; discriminate. }
  assert (Hpos : (0 < Py.sum (Py.values Samples.three_languages))%Z)
    by reflexivity.
  split; [exact Hok|]. split; [exact Hpos|].
  destruct (C7_percentages_sum Samples.three_languages Hok Hpos)
    as (Hlen & Hnear & _).
  split; [exact Hlen|]. apply Hnear. simpl. lia.
Defined.

(** The claim as first stated fails in both halves.  One language (fewer
    than 10) has 100 percent, which is not below 100; of eleven languages
    (at least 10) of one byte each the ten ranked ones sum to 90.9. *)
Lemma C7_counterexample :
  ((List.length Samples.one_language < 10)%nat
   /\ Domain.histogram_ok Samples.one_language
   /\ ~ Domain.percentage_sum (_rank_languages Samples.one_language) < 100)
  /\ ((10 <= List.length Samples.eleven_languages)%nat
      /\ Domain.histogram_ok Samples.eleven_languages
      /\ Domain.percentage_sum (_rank_languages Samples.eleven_languages)
         == 90.9).
Proof.
  split; split; try (simpl; lia); split.
  - split; repeat constructor; simpl; intuition discriminate.
  - vm_compute. intro H. discriminate H.
  - split; [|repeat constructor; discriminate].
    unfold Domain.dict_ok. simpl.
    repeat (constructor; [simpl; intuition discriminate|]). constructor.
  - vm_compute. reflexivity.
Qed.


(** ** Failure isolation *)

Section Isolation.
Variable analyze_repository : string -> string -> Py.pyresult Analysis.
Variable username : string.

Local Abbreviation ok := (Domain.succeeded analyze_repository username).
Local Abbreviation successes :=
  (Domain.successes analyze_repository username).

Lemma fold_analyze_acc (repositories : list RepoEntry) acc :
  fold_left
    (fun analyses repo =>
       match analyze_repository username (repo_name repo) with
       | Py.Ok analysis => (analyses ++ [analysis])%list
       | Py.Raise _ => analyses
       end)
    repositories acc
  = (acc ++ successes repositories)%list.
Proof.
  revert acc. induction repositories as [|repo rest IH]; intro acc; simpl.
  - now rewrite app_nil_r.
  - rewrite IH.
    destruct (analyze_repository username (repo_name repo)); simpl.
    + now rewrite <- app_assoc.
    + reflexivity.
Qed.

(** The loop collects the analyses that did not raise, in order. *)
Lemma analyze_each_successes (repositories : list RepoEntry) :
  analyze_each analyze_repository username repositories
  = successes repositories.
Proof. unfold analyze_each. now rewrite fold_analyze_acc. Qed.

Lemma successes_length (repositories : list RepoEntry) :
  List.length (successes repositories)
  = List.length (filter ok repositories).
Proof.
  unfold Domain.successes, Domain.succeeded.
  induction repositories as [|repo rest IH]; simpl; [reflexivity|].
  destruct (analyze_repository username (repo_name repo)); simpl;
    now rewrite ?IH.
Qed.

(** Dropping the failed repositories from the listing changes nothing. *)
Lemma successes_filter (repositories : list RepoEntry) :
  successes (filter ok repositories) = successes repositories.
Proof.
  unfold Domain.successes, Domain.succeeded.
  induction repositories as [|repo rest IH]; simpl; [reflexivity|].
  destruct (analyze_repository username (repo_name repo)) eqn:E; simpl.
  - now rewrite E, IH.
  - exact IH.
Qed.

Lemma ok_failed_split (repositories : list RepoEntry) :
  (List.length (filter ok repositories)
   + List.length (filter (fun repo => negb (ok repo)) repositories)
   = List.length repositories)%nat.
Proof.
  induction repositories as [|repo rest IH]; simpl; [reflexivity|].
  destruct (ok repo); simpl; lia.
Qed.
End Isolation.



End PortfolioFacts.


(* ================================================================= *)
(** * The scorer: further laws *)

Module ScorerLaws.
Import RepositoryAnalyzer PyFacts.

Lemma clamp_le (hi score : Q) :
  1 <= hi -> score <= hi -> Py.max 1.0 (Py.min 10.0 score) <= hi.
Proof.
  intros Hhi Hs. apply max_lub; [lra|].
  eapply Qle_trans; [apply min_le_r | exact Hs].
Qed.

(** The complexity of every language, listed or not, lies in [1, 10]. *)
Lemma language_complexity_bounds (l : string) :
  1 <= _get_language_complexity l <= 10.
Proof.
  unfold _get_language_complexity.
  destruct (Py.get complexity_map l) as [c|] eqn:E; [|split; lra].
  apply DictFacts.get_Some_In in E.
  assert (F : Forall (fun kv : string * Z => (1 <= snd kv <= 10)%Z)
                     complexity_map)
    by (repeat constructor; simpl; lia).
  rewrite Forall_forall in F. specialize (F _ E). simpl in F.
  split.
  - change 1 with (inject_Z 1). rewrite <- Zle_Qle. lia.
  - change 10 with (inject_Z 10). rewrite <- Zle_Qle. lia.
Qed.

Lemma technical_score_tight repository languages :
  4.2 <= _calculate_technical_score repository languages <= 8.5.
Proof.
  unfold _calculate_technical_score. split.
  - apply clamp_ge; [lra|].
    destruct (language repository) as [l|];
      [pose proof (language_complexity_bounds l);
       destruct (Py.str_truthy l)|];
      destruct (10000 <? size repository)%Z;
      destruct (1000 <? size repository)%Z;
      destruct (3 <? List.length languages)%nat;
      (destruct (Py.list_truthy (topics repository));
       [destruct (existsb _ complex_topics)|]);
      lra.
  - apply clamp_le; [lra|].
    destruct (language repository) as [l|];
      [pose proof (language_complexity_bounds l);
       destruct (Py.str_truthy l)|];
      destruct (10000 <? size repository)%Z;
      destruct (1000 <? size repository)%Z;
      destruct (3 <? List.length languages)%nat;
      (destruct (Py.list_truthy (topics repository));
       [destruct (existsb _ complex_topics)|]);
      lra.
Qed.

Lemma quality_score_le_9 repository contributors issues :
  _calculate_quality_score repository contributors issues <= 9.
Proof.
  unfold _calculate_quality_score.
  apply clamp_le; [lra|].
  destruct (description repository) as [d|];
    [destruct (Py.str_truthy d && (50 <? String.length d)%nat)|];
    destruct (1 <? List.length contributors)%nat;
    (destruct (Py.list_truthy issues);
     [destruct (List.length
                  (filter (fun i => String.eqb (state i) "open") issues)
                <? 10)%nat|]);
    destruct (10 <? stars repository)%Z;
    destruct (5 <? forks repository)%Z;
    lra.
Qed.

Lemma activity_score_le_7_5 now fromisoformat repository commits :
  _calculate_activity_score now fromisoformat repository commits <= 7.5.
Proof.
  unfold _calculate_activity_score.
  apply clamp_le; [lra|].
  set (n := count_recent_commits _ _ _).
  destruct (Py.list_truthy commits);
    [destruct (10 <? n)%nat; [|destruct (5 <? n)%nat;
                                [|destruct (0 <? n)%nat]]|];
    destruct (365 <? age_days_of now fromisoformat repository)%Z;
    lra.
Qed.

(** X1.  The clamp to [1, 10] never acts: for every input the technical
    score lies in [4.2, 8.5], the quality score in [5, 9], the activity
    score in [5, 7.5], and the overall score in [71/15, 25/3]. *)
Theorem X1_scores_stay_inside_the_clamp
    (now : Z) (fromisoformat : string -> Py.pyresult Py.datetime)
    (repository : RepositoryData) (languages : Py.dict Z)
    (contributors : list Contributor) (commits : list Commit)
    (issues : list Issue) :
  let r := analyze_fetched now fromisoformat repository languages
                           contributors commits issues in
  (4.2 <= technical_score r <= 8.5)
  /\ (5 <= quality_score r <= 9)
  /\ (5 <= activity_score r <= 7.5)
  /\ ((71 # 15) <= overall_score r <= (25 # 3)).
Proof.
  cbn zeta. unfold analyze_fetched.
  cbn [technical_score quality_score activity_score overall_score].
  pose proof (technical_score_tight repository languages) as Ht.
  pose proof (ScorerFacts.quality_score_ge_5 repository contributors issues)
    as Hq1.
  pose proof (quality_score_le_9 repository contributors issues) as Hq2.
  pose proof (ScorerFacts.activity_score_ge_5 now fromisoformat repository
                commits) as Ha1.
  pose proof (activity_score_le_7_5 now fromisoformat repository commits)
    as Ha2.
  set (t := _calculate_technical_score _ _) in *.
  set (q := _calculate_quality_score _ _ _) in *.
  set (a := _calculate_activity_score _ _ _ _) in *.
  repeat split; try tauto; rewrite (Qdiv_lit (t + q + a) 3 1); lra.
Qed.

(** ** Commits whose date cannot be used *)

Section Commits.
Variable now : Z.
Variable fromisoformat : string -> Py.pyresult Py.datetime.

Local Abbreviation usable cutoff :=
  (fun commit =>
     Py.is_ok (commit_is_recent fromisoformat cutoff commit)).

Lemma fold_count_usable cutoff commits acc :
  fold_left
    (fun recent_commits commit =>
       match commit_is_recent fromisoformat cutoff commit with
       | Py.Ok true => S recent_commits
       | Py.Ok false => recent_commits
       | Py.Raise _ => recent_commits
       end)
    (filter (usable cutoff) commits) acc
  = fold_left
      (fun recent_commits commit =>
         match commit_is_recent fromisoformat cutoff commit with
         | Py.Ok true => S recent_commits
         | Py.Ok false => recent_commits
         | Py.Raise _ => recent_commits
         end)
      commits acc.
Proof.
  revert acc. induction commits as [|c cs IH]; intro acc; simpl;
    [reflexivity|].
  destruct (commit_is_recent fromisoformat cutoff c) as [[|]|e] eqn:E;
    simpl; rewrite ?E; apply IH.
Qed.

Lemma count_recent_usable cutoff commits :
  count_recent_commits fromisoformat cutoff (filter (usable cutoff) commits)
  = count_recent_commits fromisoformat cutoff commits.
Proof. unfold count_recent_commits. apply fold_count_usable. Qed.

Lemma count_recent_nil cutoff :
  count_recent_commits fromisoformat cutoff [] = 0%nat.
Proof. reflexivity. Qed.

(** X2.  Commits whose date does not parse, or cannot be compared with the
    cut-off, are skipped and nothing else: the activity score is the score
    of the commit list without them. *)
Theorem X2_unusable_commits_are_skipped
    (repository : RepositoryData) (commits : list Commit) :
  let cutoff_date :=
    Py.dt_minus (datetime_now now) (Py.timedelta_days 90) in
  _calculate_activity_score now fromisoformat repository commits
  = _calculate_activity_score now fromisoformat repository
      (filter (usable cutoff_date) commits).
Proof.
  cbn zeta. unfold _calculate_activity_score.
  set (cutoff := Py.dt_minus (datetime_now now) (Py.timedelta_days 90)).
  rewrite count_recent_usable.
  destruct (filter (usable cutoff) commits) as [|c' cs'] eqn:Ef.
  - assert (H0 : count_recent_commits fromisoformat cutoff commits = 0%nat).
    { rewrite <- count_recent_usable, Ef. reflexivity. }
    rewrite H0. destruct commits; reflexivity.
  - destruct commits as [|c cs]; [discriminate Ef|]. reflexivity.
Qed.

(** When no timestamp reads as a naive datetime, no commit is recent and
    the age is 0. *)
Hypothesis never_naive :
  forall s d, fromisoformat s = Py.Ok d -> Py.aware d = true.

Lemma aware_commit_not_counted cutoff commit :
  Py.aware cutoff = false ->
  commit_is_recent fromisoformat cutoff commit <> Py.Ok true.
Proof.
  intros Hc. unfold commit_is_recent.
  destruct (fromisoformat _) as [d|e] eqn:E; simpl; [|discriminate].
  unfold Py.dt_gt. rewrite (never_naive _ _ E), Hc. simpl. discriminate.
Qed.

Lemma aware_count_zero cutoff commits acc :
  Py.aware cutoff = false ->
  fold_left
    (fun recent_commits commit =>
       match commit_is_recent fromisoformat cutoff commit with
       | Py.Ok true => S recent_commits
       | Py.Ok false => recent_commits
       | Py.Raise _ => recent_commits
       end)
    commits acc = acc.
Proof.
  intro Hc. revert acc. induction commits as [|c cs IH]; intro acc; simpl;
    [reflexivity|].
  pose proof (aware_commit_not_counted cutoff c Hc) as H.
  destruct (commit_is_recent fromisoformat cutoff c) as [[|]|e];
    [congruence | apply IH | apply IH].
Qed.

Lemma aware_age_zero repository : age_days_of now fromisoformat repository = 0%Z.
Proof.
  unfold age_days_of.
  destruct (fromisoformat _) as [d|e] eqn:E; simpl; [|reflexivity].
  unfold Py.dt_sub. rewrite (never_naive _ _ E). reflexivity.
Qed.

Lemma aware_activity_score repository commits :
  _calculate_activity_score now fromisoformat repository commits == 5.
Proof.
  unfold _calculate_activity_score.
  rewrite aware_age_zero. unfold count_recent_commits.
  rewrite aware_count_zero by reflexivity.
  destruct (Py.list_truthy commits); reflexivity.
Qed.
End Commits.

(** X3.  When every timestamp that parses carries a UTC offset, the activity
    score is 5.0 whatever the commits and the creation date: comparing or
    subtracting an aware datetime and the naive [datetime.now()] raises, the
    commit is skipped and the age is taken as 0. *)
Theorem X3_aware_timestamps_give_base_activity
    (now : Z) (fromisoformat : string -> Py.pyresult Py.datetime)
    (Haware : forall s d, fromisoformat s = Py.Ok d -> Py.aware d = true)
    (repository : RepositoryData) (commits : list Commit) :
  _calculate_activity_score now fromisoformat repository commits == 5.
Proof. now apply aware_activity_score. Qed.

(** X3 for twelve commits dated today in GitHub's form. *)
Lemma X3_witness :
  (forall s d, Samples.aware_fromisoformat s = Py.Ok d -> Py.aware d = true)
  /\ _calculate_activity_score
       Samples.sample_now Samples.aware_fromisoformat
       (Samples.counted_repository 3 1 [])
       (repeat (Samples.commit_at "2024-05-31T09:00:00Z") 12) == 5.
Proof.
  assert (H : forall s d,
             Samples.aware_fromisoformat s = Py.Ok d -> Py.aware d = true).
  { intros s d. unfold Samples.aware_fromisoformat.
    destruct (Py.str_truthy s); [|discriminate].
    intros [= <-]. reflexivity. }
  split; [exact H|].
  exact (X3_aware_timestamps_give_base_activity
           Samples.sample_now Samples.aware_fromisoformat H
           (Samples.counted_repository 3 1 [])
           (repeat (Samples.commit_at "2024-05-31T09:00:00Z") 12)).
Defined.


Lemma count_recent_30_raises
      (fromisoformat : string -> Py.pyresult Py.datetime)
      (cutoff : Py.datetime) (commits : list Commit) (c : Commit) e :
  In c commits ->
  commit_is_recent fromisoformat cutoff c = Py.Raise e ->
  exists e', count_recent_30 fromisoformat cutoff commits = Py.Raise e'.
Proof.
  intros Hin Hc. induction commits as [|x rest IH]; [destruct Hin|].
  cbn [count_recent_30].
  destruct Hin as [->|Hin].
  - unfold commit_is_recent in Hc.
    destruct (fromisoformat _) as [d|e1]; cbn [Py.bind] in *; [|eauto].
    rewrite Hc. cbn [Py.bind]. eauto.
  - destruct (fromisoformat _) as [d|e1]; cbn [Py.bind]; [|eauto].
    destruct (Py.dt_gt d cutoff) as [recent|e2]; cbn [Py.bind]; [|eauto].
    destruct (IH Hin) as (e' & ->). cbn [Py.bind]. eauto.
Qed.

(** X30.  The insights count the recent commits inside one [try]: a single
    commit whose date does not parse, or cannot be compared with the
    30-day cut-off, removes the activity insight, however many other
    commits are recent.  The insights are then those of a repository
    without commits. *)
Theorem X30_one_bad_commit_date_drops_the_activity_insight
    (now : Z) (fromisoformat : string -> Py.pyresult Py.datetime)
    (repository : RepositoryData) (languages : Py.dict Z)
    (contributors : list Contributor) (commits : list Commit)
    (issues : list Issue) (c : Commit) (e : Py.exn) :
  In c commits ->
  commit_is_recent fromisoformat
    (Py.dt_minus (datetime_now now) (Py.timedelta_days 30)) c
  = Py.Raise e ->
  _generate_insights now fromisoformat repository languages contributors
                     commits issues
  = _generate_insights now fromisoformat repository languages contributors
                       [] issues.
Proof.
  intros Hin Hc.
  destruct (count_recent_30_raises fromisoformat _ commits c e Hin Hc)
    as (e' & He').
  unfold _generate_insights. rewrite He'.
  destruct commits as [|x rest]; [destruct Hin|].
  reflexivity.
Qed.

Lemma X30_witness :
  _generate_insights
    Samples.sample_now Samples.aware_fromisoformat
    (Samples.counted_repository 3 1 []) [] []
    (repeat (Samples.commit_at "2024-05-31T09:00:00Z") 12) []
  = _generate_insights
      Samples.sample_now Samples.aware_fromisoformat
      (Samples.counted_repository 3 1 []) [] [] [] [].
Proof.
  apply (X30_one_bad_commit_date_drops_the_activity_insight
           Samples.sample_now Samples.aware_fromisoformat
           (Samples.counted_repository 3 1 []) [] []
           (repeat (Samples.commit_at "2024-05-31T09:00:00Z") 12) []
           (Samples.commit_at "2024-05-31T09:00:00Z") Py.TypeError).
  - left. reflexivity.
  - reflexivity.
Defined.

End ScorerLaws.


(* ================================================================= *)
(** * Similarity search: further laws *)

Module SearchLaws.
Import EnhancedAnalyzer DictFacts SortFacts SearchFacts.

Lemma in_values {V : Type} (d : Py.dict V) k v :
  In (k, v) d -> In v (Py.values d).
Proof. intro H. unfold Py.values. apply in_map_iff. now exists (k, v). Qed.

Lemma in_values_inv {V : Type} (d : Py.dict V) v :
  In v (Py.values d) -> exists k, In (k, v) d.
Proof.
  unfold Py.values. rewrite in_map_iff.
  intros ([k v'] & E & H). simpl in E. subst. now exists k.
Qed.

(** Ranking only drops and reorders: every ranked item is a pooled item. *)
Lemma dedup_and_rank_from_pool l r :
  In r (dedup_and_rank l) -> In r l.
Proof.
  unfold dedup_and_rank. intro H.
  apply firstn_In in H.
  apply (Permutation_in _ (sorted_reverse_perm stargazers_count _)) in H.
  apply in_values_inv in H. destruct H as [k H].
  eapply dedup_from_pool. exact H.
Qed.

Lemma search_by_keywords_from_search search d r :
  In r (_search_by_keywords search d) ->
  exists query, In r (search query 10%nat).
Proof.
  unfold _search_by_keywords.
  destruct (Py.list_truthy (_extract_keywords d)); [|intros []].
  intro H. eexists. exact H.
Qed.

(** X4.  Whatever the remote search returns, the similar repositories are
    at most 20, have pairwise distinct full names, are in descending order
    of stars, and each of them is an item of one of the searches. *)
Theorem X4_similar_repositories_shape
    (search : string -> nat -> list SearchItem)
    (repository : RepositoryData) :
  let similar := _search_similar_repositories search repository in
  (List.length similar <= 20)%nat
  /\ NoDup (map item_full_name similar)
  /\ Sorted (Domain.desc stargazers_count) similar
  /\ Forall (fun r => exists query, In r (search query 10%nat)) similar.
Proof.
  cbn zeta. unfold _search_similar_repositories.
  set (pool := (_ ++ _)%list).
  destruct (dedup_and_rank_shape pool) as (Hnd & Hs & Hlen).
  repeat split; try assumption.
  apply Forall_forall. intros r Hin.
  apply dedup_and_rank_from_pool in Hin. unfold pool in Hin.
  apply in_app_or in Hin. destruct Hin as [Hin|Hin].
  - destruct (language repository) as [l|]; [|destruct Hin].
    destruct (Py.str_truthy l); [|destruct Hin].
    eexists. exact Hin.
  - apply in_app_or in Hin. destruct Hin as [Hin|Hin].
    + apply in_flat_map in Hin. destruct Hin as (t & _ & Hin).
      eexists. exact Hin.
    + destruct (description repository) as [d|]; [|destruct Hin].
      destruct (Py.str_truthy d); [|destruct Hin].
      eapply search_by_keywords_from_search. exact Hin.
Qed.

(** X5.  Deduplication keeps, for every pooled item, one entry under its
    full name with at least as many stars; when the distinct names are at
    most 20 that entry is among the ranked results. *)
Theorem X5_most_starred_entry_is_kept
    (similar_repos : list SearchItem) (repo : SearchItem)
    (Hin : In repo similar_repos) :
  exists kept,
    In kept (Py.values (dedup similar_repos))
    /\ In kept similar_repos
    /\ item_full_name kept = item_full_name repo
    /\ (stargazers_count repo <= stargazers_count kept)%Z
    /\ ((List.length (dedup similar_repos) <= 20)%nat ->
        In kept (dedup_and_rank similar_repos)).
Proof.
  destruct (dedup_keeps_most_starred similar_repos repo Hin)
    as (kept & Hget & Hstars).
  apply get_Some_In in Hget.
  exists kept. split; [eapply in_values; exact Hget|].
  split; [eapply dedup_from_pool; exact Hget|].
  split.
  - destruct (fold_dedup_inv similar_repos []) as [_ Hk];
      [split; constructor|].
    fold (dedup similar_repos) in Hk. rewrite Forall_forall in Hk.
    specialize (Hk _ Hget). simpl in Hk. now symmetry.
  - split; [exact Hstars|].
    intro Hlen. unfold dedup_and_rank.
    rewrite firstn_all2.
    + apply (Permutation_in _
               (Permutation_sym (sorted_reverse_perm stargazers_count _))).
      eapply in_values. exact Hget.
    + rewrite (Permutation_length (sorted_reverse_perm stargazers_count _)).
      unfold Py.values. rewrite length_map. exact Hlen.
Qed.

(** X5 for a pool in which "a/chat" occurs with 200 and with 250 stars. *)
Lemma X5_witness :
  In (Samples.candidate "a/chat" 200 60 "2024-05-20T12:00:00")
     (Samples.fixed_search "python" 10)
  /\ exists kept,
       In kept (dedup_and_rank (Samples.fixed_search "python" 10))
       /\ item_full_name kept = "a/chat"
       /\ (200 <= stargazers_count kept)%Z.
Proof.
  assert (Hin : In (Samples.candidate "a/chat" 200 60 "2024-05-20T12:00:00")
                   (Samples.fixed_search "python" 10)) by (now left).
  split; [exact Hin|].
  destruct (X5_most_starred_entry_is_kept _ _ Hin)
    as (kept & _ & _ & Hn & Hs & Hr).
  exists kept. split; [apply Hr; simpl; lia|]. split; assumption.
Defined.

(** ** Keywords *)

Lemma match_body_prefix (s t : string) :
  match_body s = Some t -> exists rest, s = (t ++ rest)%string.
Proof.
  revert t. induction s as [|c s IH]; simpl; intros t H; [discriminate|].
  destruct (in_class c); [|discriminate].
  destruct (match_body s) as [t'|].
  - injection H as <-. destruct (IH t' eq_refl) as [rest ->].
    now exists rest.
  - destruct (word_boundary (Some c) (head s)); [|discriminate].
    injection H as <-. now exists s.
Qed.

Lemma substring_cons (c : ascii) (w s : string) :
  Domain.substring w s -> Domain.substring w (String c s).
Proof.
  intros (pre & post & ->). now exists (String c pre), post.
Qed.

(** Every token of the scan occurs in the text. *)
Lemma scan_substrings (before : option ascii) (skip : nat) (s : string) :
  Forall (fun t => Domain.substring t s) (scan before skip s).
Proof.
  revert before skip. induction s as [|c s IH]; intros before skip.
  - constructor.
  - assert (Hrest : forall b k,
               Forall (fun t => Domain.substring t (String c s))
                      (scan b k s)).
    { intros b k. eapply Forall_impl; [|apply IH].
      intros t. apply substring_cons. }
    cbn [scan]. destruct skip as [|k]; [|apply Hrest].
    destruct (match_at before (String c s)) as [tok|] eqn:Em;
      [|apply Hrest].
    constructor; [|apply Hrest].
    unfold match_at in Em.
    destruct (word_boundary before (head (String c s))); [|discriminate].
    destruct (match_body_prefix _ _ Em) as [rest ->].
    now exists EmptyString, rest.
Qed.

Lemma lower_char_idem (c : ascii) :
  Py.lower_char (Py.lower_char c) = Py.lower_char c.
Proof. destruct c as [[] [] [] [] [] [] [] []]; reflexivity. Qed.

Lemma lower_idem (s : string) : Py.lower (Py.lower s) = Py.lower s.
Proof.
  induction s as [|c s IH]; simpl; [reflexivity|].
  now rewrite lower_char_idem, IH.
Qed.

(** X6.  Every keyword occurs in the lower-cased text, and the extraction
    does not depend on the case of the text: texts with the same
    lower-casing have the same keywords. *)
Theorem X6_keywords_occur_and_ignore_case (text : string) :
  Forall (fun w => Domain.substring w (Py.lower text))
         (_extract_keywords text)
  /\ _extract_keywords (Py.lower text) = _extract_keywords text
  /\ (forall other,
         Py.lower other = Py.lower text ->
         _extract_keywords other = _extract_keywords text).
Proof.
  split; [|split].
  - rewrite extract_keywords_eq. apply Forall_forall. intros w Hin.
    apply firstn_In in Hin. apply filter_In in Hin. destruct Hin as [Hin _].
    pose proof (scan_substrings None 0 (Py.lower text)) as F.
    rewrite Forall_forall in F. now apply F.
  - rewrite !extract_keywords_eq, lower_idem. reflexivity.
  - intros other H. rewrite !extract_keywords_eq, H. reflexivity.
Qed.


Lemma X6_witness :
  _extract_keywords "Fast API Server" = _extract_keywords "fast api server".
Proof.
  apply (proj2 (proj2 (X6_keywords_occur_and_ignore_case "fast api server"))
               "Fast API Server").
  reflexivity.
Defined.

End SearchLaws.


(* ================================================================= *)
(** * The comparison aggregate: further laws *)

Module AggregateLaws.
Import EnhancedAnalyzer PyFacts DictFacts AggregateFacts.

(** ** [list(set(...))] *)

Lemma list_set_In (x : string) (xs : list string) :
  In x (Py.list_set xs) <-> In x xs.
Proof.
  induction xs as [|y ys IH]; simpl; [tauto|].
  rewrite filter_In, IH. split.
  - intros [E|[H _]]; [now left | now right].
  - intros [E|H]; [now left|].
    destruct (String.eqb_spec y x) as [->|Hne]; [now left|].
    right. split; [exact H|].
    destruct (String.eqb_spec y x); [contradiction | reflexivity].
Qed.

Lemma list_set_NoDup (xs : list string) : NoDup (Py.list_set xs).
Proof.
  induction xs as [|y ys IH]; simpl; constructor.
  - rewrite filter_In. intros [_ H].
    now rewrite String.eqb_refl in H.
  - now apply NoDup_filter.
Qed.

(** ** Best practices *)

Section Practices.
Variable now : Z.
Variable fromisoformat : string -> Py.pyresult Py.datetime.

Lemma practices_of_statements repo ps :
  practices_of now fromisoformat repo = Py.Ok ps ->
  incl ps Domain.best_practice_statements.
Proof.
  unfold practices_of.
  destruct (fromisoformat _) as [d|e]; simpl; [|discriminate].
  destruct (Py.dt_sub _ d) as [td|e]; simpl; [|discriminate].
  intros [= <-].
  repeat apply incl_app;
    repeat match goal with
           | |- context [match ?x with _ => _ end] => destruct x
           end;
    first [ apply incl_nil_l
          | intros ? [<-|[]]; simpl; tauto ].
Qed.

Lemma collect_practices_statements repositories ps :
  collect_practices now fromisoformat repositories = Py.Ok ps ->
  incl ps Domain.best_practice_statements.
Proof.
  revert ps. induction repositories as [|repo rest IH]; simpl; intros ps.
  - intros [= <-]. apply incl_nil_l.
  - destruct (practices_of now fromisoformat repo) as [p|e] eqn:Ep; simpl;
      [|discriminate].
    destruct (collect_practices now fromisoformat rest) as [q|e]; simpl;
      [|discriminate].
    intros [= <-]. apply incl_app.
    + eapply practices_of_statements. exact Ep.
    + now apply IH.
Qed.

(** Without an exception in any repository the collection returns. *)
Lemma collect_practices_ok repositories :
  Forall (fun repo => Py.is_ok (practices_of now fromisoformat repo) = true)
         repositories ->
  Py.is_ok (collect_practices now fromisoformat repositories) = true.
Proof.
  induction 1 as [|repo rest Hr _ IH]; simpl; [reflexivity|].
  destruct (practices_of now fromisoformat repo); [|discriminate].
  simpl. destruct (collect_practices now fromisoformat rest);
    [reflexivity | discriminate].
Qed.

Lemma collect_practices_raise_inv repositories e :
  collect_practices now fromisoformat repositories = Py.Raise e ->
  exists repo e',
    In repo repositories
    /\ practices_of now fromisoformat repo = Py.Raise e'.
Proof.
  revert e.
  induction repositories as [|repo rest IH]; simpl; intro e; [discriminate|].
  destruct (practices_of now fromisoformat repo) as [p|e0] eqn:Ep; simpl.
  - destruct (collect_practices now fromisoformat rest) as [q|e1]; simpl;
      [discriminate|].
    intros _. destruct (IH e1 eq_refl) as (r & e' & Hin & Hr).
    exists r, e'. split; [now right | exact Hr].
  - intros _. exists repo, e0. split; [now left | exact Ep].
Qed.
End Practices.

(** X7.  When [_extract_best_practices] returns, its statements are
    pairwise distinct and each is one of the five fixed statements, so they
    are at most five. *)
Theorem X7_best_practices_are_distinct_fixed_statements
    (now : Z) (fromisoformat : string -> Py.pyresult Py.datetime)
    (repositories : list SearchItem) (practices : list string)
    (Hok : _extract_best_practices now fromisoformat repositories
           = Py.Ok practices) :
  NoDup practices
  /\ incl practices Domain.best_practice_statements
  /\ (List.length practices <= 5)%nat.
Proof.
  unfold _extract_best_practices in Hok.
  destruct (collect_practices now fromisoformat repositories) as [ps|e] eqn:E;
    simpl in Hok; [|discriminate].
  injection Hok as <-.
  assert (Hnd : NoDup (Py.list_set ps)) by apply list_set_NoDup.
  assert (Hincl : incl (Py.list_set ps) Domain.best_practice_statements).
  { intros s Hs. apply (proj1 (list_set_In _ _)) in Hs.
    exact (collect_practices_statements _ _ _ _ E s Hs). }
  split; [exact Hnd|]. split; [exact Hincl|].
  exact (NoDup_incl_length Hnd Hincl).
Qed.

(** X7 for two candidates that both have more than 100 stars. *)
Lemma X7_witness :
  _extract_best_practices
    Samples.sample_now Samples.sample_fromisoformat
    [Samples.candidate "a/chat" 200 60 "2024-05-20T12:00:00";
     Samples.candidate "b/chat" 190 10 "2024-05-20T12:00:00"]
  = Py.Ok ["High community engagement (100+ stars)";
           "Active community contribution (50+ forks)";
           "Recent development activity"]
  /\ NoDup ["High community engagement (100+ stars)";
            "Active community contribution (50+ forks)";
            "Recent development activity"].
Proof.
  assert (H : _extract_best_practices
                Samples.sample_now Samples.sample_fromisoformat
                [Samples.candidate "a/chat" 200 60 "2024-05-20T12:00:00";
                 Samples.candidate "b/chat" 190 10 "2024-05-20T12:00:00"]
              = Py.Ok ["High community engagement (100+ stars)";
                       "Active community contribution (50+ forks)";
                       "Recent development activity"])
    by (vm_compute; reflexivity).
  split; [exact H|].
  exact (proj1 (X7_best_practices_are_distinct_fixed_statements _ _ _ _ H)).
Defined.

(** ** The aggregate *)

Lemma firstn_truthy {A : Type} (l : list A) :
  Py.list_truthy (firstn 5 l) = Py.list_truthy l.
Proof. destruct l; reflexivity. Qed.

(** X8.  The aggregate reads the first five candidates only, and it is
    empty exactly when there is no candidate or the date handling of one of
    those five raises. *)
Theorem X8_aggregate_reads_five_and_fails_as_a_whole
    (now : Z) (fromisoformat : string -> Py.pyresult Py.datetime)
    (repositories : list SearchItem) :
  _analyze_top_repositories now fromisoformat repositories
  = _analyze_top_repositories now fromisoformat (firstn 5 repositories)
  /\ (_analyze_top_repositories now fromisoformat repositories = None
      <-> repositories = []
          \/ exists repo e,
               In repo (firstn 5 repositories)
               /\ practices_of now fromisoformat repo = Py.Raise e).
Proof.
  split.
  - unfold _analyze_top_repositories.
    rewrite firstn_truthy, firstn_firstn. reflexivity.
  - unfold _analyze_top_repositories, _extract_best_practices. split.
    + destruct repositories as [|r rs]; [now left|]. cbn [Py.list_truthy].
      destruct (collect_practices now fromisoformat (firstn 5 (r :: rs)))
        as [ps|e] eqn:E; simpl; [discriminate|].
      intros _. right.
      destruct (collect_practices_raise_inv _ _ _ _ E)
        as (repo & e' & Hin & Hr).
      now exists repo, e'.
    + intros [->|(repo & e & Hin & Hr)]; [reflexivity|].
      destruct (Py.list_truthy repositories); [|reflexivity].
      destruct (collect_practices_raises now fromisoformat _ repo e Hin Hr)
        as [e' ->].
      reflexivity.
Qed.


(** ** Frequency maps *)

Local Abbreviation bump := Domain.bump.

Lemma sum_values_set (d : Py.dict Z) k v :
  Py.sum (Py.values (Py.set d k v))
  = (Py.sum (Py.values d) - Py.get_default d k 0 + v)%Z.
Proof.
  unfold Py.get_default.
  induction d as [|[k' v'] d IH]; simpl.
  - change (Py.values [(k, v)]) with [v].
    rewrite PortfolioFacts.sum_cons. change (Py.sum []) with 0%Z. lia.
  - destruct (String.eqb_spec k k') as [->|Hne].
    + change (Py.values ((k', v) :: d)) with (v :: Py.values d).
      change (Py.values ((k', v') :: d)) with (v' :: Py.values d).
      rewrite !PortfolioFacts.sum_cons. lia.
    + change (Py.values ((k', v') :: Py.set d k v))
        with (v' :: Py.values (Py.set d k v)).
      change (Py.values ((k', v') :: d)) with (v' :: Py.values d).
      rewrite !PortfolioFacts.sum_cons, IH. lia.
Qed.

Lemma bump_sum (d : Py.dict Z) k :
  Py.sum (Py.values (bump d k)) = (Py.sum (Py.values d) + 1)%Z.
Proof. unfold Domain.bump. rewrite sum_values_set. lia. Qed.

Lemma get_default_positive (d : Py.dict Z) k :
  Forall (fun c => (1 <= c)%Z) (Py.values d) ->
  (0 <= Py.get_default d k 0)%Z.
Proof.
  intro F. unfold Py.get_default.
  destruct (Py.get d k) as [v|] eqn:E; [|lia].
  apply get_Some_In in E. rewrite Forall_forall in F.
  assert (In v (Py.values d)) by (apply in_map_iff; now exists (k, v)).
  specialize (F v H). lia.
Qed.

Lemma bump_positive (d : Py.dict Z) k :
  Forall (fun c => (1 <= c)%Z) (Py.values d) ->
  Forall (fun c => (1 <= c)%Z) (Py.values (bump d k)).
Proof.
  intro F. pose proof (get_default_positive d k F) as H0.
  unfold Domain.bump. apply Forall_forall. intros c Hc.
  apply in_map_iff in Hc. destruct Hc as ([k' c'] & E & Hin).
  simpl in E. subst c'.
  apply in_set in Hin. destruct Hin as [[= _ ->]|Hin]; [lia|].
  rewrite Forall_forall in F. apply F.
  apply in_map_iff. now exists (k', c).
Qed.

Local Abbreviation counts_to := Domain.counts_to.

Lemma bump_counts (d : Py.dict Z) k n :
  counts_to d n -> counts_to (bump d k) (n + 1)%Z.
Proof.
  intros (Hnd & Hpos & Hsum). split; [|split].
  - unfold Domain.bump. now apply set_keeps_NoDup.
  - now apply bump_positive.
  - rewrite bump_sum. lia.
Qed.

Lemma fold_bump_counts (ks : list string) (d : Py.dict Z) n :
  counts_to d n ->
  counts_to (fold_left bump ks d) (n + Z.of_nat (List.length ks))%Z.
Proof.
  revert d n. induction ks as [|k ks IH]; intros d n H; simpl fold_left.
  - simpl. rewrite Z.add_0_r. exact H.
  - apply (bump_counts d k) in H. apply IH in H.
    replace (n + Z.of_nat (List.length (k :: ks)))%Z
      with (n + 1 + Z.of_nat (List.length ks))%Z
      by (simpl List.length; lia).
    exact H.
Qed.

Lemma count_languages_counts (top_repos : list SearchItem) :
  counts_to (count_languages top_repos)
            (Z.of_nat (List.length
                         (filter (fun repo =>
                                    Py.opt_truthy (item_language repo))
                                 top_repos))).
Proof.
  unfold count_languages.
  assert (G : forall d n,
             counts_to d n ->
             counts_to
               (fold_left
                  (fun d repo =>
                     match item_language repo with
                     | Some lang =>
                         if Py.str_truthy lang then count_up d lang else d
                     | None => d
                     end) top_repos d)
               (n + Z.of_nat
                      (List.length
                         (filter (fun repo =>
                                    Py.opt_truthy (item_language repo))
                                 top_repos)))%Z).
  { induction top_repos as [|repo rest IH]; intros d n H; simpl.
    - rewrite Z.add_0_r. exact H.
    - destruct (item_language repo) as [lang|]; simpl;
        [destruct (Py.str_truthy lang)|]; try (apply IH; exact H).
      apply (bump_counts d lang) in H. apply IH in H.
      simpl List.length. rewrite Nat2Z.inj_succ.
      replace (n + Z.succ _)%Z with (n + 1 + Z.of_nat
        (List.length (filter (fun repo => Py.opt_truthy (item_language repo))
                             rest)))%Z by lia.
      exact H. }
  apply (G [] 0%Z). repeat split; constructor.
Qed.

Lemma count_topics_counts (top_repos : list SearchItem) :
  counts_to (count_topics top_repos)
            (Z.of_nat (List.length (flat_map item_topics top_repos))).
Proof.
  unfold count_topics.
  assert (G : forall d n,
             counts_to d n ->
             counts_to
               (fold_left
                  (fun d repo => fold_left count_up (item_topics repo) d)
                  top_repos d)
               (n + Z.of_nat
                      (List.length (flat_map item_topics top_repos)))%Z).
  { induction top_repos as [|repo rest IH]; intros d n H; simpl.
    - rewrite Z.add_0_r. exact H.
    - apply (fold_bump_counts (item_topics repo)) in H. apply IH in H.
      rewrite length_app, Nat2Z.inj_add, Z.add_assoc. exact H. }
  apply (G [] 0%Z). repeat split; constructor.
Qed.

Lemma count_le_sum (cs : list Z) (c : Z) :
  Forall (fun c => (1 <= c)%Z) cs -> In c cs -> (c <= Py.sum cs)%Z.
Proof.
  induction 1 as [|x xs Hx Hxs IH]; intros Hin; [destruct Hin|].
  rewrite PortfolioFacts.sum_cons.
  assert (0 <= Py.sum xs)%Z.
  { apply PortfolioFacts.sum_nonneg.
    eapply Forall_impl; [|exact Hxs]. simpl. intros. lia. }
  destruct Hin as [->|Hin]; [lia|]. specialize (IH Hin). lia.
Qed.

(** X9.  In a returned aggregate, [total_analyzed] is the number of
    candidates read (at most 5); both frequency maps have pairwise distinct
    keys and counts of at least 1; the language counts add up to the number
    of candidates that name a language, so no count exceeds
    [total_analyzed]; the topic counts add up to the number of topic tags of
    those candidates. *)
Theorem X9_frequency_maps_count_the_candidates
    (now : Z) (fromisoformat : string -> Py.pyresult Py.datetime)
    (repositories : list SearchItem) (a : TopReposAnalysis)
    (Hsome : _analyze_top_repositories now fromisoformat repositories
             = Some a) :
  let top_repos := firstn 5 repositories in
  total_analyzed a = Nat.min 5 (List.length repositories)
  /\ NoDup (Py.keys (common_languages a))
  /\ Py.sum (Py.values (common_languages a))
     = Z.of_nat (List.length
                   (filter (fun repo => Py.opt_truthy (item_language repo))
                           top_repos))
  /\ Forall (fun c => (1 <= c <= Z.of_nat (total_analyzed a))%Z)
            (Py.values (common_languages a))
  /\ NoDup (Py.keys (common_topics a))
  /\ Forall (fun c => (1 <= c)%Z) (Py.values (common_topics a))
  /\ Py.sum (Py.values (common_topics a))
     = Z.of_nat (List.length (flat_map item_topics top_repos)).
Proof.
  cbv zeta. unfold _analyze_top_repositories in Hsome.
  destruct (Py.list_truthy repositories); [|discriminate].
  destruct (_extract_best_practices now fromisoformat (firstn 5 repositories))
    as [ps|e]; [|discriminate].
  match type of Hsome with
  | Some ?x = Some _ => assert (Ha : a = x) by congruence
  end.
  subst a. clear Hsome.
  cbv beta iota delta [total_analyzed common_languages common_topics].
  destruct (count_languages_counts (firstn 5 repositories))
    as (Hl1 & Hl2 & Hl3).
  destruct (count_topics_counts (firstn 5 repositories))
    as (Ht1 & Ht2 & Ht3).
  split; [apply length_firstn|].
  split; [exact Hl1|]. split; [exact Hl3|].
  split; [|split; [exact Ht1|split; [exact Ht2|exact Ht3]]].
  apply Forall_forall. intros c Hc.
  pose proof (count_le_sum _ c Hl2 Hc) as Hle.
  rewrite Forall_forall in Hl2. specialize (Hl2 c Hc).
  rewrite Hl3 in Hle.
  pose proof (filter_length_le
                (fun repo => Py.opt_truthy (item_language repo))
                (firstn 5 repositories)).
  lia.
Qed.

(** X9 for the three items of the fixed search. *)
Lemma X9_witness :
  exists a,
    _analyze_top_repositories
      Samples.sample_now Samples.sample_fromisoformat
      (Samples.fixed_search "python" 10) = Some a
    /\ total_analyzed a = 3%nat
    /\ Py.sum (Py.values (common_languages a)) = 3%Z
    /\ Py.sum (Py.values (common_topics a)) = 6%Z.
Proof.
  destruct (_analyze_top_repositories
              Samples.sample_now Samples.sample_fromisoformat
              (Samples.fixed_search "python" 10)) as [a|] eqn:E;
    [|vm_compute in E; discriminate E].
  exists a. split; [reflexivity|].
  destruct (X9_frequency_maps_count_the_candidates _ _ _ _ E)
    as (H1 & _ & H3 & _ & _ & _ & H7).
  split; [exact H1|]. split; [exact H3 | exact H7].
Defined.

End AggregateLaws.


(* ================================================================= *)
(** * Recommendations and enhanced scores: further laws *)

Module ComposerLaws.
Import EnhancedAnalyzer PyFacts DictFacts ComposerFacts.

(** ** Means *)

Lemma sum_between (lo hi : Z) (xs : list Z) :
  Forall (fun x => (lo <= x <= hi)%Z) xs ->
  (Z.of_nat (List.length xs) * lo <= Py.sum xs
   <= Z.of_nat (List.length xs) * hi)%Z.
Proof.
  induction 1 as [|x xs Hx _ IH].
  - change (Py.sum []) with 0%Z. simpl. lia.
  - rewrite PortfolioFacts.sum_cons. simpl List.length.
    rewrite Nat2Z.inj_succ. lia.
Qed.

Lemma mean_between (lo hi : Z) (xs : list Z) :
  xs <> [] ->
  Forall (fun x => (lo <= x <= hi)%Z) xs ->
  inject_Z lo
  <= inject_Z (Py.sum xs) / inject_Z (Z.of_nat (List.length xs))
  <= inject_Z hi.
Proof.
  intros Hne F. pose proof (sum_between lo hi xs F) as [Hlo Hhi].
  assert (Hn : 0 < inject_Z (Z.of_nat (List.length xs))).
  { change 0 with (inject_Z 0). rewrite <- Zlt_Qlt.
    destruct xs; [congruence | simpl; lia]. }
  split.
  - apply Qle_shift_div_l; [exact Hn|].
    rewrite <- inject_Z_mult, <- Zle_Qle. lia.
  - apply Qle_shift_div_r; [exact Hn|].
    rewrite <- inject_Z_mult, <- Zle_Qle. lia.
Qed.

(** X10.  The mean stars and mean forks of a returned aggregate lie
    between the least and the greatest count among the candidates read. *)
Theorem X10_means_lie_between_the_extremes
    (now : Z) (fromisoformat : string -> Py.pyresult Py.datetime)
    (repositories : list SearchItem) (a : TopReposAnalysis)
    (lo_stars hi_stars lo_forks hi_forks : Z)
    (Hsome : _analyze_top_repositories now fromisoformat repositories
             = Some a)
    (Hstars : Forall (fun r => (lo_stars <= stargazers_count r
                                <= hi_stars)%Z)
                     (firstn 5 repositories))
    (Hforks : Forall (fun r => (lo_forks <= forks_count r <= hi_forks)%Z)
                     (firstn 5 repositories)) :
  (inject_Z lo_stars <= average_stars a <= inject_Z hi_stars)
  /\ (inject_Z lo_forks <= average_forks a <= inject_Z hi_forks).
Proof.
  unfold _analyze_top_repositories in Hsome.
  destruct repositories as [|r0 rs]; [discriminate|].
  cbn [Py.list_truthy] in Hsome.
  destruct (_extract_best_practices now fromisoformat (firstn 5 (r0 :: rs)))
    as [ps|e]; [|discriminate].
  match type of Hsome with
  | Some ?x = Some _ => assert (Ha : a = x) by congruence
  end.
  subst a. clear Hsome.
  cbv beta iota delta [average_stars average_forks].
  set (top := firstn 5 (r0 :: rs)) in *.
  assert (Hne : forall f : SearchItem -> Z, map f top <> []).
  { intro f. unfold top. simpl. discriminate. }
  split.
  - rewrite <- (length_map stargazers_count top).
    apply mean_between; [apply Hne|].
    apply Forall_map. exact Hstars.
  - rewrite <- (length_map forks_count top).
    apply mean_between; [apply Hne|].
    apply Forall_map. exact Hforks.
Qed.

(** X10 for the three items of the fixed search: stars between 90 and
    250, forks between 10 and 61. *)
Lemma X10_witness :
  exists a,
    _analyze_top_repositories
      Samples.sample_now Samples.sample_fromisoformat
      (Samples.fixed_search "python" 10) = Some a
    /\ (90 <= average_stars a <= 250)
    /\ (10 <= average_forks a <= 61).
Proof.
  destruct (_analyze_top_repositories
              Samples.sample_now Samples.sample_fromisoformat
              (Samples.fixed_search "python" 10)) as [a|] eqn:E;
    [|vm_compute in E; discriminate E].
  exists a. split; [reflexivity|].
  apply (X10_means_lie_between_the_extremes _ _ _ a 90 250 10 61 E).
  - repeat constructor; simpl; lia.
  - repeat constructor; simpl; lia.
Defined.


(** ** Recommendations *)

Lemma category_of_tags (l : list Recommendation) :
  map category l = map fst (map Domain.tag l).
Proof. rewrite map_map. reflexivity. Qed.

Lemma count_priority_of_tags (p : string) (l : list Recommendation) :
  count_priority p l
  = List.length (filter (fun t : string * string => String.eqb (snd t) p)
                        (map Domain.tag l)).
Proof.
  unfold count_priority.
  induction l as [|r l IH]; simpl; [reflexivity|].
  destruct (String.eqb (priority r) p); simpl; now rewrite IH.
Qed.

(** The rules about stars and forks: none, either or both fire. *)
Lemma popularity_block_tags
    (repository : RepositoryData)
    (top_repos_analysis : option TopReposAnalysis) :
  let block :=
    match top_repos_analysis with
    | Some a =>
        ((if Py.Qltb (inject_Z (stars repository)) (average_stars a * 0.1)
          then [visibility_recommendation repository (average_stars a)]
          else [])
         ++ (if Py.Qltb (inject_Z (forks repository))
                        (average_forks a * 0.1)
             then [contribution_recommendation repository (average_forks a)]
             else []))%list
    | None => []
    end in
  In (map Domain.tag block)
     [[]; [("Community Engagement", "high")];
      [("Community Contribution", "medium")];
      [("Community Engagement", "high");
       ("Community Contribution", "medium")]].
Proof.
  cbv zeta. destruct top_repos_analysis as [a|]; [|simpl; tauto].
  destruct (Py.Qltb (inject_Z (stars repository)) _);
    destruct (Py.Qltb (inject_Z (forks repository)) _);
    simpl; tauto.
Qed.

Lemma language_block_tags
    (repository : RepositoryData)
    (top_repos_analysis : option TopReposAnalysis) :
  let block :=
    match language repository with
    | Some lang =>
        if Py.str_truthy lang then
          match Py.get (opt_common_languages top_repos_analysis) lang with
          | Some lang_count =>
              if (3 <=? lang_count)%Z
              then [language_recommendation lang lang_count] else []
          | None => []
          end
        else []
    | None => []
    end in
  In (map Domain.tag block) [[]; [("Technology Stack", "medium")]].
Proof.
  cbv zeta. destruct (language repository) as [lang|]; [|simpl; tauto].
  destruct (Py.str_truthy lang); [|simpl; tauto].
  destruct (Py.get _ lang) as [c|]; [|simpl; tauto].
  destruct (3 <=? c)%Z; simpl; tauto.
Qed.

Lemma topics_block_tags
    (repository : RepositoryData)
    (top_repos_analysis : option TopReposAnalysis) :
  let block :=
    if Py.list_truthy (topics repository) then
      if Py.list_truthy
           (missing_topics_of repository
                              (opt_common_topics top_repos_analysis))
      then [topics_recommendation
              (missing_topics_of repository
                                 (opt_common_topics top_repos_analysis))]
      else []
    else [] in
  In (map Domain.tag block) [[]; [("Repository Organization", "low")]].
Proof.
  cbv zeta. destruct (Py.list_truthy (topics repository)); [|simpl; tauto].
  destruct (Py.list_truthy (missing_topics_of _ _)); simpl; tauto.
Qed.

Lemma score_block_tags (basic_analysis : AnalysisResult) :
  In (map Domain.tag
          (if Py.Qltb (quality_score basic_analysis) 7
           then [quality_recommendation (quality_score basic_analysis)]
           else []))
     [[]; [("Code Quality", "high")]]
  /\ In (map Domain.tag
             (if Py.Qltb (activity_score basic_analysis) 6
              then [activity_recommendation (activity_score basic_analysis)]
              else []))
        [[]; [("Development Activity", "medium")]].
Proof.
  split.
  - destruct (Py.Qltb (quality_score basic_analysis) 7); simpl; tauto.
  - destruct (Py.Qltb (activity_score basic_analysis) 6); simpl; tauto.
Qed.

(** X11.  The recommendations come in rule order, at most one per rule:
    their categories are the six categories with some left out.  So they
    are at most six, at most two of high and at most three of medium
    priority, and the improvement-potential score computed from them lies
    in [5, 5.7]. *)
Theorem X11_one_recommendation_per_rule_in_order
    (repository : RepositoryData) (basic_analysis : AnalysisResult)
    (top_repos_analysis : option TopReposAnalysis) :
  let improvements :=
    _generate_improvement_recommendations
      repository basic_analysis top_repos_analysis in
  Domain.is_subseq (map category improvements)
                   Domain.recommendation_categories = true
  /\ (List.length improvements <= 6)%nat
  /\ (count_priority "high" improvements <= 2)%nat
  /\ (count_priority "medium" improvements <= 3)%nat
  /\ (5 <= improvement_potential_of improvements <= 5.7).
Proof.
  cbv zeta. unfold improvement_potential_of.
  rewrite category_of_tags, !count_priority_of_tags.
  rewrite <- (length_map Domain.tag).
  unfold _generate_improvement_recommendations.
  pose proof (popularity_block_tags repository top_repos_analysis) as HA.
  pose proof (language_block_tags repository top_repos_analysis) as HC.
  pose proof (topics_block_tags repository top_repos_analysis) as HD.
  pose proof (score_block_tags basic_analysis) as [HE HF].
  cbv zeta in HA, HC, HD.
  rewrite !map_app.
  set (A := map Domain.tag _) in HA |- *.
  set (C := map Domain.tag _) in HC |- *.
  set (D := map Domain.tag _) in HD |- *.
  set (E := map Domain.tag _) in HE |- *.
  set (F := map Domain.tag _) in HF |- *.
  clearbody A C D E F.
  simpl in HA, HC, HD, HE, HF.
  destruct HA as [<-|[<-|[<-|[<-|[]]]]];
    destruct HC as [<-|[<-|[]]];
    destruct HD as [<-|[<-|[]]];
    destruct HE as [<-|[<-|[]]];
    destruct HF as [<-|[<-|[]]];
    (split; [reflexivity|]);
    (split; [simpl; lia|]);
    (split; [simpl; lia|]);
    (split; [simpl; lia|]);
    split; vm_compute; intro H; discriminate H.
Qed.


(** ** The pipeline *)

Lemma flat_map_nil {A B : Type} (f : A -> list B) (l : list A) :
  (forall x, f x = []) -> flat_map f l = [].
Proof.
  intro H. induction l as [|x l IH]; simpl; [reflexivity|].
  now rewrite H, IH.
Qed.

Lemma similar_empty (search : string -> nat -> list SearchItem) repository :
  (forall query n, search query n = []) ->
  _search_similar_repositories search repository = [].
Proof.
  intro H. unfold _search_similar_repositories.
  assert (HA : match language repository with
               | Some l =>
                   if Py.str_truthy l then _search_by_language search l
                   else []
               | None => []
               end = []).
  { destruct (language repository) as [l|]; [|reflexivity].
    destruct (Py.str_truthy l); [apply H | reflexivity]. }
  assert (HB : flat_map (_search_by_topic search)
                        (firstn 3 (topics repository)) = []).
  { apply flat_map_nil. intro t. apply H. }
  assert (HC : match description repository with
               | Some d =>
                   if Py.str_truthy d then _search_by_keywords search d
                   else []
               | None => []
               end = []).
  { destruct (description repository) as [d|]; [|reflexivity].
    destruct (Py.str_truthy d); [|reflexivity].
    unfold _search_by_keywords.
    destruct (Py.list_truthy _); [apply H | reflexivity]. }
  rewrite HA, HB, HC. reflexivity.
Qed.

(** Without comparison data only the two score rules can fire. *)
Lemma recommendations_without_aggregate repository basic_analysis :
  _generate_improvement_recommendations repository basic_analysis None
  = ((if Py.Qltb (quality_score basic_analysis) 7
      then [quality_recommendation (quality_score basic_analysis)]
      else [])
     ++ (if Py.Qltb (activity_score basic_analysis) 6
         then [activity_recommendation (activity_score basic_analysis)]
         else []))%list.
Proof.
  unfold _generate_improvement_recommendations.
  destruct (language repository) as [l|];
    [destruct (Py.str_truthy l)|];
    destruct (Py.list_truthy (topics repository)); reflexivity.
Qed.

(** X12.  When every search comes back empty (as after a failed request),
    the enhanced analysis still returns: no similar repository, an empty
    aggregate, the default market-position score 5.0, and no recommendation
    other than those of the quality and activity rules. *)
Theorem X12_empty_searches_degrade_the_analysis
    (now : Z) (fromisoformat : string -> Py.pyresult Py.datetime)
    (search : string -> nat -> list SearchItem)
    (get_languages : string -> string -> Py.dict Z)
    (get_contributors : string -> string -> list Contributor)
    (get_commits : string -> string -> list Commit)
    (get_issues : string -> string -> list Issue)
    (repository : RepositoryData) (basic : AnalysisResult)
    (Hsearch : forall query n, search query n = [])
    (Hbasic : RepositoryAnalyzer.analyze_repository
                now fromisoformat get_languages get_contributors
                get_commits get_issues repository = Py.Ok basic) :
  exists ea,
    enhance_repository_analysis
      now fromisoformat search get_languages get_contributors get_commits
      get_issues repository = Py.Ok ea
    /\ ea_basic_analysis ea = basic
    /\ similar_repositories ea = []
    /\ ea_top_repos_analysis ea = None
    /\ market_position_score (enhanced_scores ea) = 5.0
    /\ incl (map category (ea_improvements ea))
            ["Code Quality"; "Development Activity"].
Proof.
  unfold enhance_repository_analysis. rewrite Hbasic. cbn [Py.bind].
  rewrite (similar_empty search repository Hsearch).
  eexists. split; [reflexivity|].
  cbv beta iota zeta delta
      [ea_basic_analysis similar_repositories ea_top_repos_analysis
       ea_improvements enhanced_scores].
  split; [reflexivity|]. split; [reflexivity|]. split; [reflexivity|].
  split; [reflexivity|].
  change (_analyze_top_repositories now fromisoformat []) with
    (@None TopReposAnalysis).
  rewrite recommendations_without_aggregate.
  destruct (Py.Qltb (quality_score basic) 7);
    destruct (Py.Qltb (activity_score basic) 6);
    simpl; intros c Hc; simpl in *; tauto.
Qed.

(** X12 for a bare repository and a repository service without data. *)
Lemma X12_witness :
  exists ea,
    enhance_repository_analysis
      Samples.sample_now Samples.sample_fromisoformat Samples.empty_search
      Samples.no_languages Samples.no_contributors Samples.no_commits
      Samples.no_issues (Samples.bare_repository (Some "Python"))
    = Py.Ok ea
    /\ similar_repositories ea = []
    /\ market_position_score (enhanced_scores ea) = 5.0.
Proof.
  destruct (X12_empty_searches_degrade_the_analysis
              Samples.sample_now Samples.sample_fromisoformat
              Samples.empty_search
              Samples.no_languages Samples.no_contributors
              Samples.no_commits Samples.no_issues
              (Samples.bare_repository (Some "Python"))
              (RepositoryAnalyzer.analyze_fetched
                 Samples.sample_now Samples.sample_fromisoformat
                 (Samples.bare_repository (Some "Python")) [] [] [] []))
    as (ea & Hea & _ & Hs & _ & Hm & _).
  - reflexivity.
  - reflexivity.
  - exists ea. split; [exact Hea|]. split; [exact Hs | exact Hm].
Defined.

(** ** Market position *)

Lemma min_mono (a b b' : Q) : b <= b' -> Py.min a b <= Py.min a b'.
Proof.
  intro H. unfold Py.min. case_Qltb b a; case_Qltb b' a; lra.
Qed.

Lemma ratio_mono (n n' : Z) (avg : Q) :
  (n <= n')%Z -> 0 < avg ->
  inject_Z n / avg * 10 <= inject_Z n' / avg * 10.
Proof.
  intros Hn Havg.
  apply Qmult_le_compat_r; [|lra].
  unfold Qdiv. apply Qmult_le_compat_r.
  - rewrite <- Zle_Qle. exact Hn.
  - apply Qlt_le_weak, Qinv_lt_0_compat, Havg.
Qed.

(** X13.  Against a fixed aggregate the market-position score is monotone:
    a repository with at least as many stars and at least as many forks
    scores at least as high. *)
Theorem X13_market_position_is_monotone
    (lower higher : AnalysisResult)
    (top_repos_analysis : option TopReposAnalysis)
    (Hstars : (stars (repository lower) <= stars (repository higher))%Z)
    (Hforks : (forks (repository lower) <= forks (repository higher))%Z) :
  market_position lower top_repos_analysis
  <= market_position higher top_repos_analysis.
Proof.
  unfold market_position.
  destruct top_repos_analysis as [a|]; [|lra].
  case_Qltb 0 (average_stars a); case_Qltb 0 (average_forks a).
  - pose proof (min_mono 10.0 _ _ (ratio_mono _ _ _ Hstars E)) as M1.
    pose proof (min_mono 10.0 _ _ (ratio_mono _ _ _ Hforks E0)) as M2.
    rewrite !Qdiv_lit. lra.
  - exact (min_mono 10.0 _ _ (ratio_mono _ _ _ Hstars E)).
  - pose proof (min_mono 10.0 _ _ (ratio_mono _ _ _ Hforks E0)) as M2.
    rewrite !Qdiv_lit. lra.
  - lra.
Qed.

(** X13 for 3 stars and 1 fork against 30 stars and 12 forks. *)
Lemma X13_witness :
  market_position
    (Samples.base_analysis (Samples.counted_repository 3 1 []))
    (Some (Samples.aggregate 50 20 []))
  <= market_position
       (Samples.base_analysis (Samples.counted_repository 30 12 []))
       (Some (Samples.aggregate 50 20 [])).
Proof.
  apply X13_market_position_is_monotone; simpl; lia.
Defined.

(** X14.  The enhanced analysis raises exactly when the basic analysis
    does; the search and the aggregate never abort it.  When it returns it
    carries the repository and the basic analysis as they are and at most
    20 similar repositories; the enhanced technical, quality and activity
    scores are the basic ones and the enhanced overall score is
    (3 * basic overall + market position + improvement potential) / 5. *)
Theorem X14_enhanced_analysis_follows_the_basic_one
    (now : Z) (fromisoformat : string -> Py.pyresult Py.datetime)
    (search : string -> nat -> list SearchItem)
    (get_languages : string -> string -> Py.dict Z)
    (get_contributors : string -> string -> list Contributor)
    (get_commits : string -> string -> list Commit)
    (get_issues : string -> string -> list Issue)
    (repository : RepositoryData) :
  match enhance_repository_analysis
          now fromisoformat search get_languages get_contributors
          get_commits get_issues repository
  with
  | Py.Raise e =>
      RepositoryAnalyzer.analyze_repository
        now fromisoformat get_languages get_contributors get_commits
        get_issues repository = Py.Raise e
  | Py.Ok ea =>
      RepositoryAnalyzer.analyze_repository
        now fromisoformat get_languages get_contributors get_commits
        get_issues repository = Py.Ok (ea_basic_analysis ea)
      /\ ea_repository ea = repository
      /\ (List.length (similar_repositories ea) <= 20)%nat
      /\ e_technical_score (enhanced_scores ea)
         = technical_score (ea_basic_analysis ea)
      /\ e_quality_score (enhanced_scores ea)
         = quality_score (ea_basic_analysis ea)
      /\ e_activity_score (enhanced_scores ea)
         = activity_score (ea_basic_analysis ea)
      /\ e_overall_score (enhanced_scores ea)
         == (3 * overall_score (ea_basic_analysis ea)
             + market_position_score (enhanced_scores ea)
             + improvement_potential_score (enhanced_scores ea)) / 5
  end.
Proof.
  unfold enhance_repository_analysis.
  destruct (RepositoryAnalyzer.analyze_repository _ _ _ _ _ _ repository)
    as [basic|e] eqn:Hb; cbn [Py.bind]; [|reflexivity].
  cbv beta iota zeta delta
      [ea_basic_analysis ea_repository similar_repositories
       ea_improvements enhanced_scores].
  split; [reflexivity|]. split; [reflexivity|].
  split.
  { unfold _search_similar_repositories, dedup_and_rank.
    apply firstn_le_length. }
  unfold _calculate_enhanced_scores.
  cbv beta iota zeta delta
      [e_technical_score e_quality_score e_activity_score e_overall_score
       market_position_score improvement_potential_score].
  split; [reflexivity|]. split; [reflexivity|]. split; [reflexivity|].
  unfold RepositoryAnalyzer.analyze_repository in Hb.
  destruct (Py.split "/" (full_name repository)) as [|u [|n [|x xs]]];
    try discriminate.
  injection Hb as <-. unfold RepositoryAnalyzer.analyze_fetched.
  cbv beta iota zeta delta
      [technical_score quality_score activity_score overall_score].
  set (t := RepositoryAnalyzer._calculate_technical_score _ _).
  set (q := RepositoryAnalyzer._calculate_quality_score _ _ _).
  set (a := RepositoryAnalyzer._calculate_activity_score _ _ _ _).
  set (m := market_position _ _).
  set (p := improvement_potential_of _).
  rewrite !Qdiv_lit. lra.
Qed.

End ComposerLaws.


(* ================================================================= *)
(** * The portfolio roll-up: further laws *)

Module PortfolioLaws.
Import PortfolioAnalyzer PyFacts DictFacts SortFacts PortfolioFacts.

(** ** Language ranking *)

Lemma firstn_seq_min (n start len : nat) :
  firstn n (seq start len) = seq start (Nat.min n len).
Proof.
  revert start len. induction n as [|n IH]; intros start [|len]; simpl;
    try reflexivity.
  now rewrite IH.
Qed.

Lemma assign_ranks_rank (i : nat) (l : list LanguageRank) :
  map lr_rank (assign_ranks i l) = seq (S i) (List.length l).
Proof.
  revert i. induction l as [|e l IH]; intro i; simpl; [reflexivity|].
  now rewrite IH.
Qed.

Lemma assign_ranks_length (i : nat) (l : list LanguageRank) :
  List.length (assign_ranks i l) = List.length l.
Proof.
  revert i. induction l as [|e l IH]; intro i; simpl; [reflexivity|].
  now rewrite IH.
Qed.

Lemma assign_ranks_sorted (i : nat) (l : list LanguageRank) :
  Sorted (Domain.desc lr_bytes) l ->
  Sorted (Domain.desc lr_bytes) (assign_ranks i l).
Proof.
  intro H. revert i. induction H as [|e l Hs IH Hhd]; intro i; simpl;
    constructor.
  - apply IH.
  - destruct Hhd as [|e' l' Hee']; simpl; constructor. exact Hee'.
Qed.

(** Ranking changes the rank of an entry and nothing else. *)
Lemma assign_ranks_In (i : nat) (l : list LanguageRank) e :
  In e (assign_ranks i l) ->
  exists e0,
    In e0 l /\ lr_language e = lr_language e0
    /\ lr_bytes e = lr_bytes e0 /\ lr_percentage e = lr_percentage e0.
Proof.
  revert i. induction l as [|x l IH]; intro i; simpl; [intros []|].
  intros [<-|H].
  - exists x. simpl. repeat split. now left.
  - destruct (IH _ H) as (e0 & Hin & Heq). exists e0.
    split; [now right | exact Heq].
Qed.

(** X15.  A language ranking carries the ranks 1, 2, ... in order, its
    byte counts never increase, and every entry is a language of the
    histogram with its byte count and a percentage within 0.01 of its
    share of the total. *)
Theorem X15_ranking_is_ordered_and_drawn_from_the_histogram
    (languages : Py.dict Z) :
  let ranking := _rank_languages languages in
  let total := Py.sum (Py.values languages) in
  map lr_rank ranking = seq 1 (List.length ranking)
  /\ Sorted (Domain.desc lr_bytes) ranking
  /\ Forall (fun e =>
               let share := inject_Z (lr_bytes e) / inject_Z total * 100 in
               In (lr_language e, lr_bytes e) languages
               /\ share - (1 # 100) <= lr_percentage e <= share + (1 # 100))
            ranking.
Proof.
  cbv zeta. unfold _rank_languages.
  destruct (Py.sum (Py.values languages) =? 0)%Z.
  { repeat split; constructor. }
  set (total := Py.sum (Py.values languages)).
  set (ranked := map _ languages).
  set (sorted := Py.sorted_reverse lr_bytes ranked).
  split; [|split].
  - rewrite <- firstn_map, assign_ranks_rank, firstn_seq_min.
    rewrite length_firstn, assign_ranks_length. reflexivity.
  - apply firstn_sorted, assign_ranks_sorted, sorted_reverse_sorted.
  - apply Forall_forall. intros e He.
    apply firstn_In in He. apply assign_ranks_In in He.
    destruct He as (e0 & Hin & -> & -> & ->).
    apply (Permutation_in _ (sorted_reverse_perm lr_bytes ranked)) in Hin.
    unfold ranked in Hin. apply in_map_iff in Hin.
    destruct Hin as ([l b] & <- & Hin). cbv zeta. simpl.
    split; [exact Hin|].
    pose proof (round2_near (inject_Z b / inject_Z total * 100)) as Hr.
    split; lra.
Qed.

(** ** Topic counts *)

Lemma get_default_bump (d : Py.dict Z) (k t : string) :
  Py.get_default (Domain.bump d k) t 0%Z
  = (Py.get_default d t 0 + (if String.eqb k t then 1 else 0))%Z.
Proof.
  unfold Domain.bump, Py.get_default at 1.
  destruct (String.eqb_spec k t) as [->|Hne].
  - rewrite get_set_same. reflexivity.
  - rewrite get_set_other by exact Hne.
    fold (Py.get_default d t 0%Z). lia.
Qed.

Lemma get_default_fold_bump (ts : list string) (d : Py.dict Z) (t : string) :
  Py.get_default (fold_left Domain.bump ts d) t 0%Z
  = (Py.get_default d t 0 + Z.of_nat (count_occ string_dec ts t))%Z.
Proof.
  revert d. induction ts as [|k ts IH]; intro d; simpl fold_left.
  - simpl. lia.
  - rewrite IH, get_default_bump. simpl count_occ.
    destruct (string_dec k t) as [->|Hne].
    + rewrite String.eqb_refl. lia.
    + destruct (String.eqb_spec k t); [contradiction | lia].
Qed.

Lemma In_get {V : Type} (d : Py.dict V) k v :
  NoDup (Py.keys d) -> In (k, v) d -> Py.get d k = Some v.
Proof.
  induction d as [|[k' v'] d IH]; simpl; intros Hnd Hin; [destruct Hin|].
  inversion Hnd as [|? ? Hout Hnd']; subst.
  destruct Hin as [[= -> ->]|Hin].
  - now rewrite String.eqb_refl.
  - destruct (String.eqb_spec k k') as [->|Hne].
    + exfalso. apply Hout. apply in_map_iff. now exists (k', v).
    + now apply IH.
Qed.

Lemma keys_fold_bump (ts : list string) (d : Py.dict Z) (t : string) :
  In t (Py.keys (fold_left Domain.bump ts d)) <-> In t (Py.keys d) \/ In t ts.
Proof.
  revert d. induction ts as [|k ts IH]; intro d; simpl fold_left.
  - simpl. tauto.
  - rewrite IH. unfold Domain.bump.
    destruct (in_dec string_dec k (Py.keys d)) as [Hin|Hout].
    + rewrite keys_set_present by exact Hin. simpl. split.
      * intros [H|H]; [now left | right; now right].
      * intros [H|[<-|H]]; [now left | now left | now right].
    + rewrite keys_set_fresh by exact Hout. rewrite in_app_iff. simpl.
      tauto.
Qed.

(** X16.  The topic ranking lists pairwise distinct topics of the input, at
    most 15, in descending order of count, and the count of a topic is the
    number of its occurrences in the input. *)
Theorem X16_topic_counts_are_occurrences (topics : list string) :
  let ranking := _get_top_topics topics in
  (List.length ranking <= 15)%nat
  /\ NoDup (map tc_topic ranking)
  /\ Sorted (Domain.desc tc_count) ranking
  /\ Forall (fun e =>
               In (tc_topic e) topics
               /\ tc_count e
                  = Z.of_nat (count_occ string_dec topics (tc_topic e)))
            ranking.
Proof.
  cbv zeta. unfold _get_top_topics.
  change (fold_left count_up topics []) with (fold_left Domain.bump topics []).
  set (counts := fold_left Domain.bump topics []).
  set (ranked := map _ counts).
  assert (Hcounts : Domain.counts_to counts
                      (0 + Z.of_nat (List.length topics))%Z).
  { apply AggregateLaws.fold_bump_counts. repeat split; constructor. }
  destruct Hcounts as (Hnd & _ & _).
  assert (Htopics : map tc_topic ranked = Py.keys counts).
  { unfold ranked, Py.keys. rewrite map_map. reflexivity. }
  pose proof (sorted_reverse_perm tc_count ranked) as Hperm.
  split; [apply firstn_le_length|].
  split; [|split].
  - rewrite <- firstn_map. apply firstn_NoDup.
    eapply Permutation_NoDup;
      [apply Permutation_map, Permutation_sym, Hperm|].
    rewrite Htopics. exact Hnd.
  - apply firstn_sorted, sorted_reverse_sorted.
  - apply Forall_forall. intros e He.
    apply firstn_In in He. apply (Permutation_in _ Hperm) in He.
    unfold ranked in He. apply in_map_iff in He.
    destruct He as ([t c] & <- & Hin). simpl.
    assert (Hk : In t (Py.keys counts))
      by (apply in_map_iff; now exists (t, c)).
    apply keys_fold_bump in Hk. destruct Hk as [[]|Hk].
    split; [exact Hk|].
    pose proof (get_default_fold_bump topics [] t) as Hc.
    fold counts in Hc. unfold Py.get_default in Hc.
    rewrite (In_get counts t c Hnd Hin) in Hc. simpl in Hc. exact Hc.
Qed.

(** ** Merged histograms *)

Lemma add_bytes_sum (d : Py.dict Z) (lb : string * Z) :
  Py.sum (Py.values (add_bytes d lb))
  = (Py.sum (Py.values d) + snd lb)%Z.
Proof.
  unfold add_bytes, Py.contains. destruct lb as [k b]. simpl.
  destruct (Py.get d k) as [v|] eqn:E.
  - rewrite AggregateLaws.sum_values_set. lia.
  - rewrite !AggregateLaws.sum_values_set.
    unfold Py.get_default. rewrite E. lia.
Qed.

Lemma add_bytes_NoDup (d : Py.dict Z) (lb : string * Z) :
  NoDup (Py.keys d) -> NoDup (Py.keys (add_bytes d lb)).
Proof.
  intro H. unfold add_bytes.
  destruct (Py.contains d (fst lb)); repeat apply set_keeps_NoDup; exact H.
Qed.

Lemma fold_add_bytes (h : Py.dict Z) (d : Py.dict Z) :
  NoDup (Py.keys d) ->
  NoDup (Py.keys (fold_left add_bytes h d))
  /\ Py.sum (Py.values (fold_left add_bytes h d))
     = (Py.sum (Py.values d) + Py.sum (Py.values h))%Z.
Proof.
  revert d. induction h as [|lb h IH]; intros d Hnd; simpl fold_left.
  - split; [exact Hnd|]. change (Py.sum (Py.values [])) with 0%Z. lia.
  - destruct (IH _ (add_bytes_NoDup d lb Hnd)) as [H1 H2].
    split; [exact H1|]. rewrite H2, add_bytes_sum.
    change (Py.values (lb :: h)) with (snd lb :: Py.values h).
    rewrite sum_cons. lia.
Qed.

(** X17.  Merging the language histograms of the analyses loses and adds
    no byte: the merged histogram has pairwise distinct languages and its
    byte counts add up to the sum of all the histograms. *)
Theorem X17_merged_histogram_conserves_bytes (analyses : list Analysis) :
  NoDup (Py.keys (merge_languages analyses))
  /\ Py.sum (Py.values (merge_languages analyses))
     = Py.sum (map (fun a => Py.sum (Py.values (a_languages a))) analyses).
Proof.
  unfold merge_languages.
  assert (G : forall d,
             NoDup (Py.keys d) ->
             NoDup (Py.keys
                      (fold_left
                         (fun languages analysis =>
                            fold_left add_bytes (a_languages analysis)
                                      languages) analyses d))
             /\ Py.sum (Py.values
                          (fold_left
                             (fun languages analysis =>
                                fold_left add_bytes (a_languages analysis)
                                          languages) analyses d))
                = (Py.sum (Py.values d)
                   + Py.sum (map (fun a => Py.sum (Py.values (a_languages a)))
                                 analyses))%Z).
  { induction analyses as [|a rest IH]; intros d Hnd; simpl fold_left.
    - split; [exact Hnd|]. simpl map. change (Py.sum []) with 0%Z. lia.
    - destruct (fold_add_bytes (a_languages a) d Hnd) as [H1 H2].
      destruct (IH _ H1) as [H3 H4].
      split; [exact H3|]. rewrite H4, H2. simpl map. rewrite sum_cons.
      lia. }
  destruct (G [] (NoDup_nil _)) as [H1 H2].
  split; [exact H1|]. rewrite H2. change (Py.sum (Py.values [])) with 0%Z.
  lia.
Qed.


(** ** Portfolio data *)

Lemma first_category_name (hit : string -> bool) (c : string) :
  first_category hit = Some c -> In c (Py.keys categories).
Proof.
  unfold first_category.
  destruct (find _ categories) as [[k ws]|] eqn:E; cbn [option_map];
    [|discriminate].
  intros [= <-]. apply find_some in E. destruct E as [Hin _].
  exact (in_map fst categories (k, ws) Hin).
Qed.

(** A project is filed under one of the ten category names. *)
Lemma categorize_project_name (analysis : Analysis) :
  In (_categorize_project analysis) (Py.keys categories).
Proof.
  unfold _categorize_project.
  destruct (first_category
              (fun keyword => Py.str_in keyword (a_topics analysis)))
    as [c|] eqn:E1; [exact (first_category_name _ _ E1)|].
  destruct (first_category
              (fun keyword => Py.contains (a_languages analysis) keyword))
    as [c|] eqn:E2; [exact (first_category_name _ _ E2)|].
  simpl. tauto.
Qed.

(** X18.  The portfolio data is empty exactly for an empty list of
    analyses.  Otherwise [total_projects] is their number, the active and
    the high-quality projects are among them, every project is counted
    under exactly one of the ten category names (the category counts are at
    least 1 and add up to [total_projects]), and the rankings keep at most
    10 languages and 15 topics. *)
Theorem X18_portfolio_data_counts_every_project_once
    (analyses : list Analysis) :
  match _process_portfolio_data analyses with
  | None => analyses = []
  | Some pd =>
      analyses <> []
      /\ total_projects pd = List.length analyses
      /\ (active_projects pd <= total_projects pd)%nat
      /\ (high_quality_projects pd <= total_projects pd)%nat
      /\ Domain.counts_to (pd_project_categories pd)
                          (Z.of_nat (total_projects pd))
      /\ incl (Py.keys (pd_project_categories pd)) (Py.keys categories)
      /\ (List.length (pd_languages pd) <= 10)%nat
      /\ (List.length (pd_topics pd) <= 15)%nat
  end.
Proof.
  unfold _process_portfolio_data.
  destruct analyses as [|a0 rest]; [reflexivity|].
  cbn [Py.list_truthy].
  set (analyses := a0 :: rest).
  cbv beta iota zeta delta
      [total_projects active_projects high_quality_projects
       pd_project_categories pd_languages pd_topics].
  split; [discriminate|]. split; [reflexivity|].
  split; [apply filter_length_le|]. split; [apply filter_length_le|].
  unfold _count_categories.
  change (fold_left count_up (map _categorize_project analyses) [])
    with (fold_left Domain.bump (map _categorize_project analyses) []).
  split; [|split; [|split]].
  - pose proof (AggregateLaws.fold_bump_counts
                  (map _categorize_project analyses) [] 0%Z) as H.
    rewrite length_map in H. apply H. repeat split; constructor.
  - intros c Hc. apply keys_fold_bump in Hc. destruct Hc as [[]|Hc].
    apply in_map_iff in Hc. destruct Hc as (a & <- & _).
    apply categorize_project_name.
  - unfold _rank_languages.
    destruct (Py.sum _ =? 0)%Z; [simpl; lia | apply firstn_le_length].
  - unfold _get_top_topics. apply firstn_le_length.
Qed.

(** ** Averages *)

Lemma Qsum_between (lo hi : Q) (xs : list Q) :
  Forall (fun x => lo <= x <= hi) xs ->
  inject_Z (Z.of_nat (List.length xs)) * lo <= Qsum xs
  <= inject_Z (Z.of_nat (List.length xs)) * hi.
Proof.
  induction 1 as [|x xs Hx _ IH].
  - change (Qsum []) with 0. simpl List.length.
    change (inject_Z (Z.of_nat 0)) with 0. lra.
  - rewrite Qsum_cons. simpl List.length.
    rewrite Nat2Z.inj_succ, <- Z.add_1_r, inject_Z_plus.
    change (inject_Z 1) with 1. lra.
Qed.

(** A mean lies between the bounds of its values. *)
Lemma np_mean_between (lo hi : Q) (xs : list Q) :
  xs <> [] -> Forall (fun x => lo <= x <= hi) xs -> lo <= mean xs <= hi.
Proof.
  intros Hne F. pose proof (Qsum_between lo hi xs F) as [Hlo Hhi].
  assert (Hn : 0 < inject_Z (Z.of_nat (List.length xs))).
  { change 0 with (inject_Z 0). rewrite <- Zlt_Qlt.
    destruct xs; [congruence | simpl; lia]. }
  unfold mean. split.
  - apply Qle_shift_div_l; [exact Hn|]. lra.
  - apply Qle_shift_div_r; [exact Hn|]. lra.
Qed.

(** Rounding to the nearest integer does not cross an integer. *)
Lemma round_half_even_between (n m : Z) (y : Q) :
  inject_Z n <= y <= inject_Z m ->
  (n <= Py.round_half_even y <= m)%Z.
Proof.
  intros [Hn Hm].
  pose proof (Qfloor_le y) as Hfl.
  assert (Hnf : (n <= Qfloor y)%Z).
  { rewrite <- (Qfloor_Z n). now apply Qfloor_resp_le. }
  assert (Hfm : (Qfloor y <= m)%Z).
  { rewrite <- (Qfloor_Z m). now apply Qfloor_resp_le. }
  unfold Py.round_half_even.
  case_Qltb (y - inject_Z (Qfloor y)) (1 # 2); [lia|].
  assert (Hlt : (Qfloor y < m)%Z).
  { destruct (Z.eq_dec (Qfloor y) m) as [Heq|]; [|lia].
    rewrite Heq in E. lra. }
  case_Qltb (1 # 2) (y - inject_Z (Qfloor y)); [lia|].
  destruct (Z.even (Qfloor y)); lia.
Qed.

(** [round(x, 2)] stays within integer bounds of [x]. *)
Lemma round2_between (lo hi : Z) (x : Q) :
  inject_Z lo <= x <= inject_Z hi ->
  inject_Z lo <= Py.round2 x <= inject_Z hi.
Proof.
  intros [Hlo Hhi]. unfold Py.round2.
  assert (H : (lo * 100 <= Py.round_half_even (x * 100) <= hi * 100)%Z).
  { apply round_half_even_between.
    rewrite !inject_Z_mult. change (inject_Z 100) with 100. lra. }
  destruct H as [H1 H2].
  rewrite Zle_Qle in H1, H2. rewrite inject_Z_mult in H1, H2.
  change (inject_Z 100) with 100 in H1, H2.
  set (r := inject_Z (Py.round_half_even (x * 100))) in *.
  rewrite Qdiv_lit. lra.
Qed.

Lemma values_of_between (key : string) (lo hi : Q)
      (scores : list (Py.dict Q)) :
  Forall (fun s => forall v, Py.get s key = Some v -> lo <= v <= hi)
         scores ->
  Forall (fun v => lo <= v <= hi) (values_of key scores).
Proof.
  induction 1 as [|s rest Hs _ IH]; simpl; [constructor|].
  unfold values_of in *. simpl.
  destruct (Py.get s key) as [v|]; simpl; [|exact IH].
  constructor; [now apply Hs | exact IH].
Qed.

Lemma average_scores_entries (s0 : Py.dict Q) (rest : list (Py.dict Q)) :
  let scores := s0 :: rest in
  let average key :=
    if Py.list_truthy (values_of key scores)
    then Py.round2 (mean (values_of key scores)) else 0.0 in
  _calculate_average_scores scores
  = [("technical", average "technical"); ("quality", average "quality");
     ("activity", average "activity"); ("overall", average "overall")].
Proof. reflexivity. Qed.

(** X19.  The averaged scores of a non-empty list of score dicts have the
    four keys technical, quality, activity, overall, in this order.  When
    the values to average under a key lie between two integers that
    enclose 0, so does their rounded average (0.0 when no dict has the
    key). *)
Theorem X19_average_scores_stay_in_range
    (scores : list (Py.dict Q)) (key : string) (lo hi : Z)
    (Hne : scores <> [])
    (Hkey : In key score_keys)
    (Hzero : (lo <= 0 <= hi)%Z)
    (Hrange : Forall (fun s => forall v,
                          Py.get s key = Some v ->
                          inject_Z lo <= v <= inject_Z hi) scores) :
  Py.keys (_calculate_average_scores scores) = score_keys
  /\ exists v,
       Py.get (_calculate_average_scores scores) key = Some v
       /\ inject_Z lo <= v <= inject_Z hi.
Proof.
  destruct scores as [|s0 rest]; [congruence|].
  rewrite average_scores_entries. cbv zeta.
  split; [reflexivity|].
  pose proof (values_of_between key _ _ _ Hrange) as F.
  assert (Hv : inject_Z lo
               <= (if Py.list_truthy (values_of key (s0 :: rest))
                   then Py.round2 (mean (values_of key (s0 :: rest)))
                   else 0.0)
               <= inject_Z hi).
  { destruct (values_of key (s0 :: rest)) as [|v vs] eqn:Ev.
    - cbn [Py.list_truthy]. rewrite !Zle_Qle in Hzero.
      change (inject_Z 0) with 0 in Hzero. lra.
    - cbn [Py.list_truthy]. apply round2_between.
      apply np_mean_between; [discriminate | exact F]. }
  simpl in Hkey.
  destruct Hkey as [<-|[<-|[<-|[<-|[]]]]]; eexists;
    (split; [reflexivity | exact Hv]).
Qed.

(** X20 for two analyses of the flaky analyzer, under "quality". *)
Lemma X19_witness :
  exists v,
    Py.get (_calculate_average_scores
              [[("technical", 5.0); ("quality", 6.0)];
               [("quality", 9.0); ("activity", 0.0)]]) "quality" = Some v
    /\ 0 <= v <= 10.
Proof.
  refine (proj2 (X19_average_scores_stay_in_range
                   [[("technical", 5.0); ("quality", 6.0)];
                    [("quality", 9.0); ("activity", 0.0)]]
                   "quality" 0 10 _ _ _ _)).
  - discriminate.
  - simpl. tauto.
  - lia.
  - apply Forall_cons; [|apply Forall_cons; [|apply Forall_nil]];
      simpl; intros v Hv; injection Hv as <-;
      split; vm_compute; intro H; discriminate H.
Defined.

(** ** Recommendations, market position, career guidance *)

(** X20.  Whatever the portfolio data, even none: there are between 4 and
    9 portfolio recommendations and between 4 and 10 market opportunities,
    the market score lies in [0, 10] with one insight per point source (at
    most 5 languages and 4 technologies), and the short-term guidance has
    between 2 and 4 items. *)
Theorem X20_derived_bundles_are_never_empty (pd : option PortfolioData) :
  (4 <= List.length (_generate_portfolio_recommendations pd) <= 9)%nat
  /\ (4 <= List.length (_identify_market_opportunities pd) <= 10)%nat
  /\ (0 <= market_score (_assess_market_position pd) <= 10)%Z
  /\ (List.length (market_insights (_assess_market_position pd)) <= 9)%nat
  /\ (2 <= List.length (short_term (_generate_career_guidance pd)) <= 4)%nat.
Proof.
  split; [|split; [|split; [|split]]].
  - unfold _generate_portfolio_recommendations.
    repeat match goal with
           | |- context [if ?b then _ else _] => destruct b
           end; simpl; lia.
  - unfold _identify_market_opportunities.
    repeat match goal with
           | |- context [if ?b then _ else _] => destruct b
           end; simpl; lia.
  - unfold _assess_market_position. cbn [market_score]. lia.
  - unfold _assess_market_position. cbn [market_insights].
    rewrite length_app, !length_map.
    pose proof (filter_length_le
                  (fun lang =>
                     Py.str_in (Py.lower (lr_language lang))
                               high_demand_languages)
                  (firstn 5 (get_languages pd))) as H1.
    pose proof (firstn_le_length 5 (get_languages pd)) as H2.
    pose proof (filter_length_le
                  (fun tech => Py.contains (get_project_categories pd) tech)
                  emerging_technologies) as H3.
    change (List.length emerging_technologies) with 4%nat in H3. lia.
  - unfold _generate_career_guidance. cbn [short_term].
    repeat match goal with
           | |- context [if ?b then _ else _] => destruct b
           end; simpl; lia.
Qed.

End PortfolioLaws.


(* ================================================================= *)
(** * Batch analysis and metrics: laws *)

Module ServiceLaws.
Import RepositoryAnalyzer PyFacts.

Section Service.
Variable now : Z.
Variable fromisoformat : string -> Py.pyresult Py.datetime.
Variable get_languages : string -> string -> Py.dict Z.
Variable get_contributors : string -> string -> list Contributor.
Variable get_commits : string -> string -> list Commit.
Variable get_issues : string -> string -> list Issue.

Local Abbreviation analyze :=
  (analyze_repository now fromisoformat get_languages get_contributors
                      get_commits get_issues).

Lemma fold_valid_results (results : list (Py.pyresult AnalysisResult)) acc :
  fold_left
    (fun valid_results result =>
       match result with
       | Py.Ok r => (valid_results ++ [r])%list
       | Py.Raise _ => valid_results
       end)
    results acc
  = (acc ++ flat_map (fun result => match result with
                                    | Py.Ok r => [r]
                                    | Py.Raise _ => []
                                    end) results)%list.
Proof.
  revert acc. induction results as [|x xs IH]; intro acc; simpl.
  - now rewrite app_nil_r.
  - rewrite IH. destruct x; simpl; [now rewrite <- app_assoc | reflexivity].
Qed.

(** The result of an analysis is about the repository analyzed. *)
Lemma analyze_repository_repository repo r :
  analyze repo = Py.Ok r -> repository r = repo.
Proof.
  unfold analyze_repository.
  destruct (Py.split "/" (full_name repo)) as [|u [|n [|x xs]]];
    try discriminate.
  intros [= <-]. reflexivity.
Qed.

Lemma analyze_batch_repositories (repositories : list RepositoryData) :
  map repository
      (analyze_batch now fromisoformat get_languages get_contributors
                     get_commits get_issues repositories)
  = filter (fun repo => Py.is_ok (analyze repo)) repositories.
Proof.
  unfold analyze_batch. rewrite fold_valid_results. simpl.
  induction repositories as [|repo rest IH]; simpl; [reflexivity|].
  destruct (analyze repo) as [r|e] eqn:E; simpl.
  - rewrite IH, (analyze_repository_repository repo r E). reflexivity.
  - exact IH.
Qed.

Lemma analyze_batch_results (repositories : list RepositoryData) r :
  In r (analyze_batch now fromisoformat get_languages get_contributors
                      get_commits get_issues repositories) ->
  exists repo, In repo repositories /\ analyze repo = Py.Ok r.
Proof.
  unfold analyze_batch. rewrite fold_valid_results. simpl.
  rewrite in_flat_map. intros (x & Hx & Hr).
  apply in_map_iff in Hx. destruct Hx as (repo & <- & Hin).
  exists repo. split; [exact Hin|].
  destruct (analyze repo) as [r'|e]; simpl in Hr; [|destruct Hr].
  destruct Hr as [->|[]]. reflexivity.
Qed.
End Service.

(** X21.  A batch analysis returns, in the order of the input, one result
    for each repository whose analysis did not raise, and drops the others:
    the repositories of the results are the input repositories whose
    analysis returns.  Every result has its three scores in [1, 10]. *)
Theorem X21_batch_keeps_the_successful_analyses_in_order
    (now : Z) (fromisoformat : string -> Py.pyresult Py.datetime)
    (get_languages : string -> string -> Py.dict Z)
    (get_contributors : string -> string -> list Contributor)
    (get_commits : string -> string -> list Commit)
    (get_issues : string -> string -> list Issue)
    (repositories : list RepositoryData) :
  let results :=
    analyze_batch now fromisoformat get_languages get_contributors
                  get_commits get_issues repositories in
  map repository results
  = filter (fun repo =>
              Py.is_ok (analyze_repository
                          now fromisoformat get_languages get_contributors
                          get_commits get_issues repo))
           repositories
  /\ (List.length results <= List.length repositories)%nat
  /\ Forall (fun r => (1 <= technical_score r <= 10)
                      /\ (1 <= quality_score r <= 10)
                      /\ (1 <= activity_score r <= 10)) results.
Proof.
  cbv zeta.
  pose proof (analyze_batch_repositories
                now fromisoformat get_languages get_contributors
                get_commits get_issues repositories) as Hmap.
  split; [exact Hmap|]. split.
  - rewrite <- (length_map repository), Hmap. apply filter_length_le.
  - apply Forall_forall. intros r Hr.
    apply analyze_batch_results in Hr. destruct Hr as (repo & _ & Hr).
    eapply ScorerFacts.analyze_repository_scores. exact Hr.
Qed.

Lemma exclusive_filters {A : Type} (p q : A -> bool) (l : list A) :
  (forall x, p x = true -> q x = false) ->
  (List.length (filter p l) + List.length (filter q l)
   <= List.length l)%nat.
Proof.
  intro H. induction l as [|x l IH]; simpl; [lia|].
  destruct (p x) eqn:Ep.
  - rewrite (H x Ep). simpl. lia.
  - destruct (q x); simpl; lia.
Qed.

(** X22.  The metrics exist exactly when the analysis does, and they agree
    with it: the three scores of the metrics are the scores of the analysis
    of the same repository.  The open and the closed issues are among the
    issues counted, and the dict shows at most five contributors and ten
    commits. *)
Theorem X22_metrics_agree_with_the_analysis
    (now : Z) (fromisoformat : string -> Py.pyresult Py.datetime)
    (get_languages : string -> string -> Py.dict Z)
    (get_contributors : string -> string -> list Contributor)
    (get_commits : string -> string -> list Commit)
    (get_issues : string -> string -> list Issue)
    (repository : RepositoryData) :
  match get_analysis_metrics
          now fromisoformat get_languages get_contributors get_commits
          get_issues repository,
        analyze_repository
          now fromisoformat get_languages get_contributors get_commits
          get_issues repository
  with
  | Py.Ok m, Py.Ok r =>
      m_technical_score m = technical_score r
      /\ m_quality_score m = quality_score r
      /\ m_activity_score m = activity_score r
      /\ (issues_open m + issues_closed m <= issues_total m)%nat
      /\ List.length (top_contributors m) = Nat.min 5 (contributors_count m)
      /\ List.length (recent_commits m) = Nat.min 10 (commits_count m)
  | Py.Raise _, Py.Raise _ => True
  | _, _ => False
  end.
Proof.
  unfold get_analysis_metrics, analyze_repository.
  destruct (Py.split "/" (full_name repository)) as [|u [|n [|x xs]]];
    try exact I.
  unfold analyze_fetched.
  cbv beta iota zeta delta
      [m_technical_score m_quality_score m_activity_score issues_open
       issues_closed issues_total top_contributors contributors_count
       recent_commits commits_count technical_score quality_score
       activity_score].
  split; [reflexivity|]. split; [reflexivity|]. split; [reflexivity|].
  split; [|split; apply length_firstn].
  apply exclusive_filters. intros i Hi.
  apply String.eqb_eq in Hi. rewrite Hi. reflexivity.
Qed.

End ServiceLaws.


(* ================================================================= *)
(** * Deep repository analysis: laws *)

Module GitHubLaws.
Import GitHubAnalyzer PyFacts.

(** One step through a computation that can raise. *)
Ltac step :=
  match goal with
  | |- context [Py.bind ?m _] =>
      let E := fresh "E" in
      destruct m eqn:E; cbn [Py.bind]; try discriminate
  | |- context [if ?b then _ else _] =>
      let E := fresh "E" in destruct b eqn:E; try discriminate
  end.

Section Clock.
Variable now : Z.
Variable fromisoformat : string -> Py.pyresult Py.datetime.

Lemma technical_of_bounds (analysis : value) (t : Q) :
  technical_of analysis = Py.Ok t -> 1 <= t <= 10.
Proof.
  unfold technical_of. repeat step; intros [= <-]; try lra.
  split.
  - apply max_ge_l.
  - apply max_lub; [lra | apply min_le_l].
Qed.

Lemma quality_of_bounds (analysis : value) (q : Q) :
  quality_of analysis = Py.Ok q -> 5 <= q <= 10.
Proof.
  unfold quality_of. repeat step; intros [= <-];
    split; vm_compute; intro H; discriminate H.
Qed.

Lemma activity_of_bounds (analysis : value) (a : Q) :
  activity_of now fromisoformat analysis = Py.Ok a -> 0 <= a <= 10.
Proof.
  unfold activity_of. repeat step; intros [= <-]; try lra.
  split.
  - apply min_glb; [lra|].
    rewrite (Qdiv_lit _ 10 1).
    match goal with
    | |- context [List.length ?l] =>
        assert (H : 0 <= inject_Z (Z.of_nat (List.length l)))
          by (change 0 with (inject_Z 0); rewrite <- Zle_Qle; lia)
    end.
    lra.
  - apply min_le_l.
Qed.
End Clock.


Section Scores.
Variable now : Z.
Variable fromisoformat : string -> Py.pyresult Py.datetime.

(** The two ways [_calculate_scores] ends: the three parts returned, or
    one of them raised. *)
Lemma calculate_scores_cases (analysis : value) :
  (exists t q a,
      technical_of analysis = Py.Ok t
      /\ quality_of analysis = Py.Ok q
      /\ activity_of now fromisoformat analysis = Py.Ok a
      /\ _calculate_scores now fromisoformat analysis
         = [("technical", t); ("quality", q); ("activity", a);
            ("overall", (t + q + a) / 3)])
  \/ ((exists e, technical_of analysis = Py.Raise e
                 \/ quality_of analysis = Py.Raise e
                 \/ activity_of now fromisoformat analysis = Py.Raise e)
      /\ _calculate_scores now fromisoformat analysis = fallback_scores).
Proof.
  unfold _calculate_scores.
  destruct (technical_of analysis) as [t|e] eqn:Et; cbn [Py.bind];
    [|right; split; [exists e; auto | reflexivity]].
  destruct (quality_of analysis) as [q|e] eqn:Eq; cbn [Py.bind];
    [|right; split; [exists e; auto | reflexivity]].
  destruct (activity_of now fromisoformat analysis) as [a|e] eqn:Ea;
    cbn [Py.bind]; [|right; split; [exists e; auto | reflexivity]].
  left. exists t, q, a. repeat split; reflexivity.
Qed.

(** One commit whose condition raises ends the comprehension. *)
Lemma recent_commits_raises (commits : list value) (c : value) e :
  In c commits -> is_recent now fromisoformat c = Py.Raise e ->
  exists e', recent_commits_of now fromisoformat commits = Py.Raise e'.
Proof.
  intros Hin Hc. induction commits as [|x rest IH]; [destruct Hin|].
  cbn [recent_commits_of].
  destruct Hin as [->|Hin].
  - rewrite Hc. cbn [Py.bind]. eauto.
  - destruct (is_recent now fromisoformat x) as [keep|e1]; cbn [Py.bind];
      [|eauto].
    destruct (IH Hin) as (e' & ->). cbn [Py.bind]. eauto.
Qed.

(** Without a [structure] entry in the code analysis the quality is the
    base score. *)
Lemma quality_without_structure (d cd : Py.dict value) :
  Py.get d "code_analysis" = Some (VDict cd) ->
  Py.get cd "structure" = None ->
  quality_of (VDict d) = Py.Ok 5.0.
Proof.
  intros Hd Hcd. unfold quality_of, v_get, Py.get_default.
  rewrite Hd. cbn [Py.bind]. rewrite Hcd. cbn [Py.bind truthy]. reflexivity.
Qed.

Lemma quality_without_code_analysis (d : Py.dict value) :
  Py.get d "code_analysis" = None ->
  quality_of (VDict d) = Py.Ok 5.0.
Proof.
  intros Hd. unfold quality_of, v_get, Py.get_default.
  rewrite Hd. cbn [Py.bind]. reflexivity.
Qed.

Lemma scores_with_base_quality (analysis : value) :
  quality_of analysis = Py.Ok 5.0 ->
  exists t a o,
    _calculate_scores now fromisoformat analysis
    = [("technical", t); ("quality", 5.0); ("activity", a); ("overall", o)].
Proof.
  intro Hq.
  destruct (calculate_scores_cases analysis)
    as [(t & q & a & _ & Hq' & _ & ->)|(_ & ->)].
  - rewrite Hq in Hq'. injection Hq' as <-. eauto.
  - unfold fallback_scores. eauto.
Qed.

(** The recommendations read only the scores. *)
Lemma recommendations_with_base_quality (d : Py.dict value) (t a o : Q) :
  Py.get d "scores"
  = Some (scores_value [("technical", t); ("quality", 5.0);
                        ("activity", a); ("overall", o)]) ->
  exists recs,
    _generate_recommendations (VDict d)
    = (["Add comprehensive README documentation";
        "Implement automated testing";
        "Add code style guidelines"] ++ recs)%list.
Proof.
  intro Hd.
  unfold _generate_recommendations, recommendations_of, v_get,
    Py.get_default.
  rewrite Hd. cbn [Py.bind scores_value map fst snd].
  cbn [Py.get String.eqb Ascii.eqb Bool.eqb].
  cbn [v_lt v_number Py.bind].
  replace (Py.Qltb 5.0 7) with true by reflexivity.
  eexists. reflexivity.
Qed.
End Scores.

(** X23.  Whatever the analysis dict holds, the deep analysis returns the
    four scores [technical], [quality], [activity] and [overall], in this
    order: the technical score lies in [1, 10], the quality score in
    [5, 10], the activity score in [0, 10], and the overall score is their
    mean, in [2, 10]. *)
Theorem X23_deep_scores_are_bounded_and_averaged
    (now : Z) (fromisoformat : string -> Py.pyresult Py.datetime)
    (analysis : value) :
  exists t q a o,
    _calculate_scores now fromisoformat analysis
    = [("technical", t); ("quality", q); ("activity", a); ("overall", o)]
    /\ 1 <= t <= 10 /\ 5 <= q <= 10 /\ 0 <= a <= 10
    /\ o == (t + q + a) / 3 /\ 2 <= o <= 10.
Proof.
  destruct (calculate_scores_cases now fromisoformat analysis)
    as [(t & q & a & Ht & Hq & Ha & ->)|(_ & ->)].
  - apply technical_of_bounds in Ht. apply quality_of_bounds in Hq.
    apply activity_of_bounds in Ha.
    exists t, q, a, ((t + q + a) / 3).
    split; [reflexivity|]. split; [exact Ht|]. split; [exact Hq|].
    split; [exact Ha|]. split; [reflexivity|].
    rewrite (Qdiv_lit _ 3 1). split; lra.
  - exists 5.0, 5.0, 5.0, 5.0. split; [reflexivity|].
    repeat split; try lra; vm_compute; try reflexivity; intro H;
      discriminate H.
Qed.

(** X24.  One commit of the analysis whose date cannot be compared with
    the clock (a text the parser refuses, a date that is not a text, a
    timestamp with a UTC offset) costs all the scores, not only the
    activity score: the four of them fall back to 5.0, whatever the code
    analysis says. *)
Theorem X24_one_bad_commit_date_resets_every_score
    (now : Z) (fromisoformat : string -> Py.pyresult Py.datetime)
    (d : Py.dict value) (commits : list value) (c : value) (e : Py.exn) :
  Py.get d "commits" = Some (VList commits) ->
  In c commits ->
  is_recent now fromisoformat c = Py.Raise e ->
  _calculate_scores now fromisoformat (VDict d) = fallback_scores.
Proof.
  intros Hd Hin Hc.
  destruct (calculate_scores_cases now fromisoformat (VDict d))
    as [(t & q & a & _ & _ & Ha & _)|(_ & H)]; [exfalso | exact H].
  destruct (recent_commits_raises now fromisoformat commits c e Hin Hc)
    as (e' & He').
  revert Ha. unfold activity_of, v_get, v_item, Py.get_default.
  rewrite Hd. cbn [Py.bind truthy].
  destruct commits as [|x rest]; [destruct Hin|].
  cbn [Py.list_truthy v_iter Py.bind].
  rewrite He'. cbn [Py.bind]. discriminate.
Qed.

Lemma X24_witness :
  _calculate_scores Samples.sample_now Samples.aware_fromisoformat
                    (VDict Samples.analysis_with_aware_commit)
  = fallback_scores.
Proof.
  apply (X24_one_bad_commit_date_resets_every_score
           Samples.sample_now Samples.aware_fromisoformat
           Samples.analysis_with_aware_commit
           [Samples.aware_commit] Samples.aware_commit Py.TypeError).
  - reflexivity.
  - left. reflexivity.
  - reflexivity.
Defined.


Lemma result_or_ok (results : list (Py.pyresult value)) (i : nat)
      (dflt : value) :
  (i < List.length results)%nat ->
  exists v, result_or results i dflt = Py.Ok v.
Proof.
  intro Hi. unfold result_or.
  destruct (nth_error results i) as [[v|e]|] eqn:E; eauto.
  apply nth_error_None in E. lia.
Qed.

(** The clone collector never delivers a [structure] entry. *)
Lemma clone_outcome_has_no_structure
      (results : list (Py.pyresult value)) (r9 : Py.pyresult value) :
  nth_error results 9 = Some r9 -> Domain.clone_outcome r9 ->
  exists cd, result_or results 9 (VDict []) = Py.Ok (VDict cd)
             /\ Py.get cd "structure" = None.
Proof.
  intros H9 Hr. unfold result_or. rewrite H9.
  destruct r9 as [v|e].
  - destruct Hr as ([[[cs cp] cx]|] & ->); cbn [clone_analysis];
      eexists; split; reflexivity.
  - exists []. split; reflexivity.
Qed.

(** X25.  The code-quality score never reads what the clone found: the
    clone's structure analysis is stored under [code_structure], the score
    looks for [structure].  So for every outcome of the ten collectors
    whose tenth is a clone analysis (or an exception), the combined
    analysis exists, its quality score is 5.0, and its recommendations
    open with the three recommendations of a quality below 7. *)
Theorem X25_quality_score_never_reads_the_clone
    (now : Z) (fromisoformat : string -> Py.pyresult Py.datetime)
    (timestamp : string) (results : list (Py.pyresult value))
    (username repo_name : string) (r9 : Py.pyresult value) :
  nth_error results 9 = Some r9 ->
  Domain.clone_outcome r9 ->
  exists d t a o recs,
    _process_analysis_results now fromisoformat timestamp results
                              username repo_name
    = Py.Ok (VDict d)
    /\ Py.get d "scores"
       = Some (scores_value [("technical", t); ("quality", 5.0);
                             ("activity", a); ("overall", o)])
    /\ Py.get d "recommendations"
       = Some (VList (map VStr
                 (["Add comprehensive README documentation";
                   "Implement automated testing";
                   "Add code style guidelines"] ++ recs)%list)).
Proof.
  intros H9 Hr.
  assert (Hlen : (9 < List.length results)%nat).
  { apply nth_error_Some. rewrite H9. discriminate. }
  destruct (clone_outcome_has_no_structure results r9 H9 Hr)
    as (cd & E9 & Hcd).
  unfold _process_analysis_results.
  destruct (result_or_ok results 0 (VDict []) ltac:(lia)) as (v0 & ->).
  destruct (result_or_ok results 1 (VDict []) ltac:(lia)) as (v1 & ->).
  destruct (result_or_ok results 2 (VList []) ltac:(lia)) as (v2 & ->).
  destruct (result_or_ok results 3 (VList []) ltac:(lia)) as (v3 & ->).
  destruct (result_or_ok results 4 (VList []) ltac:(lia)) as (v4 & ->).
  destruct (result_or_ok results 5 (VList []) ltac:(lia)) as (v5 & ->).
  destruct (result_or_ok results 6 (VList []) ltac:(lia)) as (v6 & ->).
  destruct (result_or_ok results 7 (VList []) ltac:(lia)) as (v7 & ->).
  destruct (result_or_ok results 8 (VList []) ltac:(lia)) as (v8 & ->).
  rewrite E9. cbn [Py.bind]. cbv zeta.
  match goal with
  | |- context [_calculate_scores now fromisoformat (VDict ?l)] =>
      destruct (scores_with_base_quality now fromisoformat (VDict l)
                  (quality_without_structure l cd eq_refl Hcd))
        as (t & a & o & ->)
  end.
  cbn [Py.set String.eqb Ascii.eqb Bool.eqb].
  match goal with
  | |- context [_generate_recommendations (VDict ?l)] =>
      destruct (recommendations_with_base_quality l t a o eq_refl)
        as (recs & ->)
  end.
  eexists _, t, a, o, recs. split; [reflexivity|].
  cbn [Py.get String.eqb Ascii.eqb Bool.eqb]. split; reflexivity.
Qed.

Lemma X25_witness :
  exists d t a o recs,
    _process_analysis_results
      Samples.sample_now Samples.sample_fromisoformat
      "2024-06-01T00:00:00" Samples.ten_results "user" "chat"
    = Py.Ok (VDict d)
    /\ Py.get d "scores"
       = Some (scores_value [("technical", t); ("quality", 5.0);
                             ("activity", a); ("overall", o)])
    /\ Py.get d "recommendations"
       = Some (VList (map VStr
                 (["Add comprehensive README documentation";
                   "Implement automated testing";
                   "Add code style guidelines"] ++ recs)%list)).
Proof.
  apply (X25_quality_score_never_reads_the_clone
           Samples.sample_now Samples.sample_fromisoformat
           "2024-06-01T00:00:00" Samples.ten_results "user" "chat"
           (Py.Ok (clone_analysis
                     (Some (Samples.documented_structure,
                            VDict [], VDict []))))).
  - reflexivity.
  - exists (Some (Samples.documented_structure, VDict [], VDict [])).
    reflexivity.
Defined.

Lemma pattern_block_monotone (p : string -> bool) (l more : list string)
      (s : string) (x : string) :
  In x (if existsb p l then [s] else []) ->
  In x (if existsb p (l ++ more) then [s] else []).
Proof.
  rewrite existsb_app. destruct (existsb p l); [|intros []].
  cbn [orb]. exact (fun H => H).
Qed.

(** X26.  The detected architecture patterns are some of the five pattern
    names, each at most once and in the order of the five checks; no
    directory gives no pattern, and a pattern once detected stays
    detected when more directories are listed. *)
Theorem X26_architecture_patterns_are_ordered_and_monotone
    (directories more : list string) :
  Domain.is_subseq (_detect_architecture_patterns directories)
                   Domain.architecture_patterns = true
  /\ NoDup (_detect_architecture_patterns directories)
  /\ _detect_architecture_patterns [] = []
  /\ (forall p, In p (_detect_architecture_patterns directories) ->
                In p (_detect_architecture_patterns (directories ++ more))).
Proof.
  split; [|split; [|split]].
  - unfold _detect_architecture_patterns.
    repeat match goal with
           | |- context [existsb ?p directories] =>
               destruct (existsb p directories)
           end; reflexivity.
  - unfold _detect_architecture_patterns.
    repeat match goal with
           | |- context [existsb ?p directories] =>
               destruct (existsb p directories)
           end;
      cbn [app];
      repeat (apply NoDup_cons;
              [cbn [In]; intros H;
               repeat (destruct H as [H|H]; [discriminate H|]); exact H|]);
      apply NoDup_nil.
  - reflexivity.
  - intros p. unfold _detect_architecture_patterns.
    rewrite !in_app_iff.
    intros [H|[H|[H|[H|H]]]];
      [left | right; left | right; right; left
       | right; right; right; left | right; right; right; right];
      apply pattern_block_monotone; exact H.
Qed.


Lemma X26_witness :
  In "src-based-structure"
     (_detect_architecture_patterns (["src/app"] ++ ["docs"])).
Proof.
  apply (proj2 (proj2 (proj2
           (X26_architecture_patterns_are_ordered_and_monotone
              ["src/app"] ["docs"])))).
  left. reflexivity.
Defined.

End GitHubLaws.


(* ================================================================= *)
(** * Enhanced endpoints: laws *)

Module EndpointLaws.
Import EnhancedAnalyzer EnhancedEndpoints PyFacts.

Lemma max_by_spec {A : Type} (key : A -> Q) (rest : list A) (best : A) :
  In (max_by key best rest) (best :: rest)
  /\ Forall (fun x => key x <= key (max_by key best rest)) (best :: rest).
Proof.
  revert best. induction rest as [|x rest IH]; intro best; cbn [max_by].
  - split; [left; reflexivity|].
    constructor; [apply Qle_refl | constructor].
  - case_Qltb (key best) (key x).
    + destruct (IH x) as [Hin Hall]. split.
      * right. exact Hin.
      * inversion Hall as [|? ? Hx Hrest]; subst.
        constructor; [lra|]. constructor; assumption.
    + destruct (IH best) as [Hin Hall]. split.
      * destruct Hin as [Hin|Hin]; [left; exact Hin | right; right; exact Hin].
      * inversion Hall as [|? ? Hb Hrest]; subst.
        constructor; [exact Hb|]. constructor; [lra | exact Hrest].
Qed.

(** X27.  The portfolio insights are absent exactly for no analysis.
    Otherwise the top performing repository is one of the analysed
    repositories, the insights carry its name, overall score and market
    position, and no analysis has a greater overall score. *)
Theorem X27_top_performer_has_the_greatest_overall_score
    (enhanced_analyses : list EnhancedAnalysis) :
  match _calculate_portfolio_insights enhanced_analyses with
  | None => enhanced_analyses = []
  | Some insights =>
      exists top,
        In top enhanced_analyses
        /\ top_name insights = name (ea_repository top)
        /\ top_overall_score insights = e_overall_score (enhanced_scores top)
        /\ top_market_position insights
           = market_position_score (enhanced_scores top)
        /\ Forall (fun analysis =>
                     e_overall_score (enhanced_scores analysis)
                     <= top_overall_score insights)
                  enhanced_analyses
  end.
Proof.
  destruct enhanced_analyses as [|first rest]; [reflexivity|].
  unfold _calculate_portfolio_insights.
  cbv beta iota zeta delta
      [top_name top_overall_score top_market_position].
  destruct (max_by_spec (fun x => e_overall_score (enhanced_scores x))
                        rest first) as [Hin Hall].
  eexists. split; [exact Hin|].
  split; [reflexivity|]. split; [reflexivity|]. split; [reflexivity|].
  exact Hall.
Qed.

Lemma fold_count_acc (xs : list nat) (acc : nat) :
  fold_left Nat.add xs acc = (acc + fold_left Nat.add xs 0)%nat.
Proof.
  revert acc. induction xs as [|x xs IH]; intro acc; simpl; [lia|].
  rewrite (IH (acc + x)%nat), (IH x). lia.
Qed.

Lemma count_improvements_cons (p : string) (a : EnhancedAnalysis)
      (rest : list EnhancedAnalysis) :
  count_improvements p (a :: rest)
  = (count_priority p (ea_improvements a) + count_improvements p rest)%nat.
Proof.
  unfold count_improvements. cbn [map fold_left].
  rewrite fold_count_acc. reflexivity.
Qed.

(** Every improvement is of high, of medium or of another priority. *)
Lemma priorities_partition (improvements : list Recommendation) :
  (count_priority "high" improvements
   + count_priority "medium" improvements
   + List.length (filter Domain.other_priority improvements)
   = List.length improvements)%nat.
Proof.
  unfold count_priority.
  induction improvements as [|r rest IH]; [reflexivity|].
  cbn [filter]. unfold Domain.other_priority at 1.
  destruct (String.eqb (priority r) "high") eqn:Eh.
  - apply String.eqb_eq in Eh.
    replace (String.eqb (priority r) "medium") with false
      by (rewrite Eh; reflexivity).
    cbn [orb negb List.length]. lia.
  - destruct (String.eqb (priority r) "medium");
      cbn [orb negb List.length]; lia.
Qed.

(** X28.  The improvement summary counts the improvements of high and of
    medium priority only: its total is their sum, and it falls short of
    the number of improvements of the analyses by the improvements of any
    other priority, the low ones among them. *)
Theorem X28_improvement_summary_leaves_out_other_priorities
    (enhanced_analyses : list EnhancedAnalysis) :
  match _calculate_portfolio_insights enhanced_analyses with
  | None => enhanced_analyses = []
  | Some insights =>
      total_improvements insights
      = (high_priority insights + medium_priority insights)%nat
      /\ (total_improvements insights
          + List.length (filter Domain.other_priority
                                (Domain.all_improvements enhanced_analyses))
          = List.length (Domain.all_improvements enhanced_analyses))%nat
  end.
Proof.
  destruct enhanced_analyses as [|first rest]; [reflexivity|].
  unfold _calculate_portfolio_insights.
  cbv beta iota zeta delta
      [total_improvements high_priority medium_priority].
  split; [reflexivity|].
  generalize (first :: rest). intro l.
  induction l as [|a l IH]; [reflexivity|].
  rewrite !count_improvements_cons.
  unfold Domain.all_improvements in *. cbn [flat_map].
  rewrite filter_app, !length_app.
  pose proof (priorities_partition (ea_improvements a)). lia.
Qed.

Section Batch.
Variable now : Z.
Variable fromisoformat : string -> Py.pyresult Py.datetime.
Variable _github_search : string -> nat -> list SearchItem.
Variable get_languages : string -> string -> Py.dict Z.
Variable get_contributors : string -> string -> list Contributor.
Variable get_commits : string -> string -> list Commit.
Variable get_issues : string -> string -> list Issue.
Variable get_repositories :
  string -> Z -> Py.pyresult (list RepositoryData).

Local Abbreviation enhance :=
  (enhance_repository_analysis
     now fromisoformat _github_search get_languages get_contributors
     get_commits get_issues).

Local Abbreviation analyzed :=
  (analyze_each
     now fromisoformat _github_search get_languages get_contributors
     get_commits get_issues).

Lemma fold_enhanced (repositories : list RepositoryData) acc :
  fold_left
    (fun enhanced_analyses repo =>
       match enhance repo with
       | Py.Ok analysis => (enhanced_analyses ++ [analysis])%list
       | Py.Raise _ => enhanced_analyses
       end)
    repositories acc
  = (acc ++ flat_map (fun repo => match enhance repo with
                                  | Py.Ok analysis => [analysis]
                                  | Py.Raise _ => []
                                  end) repositories)%list.
Proof.
  revert acc. induction repositories as [|x xs IH]; intro acc; simpl.
  - now rewrite app_nil_r.
  - rewrite IH. destruct (enhance x); simpl;
      [now rewrite <- app_assoc | reflexivity].
Qed.

Lemma analyze_each_results (repositories : list RepositoryData) ea :
  In ea (analyzed repositories) ->
  exists repo, In repo repositories /\ enhance repo = Py.Ok ea.
Proof.
  unfold analyze_each. rewrite fold_enhanced. simpl.
  rewrite in_flat_map. intros (repo & Hin & Hea). exists repo.
  split; [exact Hin|].
  destruct (enhance repo) as [ea'|e]; simpl in Hea; [|destruct Hea].
  destruct Hea as [->|[]]. reflexivity.
Qed.

Lemma analyze_each_length (repositories : list RepositoryData) :
  (List.length (analyzed repositories) <= List.length repositories)%nat.
Proof.
  unfold analyze_each. rewrite fold_enhanced. simpl.
  induction repositories as [|x xs IH]; simpl; [lia|].
  rewrite length_app. destruct (enhance x); simpl; lia.
Qed.

(** The enhanced scores carry the three scores of the basic analysis. *)
Lemma enhance_basic_scores repo ea :
  enhance repo = Py.Ok ea ->
  let e := enhanced_scores ea in
  (1 <= e_technical_score e <= 10)
  /\ (1 <= e_quality_score e <= 10)
  /\ (1 <= e_activity_score e <= 10).
Proof.
  unfold enhance_repository_analysis.
  destruct (RepositoryAnalyzer.analyze_repository
              now fromisoformat get_languages get_contributors get_commits
              get_issues repo) as [basic|e] eqn:E; cbn [Py.bind];
    [|discriminate].
  intros [= <-]. cbv zeta.
  apply ScorerFacts.analyze_repository_scores in E.
  exact E.
Qed.

Lemma rounded_average_between (f : EnhancedAnalysis -> Q)
      (analyses : list EnhancedAnalysis) :
  analyses <> [] ->
  Forall (fun a => 1 <= f a <= 10) analyses ->
  1 <= Py.round2 (average f analyses) <= 10.
Proof.
  intros Hne F.
  apply (PortfolioLaws.round2_between 1 10).
  change (inject_Z 1) with 1. change (inject_Z 10) with 10.
  unfold average. rewrite <- (length_map f).
  apply (PortfolioLaws.np_mean_between 1 10 (map f analyses)).
  - destruct analyses; [congruence | discriminate].
  - apply Forall_map. exact F.
Qed.
End Batch.

(** X29.  The batch endpoint fails only when the listing of the
    repositories fails.  Otherwise it reports the number of listed
    repositories and, not above it, the number of analysed ones, with one
    entry each; the portfolio insights are absent exactly when no analysis
    succeeded, and their average technical, quality and activity scores
    lie in [1, 10]. *)
Theorem X29_batch_endpoint_counts_and_averages
    (now : Z) (fromisoformat : string -> Py.pyresult Py.datetime)
    (_github_search : string -> nat -> list SearchItem)
    (get_languages : string -> string -> Py.dict Z)
    (get_contributors : string -> string -> list Contributor)
    (get_commits : string -> string -> list Commit)
    (get_issues : string -> string -> list Issue)
    (get_repositories : string -> Z -> Py.pyresult (list RepositoryData))
    (username : string) (max_repos : Z) :
  match enhanced_batch_analyze_repositories
          now fromisoformat _github_search get_languages get_contributors
          get_commits get_issues get_repositories username max_repos
  with
  | Py.Raise _ =>
      exists e, get_repositories username max_repos = Py.Raise e
  | Py.Ok response =>
      exists repositories,
        get_repositories username max_repos = Py.Ok repositories
        /\ total_repositories response = List.length repositories
        /\ (analyzed_repositories response
            <= total_repositories response)%nat
        /\ List.length (br_enhanced_analyses response)
           = analyzed_repositories response
        /\ match portfolio_insights response with
           | None => analyzed_repositories response = 0%nat
           | Some insights =>
               (0 < analyzed_repositories response)%nat
               /\ (1 <= avg_technical insights <= 10)
               /\ (1 <= avg_quality insights <= 10)
               /\ (1 <= avg_activity insights <= 10)
           end
  end.
Proof.
  unfold enhanced_batch_analyze_repositories.
  destruct (get_repositories username max_repos) as [repositories|e];
    [|exists e; reflexivity].
  cbv zeta.
  cbv beta iota delta
      [total_repositories analyzed_repositories br_enhanced_analyses
       portfolio_insights].
  exists repositories. split; [reflexivity|]. split; [reflexivity|].
  split; [apply analyze_each_length|].
  split; [apply length_map|].
  pose proof (analyze_each_results
                now fromisoformat _github_search get_languages
                get_contributors get_commits get_issues repositories)
    as Hres.
  set (l := analyze_each _ _ _ _ _ _ _ _) in *.
  assert (F : Forall (fun a =>
                        (1 <= e_technical_score (enhanced_scores a) <= 10)
                        /\ (1 <= e_quality_score (enhanced_scores a) <= 10)
                        /\ (1 <= e_activity_score (enhanced_scores a) <= 10))
                     l).
  { apply Forall_forall. intros a Ha.
    destruct (Hres a Ha) as (repo & _ & E).
    exact (enhance_basic_scores _ _ _ _ _ _ _ repo a E). }
  clearbody l. clear Hres.
  destruct l as [|first rest]; [reflexivity|].
  unfold _calculate_portfolio_insights.
  cbv beta iota zeta delta [avg_technical avg_quality avg_activity].
  split; [simpl; lia|].
  split; [|split]; apply rounded_average_between; try discriminate;
    (eapply Forall_impl; [|exact F]); cbv beta; intros a H; tauto.
Qed.

End EndpointLaws.
